(** * GloriaFood webhook service: order intake and DoorDash dispatch

    A shallow embedding of the TypeScript sources
      - [src/database.ts]          (class [OrderDatabase], SQLite backend)
      - [src/database-mysql.ts]    (class [OrderDatabaseMySQL], pooled backend)
      - [src/doordash-client.ts]   (class [DoorDashClient])
      - [src/webhook-mode.ts]      (class [GloriaFoodWebhookServer])
    together with the fragment of the JavaScript runtime these files rely on
    (truthiness, [||], property access, [String(x)], [trim], [toLowerCase],
    [parseFloat], [JSON.stringify]). *)

From Stdlib Require Import List String Ascii ZArith NArith Bool Lia.
From Stdlib Require Import DecimalString.
Import ListNotations.

#[local] Set Warnings "-register-all".

Local Open Scope list_scope.
Local Open Scope string_scope.

(* ================================================================== *)
(** * The JavaScript values the service handles *)
(* ================================================================== *)

Module JS.

(** A JavaScript number.  Payload numbers come out of [JSON.parse], so they
    are decimal literals; [parseFloat] can also produce [NaN] and the two
    infinities.  [Dec neg m e] stands for (-1)^neg * m * 10^e.  The range
    and the binary rounding of the IEEE double are not represented. *)
Inductive JSNum : Type :=
| NaN
| Infinity (neg : bool)
| Dec (neg : bool) (mant : N) (exp10 : Z).

(** The values of type [any] that flow through the service: what
    [JSON.parse] builds, plus [undefined] for absent properties.  An object
    is the list of its own properties in insertion order.  Objects are plain
    JSON objects: none of their keys shadows a member of [Object.prototype]
    or [Array.prototype] that the runtime calls ([toString], [valueOf]). *)
Inductive JValue : Type :=
| JUndefined
| JNull
| JBool (b : bool)
| JNum (n : JSNum)
| JStr (s : string)
| JArr (elems : list JValue)
| JObj (fields : list (string * JValue)).

Definition num_is_zero (n : JSNum) : bool :=
  match n with
  | Dec _ m _ => N.eqb m 0
  | _ => false
  end.

Definition num_is_nan (n : JSNum) : bool :=
  match n with NaN => true | _ => false end.

(** [ToBoolean]. *)
Definition truthy (v : JValue) : bool :=
  match v with
  | JUndefined | JNull => false
  | JBool b => b
  | JNum n => negb (num_is_zero n || num_is_nan n)
  | JStr s => negb (String.eqb s "")
  | JArr _ | JObj _ => true
  end.

Definition nullish (v : JValue) : bool :=
  match v with JUndefined | JNull => true | _ => false end.

(** [a || b]. *)
Definition jor (a b : JValue) : JValue := if truthy a then a else b.

Infix "<||>" := jor (at level 51, left associativity).

Fixpoint lookup (k : string) (fields : list (string * JValue)) : JValue :=
  match fields with
  | [] => JUndefined
  | (k', v) :: rest => if String.eqb k k' then v else lookup k rest
  end.

(** [v.k] for a receiver [v] that is neither [null] nor [undefined]: an own
    property of an object, [undefined] on every other value (none of the
    property names read by the service exists on strings, numbers, booleans
    or arrays).  Every use below either has a receiver already tested for
    truthiness, or goes through [opt]. *)
Definition get (v : JValue) (k : string) : JValue :=
  match v with
  | JObj fields => lookup k fields
  | _ => JUndefined
  end.

(** [v?.k]. *)
Definition opt (v : JValue) (k : string) : JValue :=
  if nullish v then JUndefined else get v k.

(** ** Strings *)

Definition is_space (c : ascii) : bool :=
  let n := nat_of_ascii c in
  Nat.eqb n 32 || (Nat.leb 9 n && Nat.leb n 13).

Definition lower_ascii (c : ascii) : ascii :=
  let n := nat_of_ascii c in
  if Nat.leb 65 n && Nat.leb n 90 then ascii_of_nat (n + 32) else c.

(** [s.toLowerCase()], on the ASCII letters. *)
Fixpoint toLowerCase (s : string) : string :=
  match s with
  | EmptyString => EmptyString
  | String c r => String (lower_ascii c) (toLowerCase r)
  end.

Fixpoint trimStart (s : string) : string :=
  match s with
  | EmptyString => EmptyString
  | String c r => if is_space c then trimStart r else s
  end.

Fixpoint trimEnd (s : string) : string :=
  match s with
  | EmptyString => EmptyString
  | String c r =>
      match trimEnd r with
      | EmptyString => if is_space c then EmptyString else String c EmptyString
      | r' => String c r'
      end
  end.

(** [s.trim()], on the ASCII white space. *)
Definition trim (s : string) : string := trimEnd (trimStart s).

Fixpoint join (sep : string) (l : list string) : string :=
  match l with
  | [] => ""
  | [x] => x
  | x :: rest => x ++ sep ++ join sep rest
  end.

Fixpoint repeat_char (c : ascii) (n : nat) : string :=
  match n with
  | O => EmptyString
  | S n' => String c (repeat_char c n')
  end.

Fixpoint take (n : nat) (s : string) : string :=
  match n, s with
  | S n', String c r => String c (take n' r)
  | _, _ => EmptyString
  end.

Fixpoint drop (n : nat) (s : string) : string :=
  match n, s with
  | S n', String _ r => drop n' r
  | _, _ => s
  end.

(** ** Numbers as strings *)

Definition digits_of_N (n : N) : string :=
  NilEmpty.string_of_uint (N.to_uint n).

(** Drop the trailing zeros of a digit string, counting them. *)
Fixpoint strip_zeros (s : string) : string * nat :=
  match s with
  | EmptyString => (EmptyString, 0)
  | String c r =>
      match strip_zeros r with
      | (EmptyString, k) =>
          if Ascii.eqb c "0" then (EmptyString, S k) else (String c EmptyString, k)
      | (r', k) => (String c r', k)
      end
  end.

(** [Number.prototype.toString] (radix 10), ECMA-262 Number::toString, on
    the digits [s] (k of them) and the position [n] of the decimal point. *)
Definition number_to_string (x : JSNum) : string :=
  match x with
  | NaN => "NaN"
  | Infinity neg => if neg then "-Infinity" else "Infinity"
  | Dec neg m e =>
      if N.eqb m 0 then "0" else
      let '(s, z) := strip_zeros (digits_of_N m) in
      let k := String.length s in
      let n := (Z.of_nat k + Z.of_nat z + e)%Z in
      let sign := if neg then "-" else "" in
      sign ++
      (if (Z.of_nat k <=? n)%Z && (n <=? 21)%Z then
         s ++ repeat_char "0" (Z.to_nat (n - Z.of_nat k))
       else if (0 <? n)%Z && (n <=? 21)%Z then
         take (Z.to_nat n) s ++ "." ++ drop (Z.to_nat n) s
       else if (-6 <? n)%Z && (n <=? 0)%Z then
         "0." ++ repeat_char "0" (Z.to_nat (- n)) ++ s
       else
         let ex := (n - 1)%Z in
         let es := (if (ex <? 0)%Z then "-" else "+") ++ digits_of_N (Z.abs_N ex) in
         if Nat.eqb k 1 then s ++ "e" ++ es
         else take 1 s ++ "." ++ drop 1 s ++ "e" ++ es)
  end.

(** [String(v)], also what a template literal and [v.toString()] produce. *)
Fixpoint to_string (v : JValue) : string :=
  match v with
  | JUndefined => "undefined"
  | JNull => "null"
  | JBool b => if b then "true" else "false"
  | JNum n => number_to_string n
  | JStr s => s
  | JArr elems =>
      join "," (map (fun e => if nullish e then "" else to_string e) elems)
  | JObj _ => "[object Object]"
  end.

(** ** [parseFloat] *)

Definition is_digit (c : ascii) : bool :=
  let n := nat_of_ascii c in Nat.leb 48 n && Nat.leb n 57.

Fixpoint span_digits (s : string) : string * string :=
  match s with
  | EmptyString => (EmptyString, EmptyString)
  | String c r =>
      if is_digit c
      then let '(d, rest) := span_digits r in (String c d, rest)
      else (EmptyString, s)
  end.

Fixpoint N_of_digits_from (acc : N) (s : string) : N :=
  match s with
  | EmptyString => acc
  | String c r => N_of_digits_from (acc * 10 + N.of_nat (nat_of_ascii c - 48)) r
  end.

Definition N_of_digits (s : string) : N := N_of_digits_from 0 s.

Definition parse_sign (s : string) : bool * string :=
  match s with
  | String "-" r => (true, r)
  | String "+" r => (false, r)
  | _ => (false, s)
  end.

Definition is_empty (s : string) : bool :=
  match s with EmptyString => true | _ => false end.

(** The exponent part of a StrDecimalLiteral, read only when digits follow. *)
Definition parse_exponent (s : string) : Z :=
  match s with
  | String c r =>
      if Ascii.eqb c "e" || Ascii.eqb c "E" then
        let '(eneg, r1) := parse_sign r in
        let '(ed, _) := span_digits r1 in
        if is_empty ed then 0%Z
        else if eneg then (- Z.of_N (N_of_digits ed))%Z
        else Z.of_N (N_of_digits ed)
      else 0%Z
  | EmptyString => 0%Z
  end.

(** [parseFloat] on a string: leading white space is skipped, the longest
    prefix that is a StrDecimalLiteral is read, and [NaN] is the answer when
    there is none. *)
Definition parseFloat_string (s : string) : JSNum :=
  let '(neg, s0) := parse_sign (trimStart s) in
  if String.prefix "Infinity" s0 then Infinity neg else
  let '(ip, s1) := span_digits s0 in
  let '(fp, s2) :=
    match s1 with
    | String "." r => span_digits r
    | _ => (EmptyString, s1)
    end in
  if is_empty ip && is_empty fp then NaN
  else Dec neg (N_of_digits (ip ++ fp))
           (parse_exponent s2 - Z.of_nat (String.length fp)).

(** [parseFloat(v)]: the argument is first converted with [ToString]. *)
Definition parseFloat (v : JValue) : JSNum := parseFloat_string (to_string v).

(** ** [JSON.stringify] *)

Definition dquote : ascii := "034".
Definition backslash : ascii := "092".

Definition hex_digit (n : nat) : ascii :=
  if Nat.ltb n 10 then ascii_of_nat (48 + n) else ascii_of_nat (87 + n).

Definition json_escape_char (c : ascii) : string :=
  let n := nat_of_ascii c in
  if Nat.eqb n 34 then String backslash (String dquote EmptyString)
  else if Nat.eqb n 92 then String backslash (String backslash EmptyString)
  else if Nat.eqb n 8 then String backslash "b"
  else if Nat.eqb n 9 then String backslash "t"
  else if Nat.eqb n 10 then String backslash "n"
  else if Nat.eqb n 12 then String backslash "f"
  else if Nat.eqb n 13 then String backslash "r"
  else if Nat.ltb n 32 then
    String backslash
      ("u00" ++ String (hex_digit (n / 16)) (String (hex_digit (n mod 16)) EmptyString))
  else String c EmptyString.

Fixpoint json_escape (s : string) : string :=
  match s with
  | EmptyString => EmptyString
  | String c r => json_escape_char c ++ json_escape r
  end.

Definition json_quote (s : string) : string :=
  String dquote (json_escape s ++ String dquote EmptyString).

(** The JSON text of a value in element or property position: [undefined]
    and the non-finite numbers become [null] in an array, and a property
    whose value is [undefined] is left out. *)
Fixpoint json_text (v : JValue) : string :=
  match v with
  | JUndefined | JNull => "null"
  | JBool b => if b then "true" else "false"
  | JNum n => match n with Dec _ _ _ => number_to_string n | _ => "null" end
  | JStr s => json_quote s
  | JArr elems => "[" ++ join "," (map json_text elems) ++ "]"
  | JObj fields =>
      "{" ++
      join ","
        ((fix members (fs : list (string * JValue)) : list string :=
            match fs with
            | [] => []
            | (k, x) :: rest =>
                match x with
                | JUndefined => members rest
                | _ => (json_quote k ++ ":" ++ json_text x) :: members rest
                end
            end) fields) ++
      "}"
  end.

(** [JSON.stringify(v)]: a string, or [undefined] for [undefined]. *)
Definition JSON_stringify (v : JValue) : JValue :=
  match v with
  | JUndefined => JUndefined
  | _ => JStr (json_text v)
  end.

End JS.
Import JS.

(* ================================================================== *)
(** * The orders table, the environment and the effects *)
(* ================================================================== *)

(** A row of the [orders] table (interface [Order]).  A cell holds the
    JavaScript value that was bound to it, [JNull] for SQL NULL; the
    conversions of the storage engines are not represented.  The surrogate
    key [id], which no code path of the service reads, is left out. *)
Record Order : Type := mkOrder {
  gloriafood_order_id : string;
  store_id : string;
  customer_name : JValue;
  customer_phone : JValue;
  customer_email : JValue;
  delivery_address : JValue;
  total_price : JSNum;
  currency : JValue;
  status : JValue;
  order_type : JValue;
  items : string;
  raw_data : string;
  created_at : JValue;
  updated_at : JValue;
  fetched_at : JValue;
  sent_to_doordash : Z;
  doordash_order_id : JValue;
  doordash_sent_at : JValue;
  doordash_tracking_url : JValue
}.

(** What a thrown value can be. *)
Inductive JSError : Type :=
| TypeError (what : string)
| DriverError
    (* raised inside better-sqlite3 or mysql2 *)
| AxiosError (response : option (Z * JValue)) (message : string)
    (* a rejected request; [response] is [error.response]'s status and data *)
| MissingIdentifier
    (* Error: Missing DoorDash identifier to query status *)
| DoorDashNotFound (key : string) (raw : JValue)
    (* Error: DoorDash not found (404) for identifier <key> ... Raw: <raw> *)
| DoorDashApiError (code : Z) (raw : JValue)
    (* Error: DoorDash API Error: <code> - <raw> *)
| DoorDashFailure (message : string).
    (* Error: DoorDash API Error: <message> *)

(** [error.message] *)
Definition error_message (e : JSError) : string :=
  match e with
  | TypeError what => what
  | DriverError => "driver error"
  | AxiosError _ m => m
  | MissingIdentifier => "Missing DoorDash identifier to query status"
  | DoorDashNotFound _ _ => "DoorDash not found (404)"
  | DoorDashApiError _ _ => "DoorDash API Error"
  | DoorDashFailure m => "DoorDash API Error: " ++ m
  end.

(** A request sent to the partner API through axios. *)
Inductive Request : Type :=
| HttpGet (path : string)
| HttpPost (path : string) (body : JValue).

Inductive HttpOutcome : Type :=
| HttpOk (data : JValue)                      (* a 2xx response *)
| HttpStatus (code : Z) (data : JValue)       (* error.response is set *)
| HttpNoResponse (message : string).          (* no response at all *)

(** What the service does not decide: the wall clock, whether a call into
    the SQL driver raises, the rows a time-window query selects, and the
    partner's answer to each request.  Each is indexed by the number of
    earlier readings or calls. *)
Record Env : Type := mkEnv {
  clock : nat -> string;
  db_fault : nat -> bool;
  within_minutes : nat -> nat -> Order -> bool;
  http : nat -> Request -> HttpOutcome;
  randomUUID : nat -> string
}.

Record World : Type := mkWorld {
  orders : list Order;          (* the table, in insertion order *)
  pool_in_use : nat;            (* pooled connections handed out, not released *)
  clock_reads : nat;
  db_calls : nat;
  http_log : list Request;      (* requests issued so far, oldest first *)
  dispatch_attempts : nat       (* entries into the try block of sendOrderToDoorDash *)
}.

Definition set_orders (t : list Order) (w : World) : World :=
  mkWorld t (pool_in_use w) (clock_reads w) (db_calls w) (http_log w) (dispatch_attempts w).
Definition set_pool_in_use (n : nat) (w : World) : World :=
  mkWorld (orders w) n (clock_reads w) (db_calls w) (http_log w) (dispatch_attempts w).
Definition set_clock_reads (n : nat) (w : World) : World :=
  mkWorld (orders w) (pool_in_use w) n (db_calls w) (http_log w) (dispatch_attempts w).
Definition set_db_calls (n : nat) (w : World) : World :=
  mkWorld (orders w) (pool_in_use w) (clock_reads w) n (http_log w) (dispatch_attempts w).
Definition set_http_log (l : list Request) (w : World) : World :=
  mkWorld (orders w) (pool_in_use w) (clock_reads w) (db_calls w) l (dispatch_attempts w).
Definition set_dispatch_attempts (n : nat) (w : World) : World :=
  mkWorld (orders w) (pool_in_use w) (clock_reads w) (db_calls w) (http_log w) n.

(** How a call ends: with a value, with a thrown error, or never (a promise
    that is not settled). *)
Inductive Outcome (A : Type) : Type :=
| Done (a : A)
| Raise (e : JSError)
| Blocked.
Arguments Done {A} a.
Arguments Raise {A} e.
Arguments Blocked {A}.

(** A computation with effects on the world; what it did before throwing
    stays done. *)
Definition M (A : Type) : Type := World -> Outcome A * World.

Definition ret {A} (a : A) : M A := fun w => (Done a, w).
Definition throw {A} (e : JSError) : M A := fun w => (Raise e, w).

Definition bind {A B} (m : M A) (k : A -> M B) : M B :=
  fun w =>
    match m w with
    | (Done a, w') => k a w'
    | (Raise e, w') => (Raise e, w')
    | (Blocked, w') => (Blocked, w')
    end.

(** [try { m } catch (e) { h e }]. *)
Definition try_catch {A} (m : M A) (h : JSError -> M A) : M A :=
  fun w =>
    match m w with
    | (Raise e, w') => h e w'
    | r => r
    end.

Notation "x <- m ;; k" := (bind m (fun x => k))
  (at level 61, m at next level, right associativity).
Notation "m ;;; k" := (bind m (fun _ => k))
  (at level 61, right associativity).

Definition when (b : bool) (m : M unit) : M unit := if b then m else ret tt.

Section Effects.

Variable env : Env.

(** [new Date().toISOString()], and [NOW()] on the database server. *)
Definition now : M JValue :=
  fun w => (Done (JStr (clock env (clock_reads w))),
            set_clock_reads (S (clock_reads w)) w).

(** One call into the SQL driver: it raises when the environment says so. *)
Definition driver_call : M unit :=
  fun w =>
    let w' := set_db_calls (S (db_calls w)) w in
    if db_fault env (db_calls w) then (Raise DriverError, w') else (Done tt, w').

(** A statement that reads the table. *)
Definition sql_read {A} (f : list Order -> A) : M A :=
  driver_call ;;; (fun w => (Done (f (orders w)), w)).

(** A statement that writes the table. *)
Definition sql_write (f : list Order -> list Order) : M unit :=
  driver_call ;;; (fun w => (Done tt, set_orders (f (orders w)) w)).

(** One request through axios: a 2xx response resolves with its data,
    anything else rejects. *)
Definition axios (req : Request) : M JValue :=
  fun w =>
    let w' := set_http_log (http_log w ++ [req])%list w in
    match http env (List.length (http_log w)) req with
    | HttpOk data => (Done data, w')
    | HttpStatus code data => (Raise (AxiosError (Some (code, data)) "Request failed"), w')
    | HttpNoResponse msg => (Raise (AxiosError None msg), w')
    end.

End Effects.

(** [formatStatus(status)] of both [GloriaFoodWebhookServer] and
    [GloriaFoodOrderFetcher]:
    [(statusColors[status.toLowerCase()] || chalk.white)(status.toUpperCase())].
    [statusColors] is an object literal, so the lookup also finds what the
    literal inherits from [Object.prototype].  Two names of that prototype
    are all lower case: [constructor], whose value [Object] can be called,
    and [__proto__], whose value is the prototype object itself, which is
    not a function: calling it throws.  No character outside ASCII
    lowercases to a letter of that name, so [toLowerCase] on the ASCII
    letters decides the test.  [status] is a cell of a text column;
    where the payload's status was not a string the cell holds the text the
    engine made of the number, the boolean or the JSON, which is not one of
    the two names, and [chalk.white] renders it. *)
Definition formatStatus (status : JValue) : M unit :=
  match status with
  | JStr s =>
      if String.eqb (toLowerCase s) "__proto__"
      then throw (TypeError "colorizer is not a function")
      else ret tt
  | _ => ret tt
  end.

(* ================================================================== *)
(** * The order record built from a payload *)
(* ================================================================== *)

(** [v?.toString()]. *)
Definition toString_opt (v : JValue) : JValue :=
  if nullish v then JUndefined else JStr (to_string v).

(** Reading a value whose static type is [string]. *)
Definition as_string (v : JValue) : string :=
  match v with JStr s => s | _ => "" end.

(** [orderData.id?.toString() || orderData.order_id?.toString() || ''] *)
Definition external_order_id (orderData : JValue) : string :=
  as_string (toString_opt (get orderData "id")
             <||> toString_opt (get orderData "order_id")
             <||> JStr "").

(** [parseFloat(orderData.total_price || orderData.total || '0')] *)
Definition normalized_total_price (orderData : JValue) : JSNum :=
  parseFloat (get orderData "total_price" <||> get orderData "total" <||> JStr "0").

(** [JSON.stringify(orderData.items || orderData.order_items || [])]; the
    argument is never [undefined], so the result is a string. *)
Definition normalized_items (orderData : JValue) : string :=
  json_text (get orderData "items" <||> get orderData "order_items" <||> JArr []).

Section BuildOrder.

Variable env : Env.
Variables extractCustomerName extractCustomerPhone
          extractCustomerEmail extractDeliveryAddress : JValue -> JValue.

(** The object literal [const order: Order = { ... }], textually the same in
    both backends, given the three time stamps it evaluates. *)
Definition order_literal (orderData created updated fetched : JValue) : Order :=
  {| gloriafood_order_id := external_order_id orderData;
     store_id :=
       as_string (toString_opt (get orderData "store_id")
                  <||> toString_opt (get orderData "restaurant_id")
                  <||> JStr "");
     customer_name := extractCustomerName orderData;
     customer_phone := extractCustomerPhone orderData;
     customer_email := extractCustomerEmail orderData;
     delivery_address := extractDeliveryAddress orderData;
     total_price := normalized_total_price orderData;
     currency := get orderData "currency" <||> JStr "USD";
     status := get orderData "status" <||> get orderData "order_status" <||> JStr "unknown";
     order_type := get orderData "order_type" <||> get orderData "type" <||> JStr "unknown";
     items := normalized_items orderData;
     raw_data := json_text orderData;
     created_at := created;
     updated_at := updated;
     fetched_at := fetched;
     sent_to_doordash := 0;
     doordash_order_id := JNull;
     doordash_sent_at := JNull;
     doordash_tracking_url := JNull |}.

(** Building [order]: reading a property of [null] or [undefined] throws;
    [created_at] is [orderData.created_at || orderData.order_date ||
    new Date().toISOString()]. *)
Definition build_order (orderData : JValue) : M Order :=
  if nullish orderData then throw (TypeError "Cannot read properties of undefined")
  else
    created <-
      (let given := get orderData "created_at" <||> get orderData "order_date" in
       if truthy given then ret given else now env) ;;
    updated <- now env ;;
    fetched <- now env ;;
    ret (order_literal orderData created updated fetched).

End BuildOrder.

(** ** Statements on the table *)

Definition has_id (k : string) (r : Order) : bool :=
  String.eqb (gloriafood_order_id r) k.

(** [SELECT * FROM orders WHERE gloriafood_order_id = ?] *)
Definition select_by_id (k : string) (t : list Order) : list Order :=
  filter (has_id k) t.

(** [INSERT ... ON CONFLICT / ON DUPLICATE KEY ... UPDATE] on the unique
    column [gloriafood_order_id]: [merge old new] is the update clause. *)
Definition insert_or_update (merge : Order -> Order -> Order)
    (new : Order) (t : list Order) : list Order :=
  if existsb (has_id (gloriafood_order_id new)) t
  then map (fun old => if has_id (gloriafood_order_id new) old
                       then merge old new else old) t
  else (t ++ [new])%list.

(** [UPDATE orders SET ... WHERE gloriafood_order_id = ?] *)
Definition update_where_id (k : string) (f : Order -> Order)
    (t : list Order) : list Order :=
  map (fun r => if has_id k r then f r else r) t.

(** [COALESCE(?, column)] *)
Definition coalesce (param column : JValue) : JValue :=
  match param with JNull => column | _ => param end.

(** [SELECT COUNT( * ) as count FROM orders] *)
Definition count_rows (t : list Order) : nat := List.length t.

(* ================================================================== *)
(** * [database.ts]: class [OrderDatabase] (better-sqlite3) *)
(* ================================================================== *)

Module OrderDatabase.

Definition extractCustomerName (orderData : JValue) : JValue :=
  let client := get orderData "client" in
  let customer := get orderData "customer" in
  if truthy (opt client "first_name" <||> opt client "last_name") then
    JStr (trim (to_string (get client "first_name" <||> JStr "") ++ " " ++
                to_string (get client "last_name" <||> JStr "")))
  else if truthy (opt customer "name") then get customer "name"
  else if truthy (get orderData "customer_name") then get orderData "customer_name"
  else JStr "Unknown".

Definition extractCustomerPhone (orderData : JValue) : JValue :=
  opt (get orderData "client") "phone"
  <||> opt (get orderData "customer") "phone"
  <||> get orderData "customer_phone"
  <||> get orderData "phone"
  <||> JStr "".

Definition extractCustomerEmail (orderData : JValue) : JValue :=
  opt (get orderData "client") "email"
  <||> opt (get orderData "customer") "email"
  <||> get orderData "customer_email"
  <||> get orderData "email"
  <||> JStr "".

Definition extractDeliveryAddress (orderData : JValue) : JValue :=
  let addr := opt (get orderData "delivery") "address" in
  if truthy addr then
    JStr (join ", "
      (map to_string
        (filter truthy
          [ get addr "street" <||> get addr "address_line_1";
            get addr "city";
            get addr "state";
            get addr "zip" <||> get addr "postal_code";
            get addr "country" ])))
  else if truthy (get orderData "delivery_address") then get orderData "delivery_address"
  else JStr "".

(** [ON CONFLICT(gloriafood_order_id) DO UPDATE SET status, total_price,
    updated_at, fetched_at, raw_data = excluded. ...] *)
Definition on_conflict (old excluded : Order) : Order :=
  {| gloriafood_order_id := gloriafood_order_id old;
     store_id := store_id old;
     customer_name := customer_name old;
     customer_phone := customer_phone old;
     customer_email := customer_email old;
     delivery_address := delivery_address old;
     total_price := total_price excluded;
     currency := currency old;
     status := status excluded;
     order_type := order_type old;
     items := items old;
     raw_data := raw_data excluded;
     created_at := created_at old;
     updated_at := updated_at excluded;
     fetched_at := fetched_at excluded;
     sent_to_doordash := sent_to_doordash old;
     doordash_order_id := doordash_order_id old;
     doordash_sent_at := doordash_sent_at old;
     doordash_tracking_url := doordash_tracking_url old |}.

(** The values handed to [stmt.run]; the dispatch columns take their
    declared defaults ([0] and NULL). *)
Definition inserted_row (order : Order) : Order :=
  {| gloriafood_order_id := gloriafood_order_id order;
     store_id := store_id order;
     customer_name := customer_name order;
     customer_phone := customer_phone order;
     customer_email := customer_email order <||> JNull;
     delivery_address := delivery_address order <||> JNull;
     total_price := total_price order;
     currency := currency order;
     status := status order;
     order_type := order_type order;
     items := items order;
     raw_data := raw_data order;
     created_at := created_at order;
     updated_at := updated_at order;
     fetched_at := fetched_at order;
     sent_to_doordash := 0;
     doordash_order_id := JNull;
     doordash_sent_at := JNull;
     doordash_tracking_url := JNull |}.

(** [SET sent_to_doordash = 1, doordash_order_id = COALESCE(?, ...),
    doordash_tracking_url = COALESCE(?, ...), doordash_sent_at = ?,
    updated_at = ?] *)
Definition mark_sent (doordashOrderId trackingUrl stamp : JValue) (r : Order) : Order :=
  {| gloriafood_order_id := gloriafood_order_id r;
     store_id := store_id r;
     customer_name := customer_name r;
     customer_phone := customer_phone r;
     customer_email := customer_email r;
     delivery_address := delivery_address r;
     total_price := total_price r;
     currency := currency r;
     status := status r;
     order_type := order_type r;
     items := items r;
     raw_data := raw_data r;
     created_at := created_at r;
     updated_at := stamp;
     fetched_at := fetched_at r;
     sent_to_doordash := 1;
     doordash_order_id := coalesce (doordashOrderId <||> JNull) (doordash_order_id r);
     doordash_sent_at := stamp;
     doordash_tracking_url := coalesce (trackingUrl <||> JNull) (doordash_tracking_url r) |}.

Section WithEnv.

Variable env : Env.

(** [this.db.prepare(sql)] *)
Definition prepare : M unit := driver_call env.

Definition getOrderByGloriaFoodId (orderId : string) : M (option Order) :=
  prepare ;;;
  rows <- sql_read env (select_by_id orderId) ;;
  ret (hd_error rows).

(** The [order] object of [insertOrUpdateOrder]. *)
Definition build (orderData : JValue) : M Order :=
  build_order env extractCustomerName extractCustomerPhone
    extractCustomerEmail extractDeliveryAddress orderData.

Definition insertOrUpdateOrder (orderData : JValue) : M (option Order) :=
  try_catch
    (order <- build orderData ;;
     prepare ;;;
     sql_write env (insert_or_update on_conflict (inserted_row order)) ;;;
     getOrderByGloriaFoodId (gloriafood_order_id order))
    (fun _ => ret None).

Definition markOrderSentToDoorDash (gloriafoodOrderId : string)
    (doordashOrderId trackingUrl : JValue) : M unit :=
  try_catch
    (prepare ;;;
     stamp <- now env ;;
     sql_write env
       (update_where_id gloriafoodOrderId (mark_sent doordashOrderId trackingUrl stamp)))
    (fun _ => ret tt).

Definition getRecentOrders (minutes : nat) : M (list Order) :=
  prepare ;;;
  (fun w => sql_read env (filter (within_minutes env (db_calls w) minutes)) w).

Definition getOrderCount : M nat :=
  prepare ;;; sql_read env count_rows.

End WithEnv.

End OrderDatabase.

(* ================================================================== *)
(** * [database-mysql.ts]: class [OrderDatabaseMySQL] (mysql2 pool) *)
(* ================================================================== *)

Module OrderDatabaseMySQL.

Fixpoint first_some {A} (l : list (option A)) : option A :=
  match l with
  | [] => None
  | Some a :: _ => Some a
  | None :: rest => first_some rest
  end.

(** [if (a || b) { const name = `${a || ''} ${b || ''}`.trim(); if (name) return name; }] *)
Definition template_name (a b : JValue) : option string :=
  if truthy (a <||> b) then
    let name := trim (to_string (a <||> JStr "") ++ " " ++ to_string (b <||> JStr "")) in
    if is_empty name then None else Some name
  else None.

(** [if (x && String(x).trim()) return String(x).trim();] *)
Definition trimmed (x : JValue) : option string :=
  if truthy x && negb (is_empty (trim (to_string x)))
  then Some (trim (to_string x)) else None.

(** [if (x) return String(x);] *)
Definition stringified (x : JValue) : option string :=
  if truthy x then Some (to_string x) else None.

(** [if (c) { ... }] around a group of returns. *)
Definition guarded {A} (c : JValue) (body : option A) : option A :=
  if truthy c then body else None.

Definition or_default (d : string) (r : option string) : string :=
  match r with Some s => s | None => d end.

Definition extractCustomerName (orderData : JValue) : string :=
  let client := get orderData "client" in
  let customer := get orderData "customer" in
  let order := get orderData "order" in
  or_default "Unknown" (first_some
    [ (* root level client_* fields first (GloriaFood format) *)
      template_name (get orderData "client_first_name") (get orderData "client_last_name");
      trimmed (get orderData "client_name");
      (* client object (nested format) *)
      guarded client (first_some
        [ template_name (get client "first_name") (get client "last_name");
          stringified (get client "name");
          stringified (get client "full_name");
          stringified (get client "firstName");
          stringified (get client "lastName") ]);
      (* customer object *)
      guarded customer (first_some
        [ stringified (get customer "name");
          template_name (get customer "first_name") (get customer "last_name");
          stringified (get customer "full_name");
          template_name (get customer "firstName") (get customer "lastName") ]);
      (* root level fields *)
      trimmed (get orderData "customer_name");
      trimmed (get orderData "name");
      template_name (get orderData "first_name") (get orderData "last_name");
      (* nested in an order object *)
      guarded (opt (opt order "client") "first_name" <||> opt (opt order "client") "last_name")
        (template_name (get (get order "client") "first_name")
                       (get (get order "client") "last_name"));
      stringified (opt (opt order "customer") "name");
      stringified (opt order "customer_name");
      stringified (opt (opt order "client") "name") ]).

Definition extractCustomerPhone (orderData : JValue) : string :=
  let client := get orderData "client" in
  let customer := get orderData "customer" in
  let order := get orderData "order" in
  or_default "" (first_some (map trimmed
    [ get orderData "client_phone";
      get orderData "client_phone_number";
      opt client "phone";
      opt client "phone_number";
      opt client "mobile";
      opt client "tel";
      opt client "telephone";
      opt customer "phone";
      opt customer "phone_number";
      opt customer "mobile";
      opt customer "tel";
      get orderData "customer_phone";
      get orderData "phone";
      get orderData "phone_number";
      get orderData "mobile";
      get orderData "tel";
      opt (opt order "client") "phone";
      opt (opt order "customer") "phone";
      opt order "phone" ])).

Definition extractCustomerEmail (orderData : JValue) : string :=
  let client := get orderData "client" in
  let customer := get orderData "customer" in
  let order := get orderData "order" in
  or_default "" (first_some (map trimmed
    [ get orderData "client_email";
      opt client "email";
      opt client "email_address";
      opt customer "email";
      opt customer "email_address";
      get orderData "customer_email";
      get orderData "email";
      get orderData "email_address";
      opt (opt order "client") "email";
      opt (opt order "customer") "email";
      opt order "email" ])).

(** [const addressParts = [...].filter(Boolean).map(s => String(s).trim());
     if (addressParts.length > 0) return addressParts.join(', ');] *)
Definition joined_parts (parts : list JValue) : option string :=
  match map (fun s => trim (to_string s)) (filter truthy parts) with
  | [] => None
  | addressParts => Some (join ", " addressParts)
  end.

Definition extractDeliveryAddress (orderData : JValue) : string :=
  let parts := get orderData "client_address_parts" in
  let delivery := get orderData "delivery" in
  let addr := opt delivery "address" in
  let order := get orderData "order" in
  let oaddr := opt (opt order "delivery") "address" in
  or_default "" (first_some
    [ trimmed (get orderData "client_address");
      guarded parts (joined_parts
        [ get parts "street" <||> get parts "address_line_1" <||> get parts "address";
          get parts "more_address" <||> get parts "address_line_2" <||> get parts "apt"
            <||> get parts "apartment";
          get parts "city" <||> get parts "locality" <||> get parts "town";
          get parts "state" <||> get parts "province" <||> get parts "region";
          get parts "zip" <||> get parts "postal_code" <||> get parts "postcode";
          get parts "country" <||> get parts "country_code" ]);
      guarded addr (joined_parts
        [ get addr "street" <||> get addr "address_line_1" <||> get addr "address"
            <||> get addr "line1" <||> get addr "line_1" <||> get addr "street_address";
          get addr "address_line_2" <||> get addr "line2" <||> get addr "line_2"
            <||> get addr "apt" <||> get addr "apartment" <||> get addr "unit";
          get addr "city" <||> get addr "locality" <||> get addr "town";
          get addr "state" <||> get addr "province" <||> get addr "region"
            <||> get addr "state_province";
          get addr "zip" <||> get addr "postal_code" <||> get addr "postcode"
            <||> get addr "zip_code" <||> get addr "postal";
          get addr "country" <||> get addr "country_code" ]);
      guarded delivery (first_some
        [ guarded (get delivery "street" <||> get delivery "city"
                   <||> get delivery "address" <||> get delivery "address_line_1")
            (joined_parts
              [ get delivery "street" <||> get delivery "address"
                  <||> get delivery "address_line_1" <||> get delivery "street_address";
                get delivery "address_line_2" <||> get delivery "line2"
                  <||> get delivery "apt" <||> get delivery "apartment";
                get delivery "city" <||> get delivery "town" <||> get delivery "locality";
                get delivery "state" <||> get delivery "province" <||> get delivery "region";
                get delivery "zip" <||> get delivery "postal_code"
                  <||> get delivery "postcode" <||> get delivery "zip_code";
                get delivery "country" <||> get delivery "country_code" ]);
          trimmed (get delivery "full_address");
          trimmed (get delivery "formatted_address") ]);
      trimmed (get orderData "delivery_address");
      trimmed (get orderData "address");
      trimmed (get orderData "shipping_address");
      trimmed (get orderData "deliveryAddress");
      guarded oaddr (joined_parts
        [ get oaddr "street" <||> get oaddr "address_line_1" <||> get oaddr "address"
            <||> get oaddr "line1";
          get oaddr "city" <||> get oaddr "locality";
          get oaddr "state" <||> get oaddr "province";
          get oaddr "zip" <||> get oaddr "postal_code" <||> get oaddr "postcode";
          get oaddr "country" ]);
      trimmed (opt (opt order "delivery") "full_address");
      trimmed (opt order "delivery_address");
      trimmed (opt order "address") ]).

(** [ON DUPLICATE KEY UPDATE customer_name, customer_phone, customer_email,
    delivery_address, status, total_price, order_type, items, updated_at,
    fetched_at, raw_data = VALUES(...)] *)
Definition on_duplicate_key (old new : Order) : Order :=
  {| gloriafood_order_id := gloriafood_order_id old;
     store_id := store_id old;
     customer_name := customer_name new;
     customer_phone := customer_phone new;
     customer_email := customer_email new;
     delivery_address := delivery_address new;
     total_price := total_price new;
     currency := currency old;
     status := status new;
     order_type := order_type new;
     items := items new;
     raw_data := raw_data new;
     created_at := created_at old;
     updated_at := updated_at new;
     fetched_at := fetched_at new;
     sent_to_doordash := sent_to_doordash old;
     doordash_order_id := doordash_order_id old;
     doordash_sent_at := doordash_sent_at old;
     doordash_tracking_url := doordash_tracking_url old |}.

(** The parameter array of the INSERT; the dispatch columns take their
    declared defaults. *)
Definition inserted_row (order : Order) : Order :=
  {| gloriafood_order_id := gloriafood_order_id order;
     store_id := store_id order;
     customer_name := customer_name order;
     customer_phone := customer_phone order <||> JNull;
     customer_email := customer_email order <||> JNull;
     delivery_address := delivery_address order <||> JNull;
     total_price := total_price order;
     currency := currency order;
     status := status order;
     order_type := order_type order;
     items := items order;
     raw_data := raw_data order;
     created_at := created_at order;
     updated_at := updated_at order;
     fetched_at := fetched_at order;
     sent_to_doordash := 0;
     doordash_order_id := JNull;
     doordash_sent_at := JNull;
     doordash_tracking_url := JNull |}.

(** [SET sent_to_doordash = 1, doordash_order_id = COALESCE(?, ...),
    doordash_sent_at = NOW(), updated_at = NOW()] *)
Definition mark_sent (doordashOrderId stamp : JValue) (r : Order) : Order :=
  {| gloriafood_order_id := gloriafood_order_id r;
     store_id := store_id r;
     customer_name := customer_name r;
     customer_phone := customer_phone r;
     customer_email := customer_email r;
     delivery_address := delivery_address r;
     total_price := total_price r;
     currency := currency r;
     status := status r;
     order_type := order_type r;
     items := items r;
     raw_data := raw_data r;
     created_at := created_at r;
     updated_at := stamp;
     fetched_at := fetched_at r;
     sent_to_doordash := 1;
     doordash_order_id := coalesce (doordashOrderId <||> JNull) (doordash_order_id r);
     doordash_sent_at := stamp;
     doordash_tracking_url := doordash_tracking_url r |}.

(** [connectionLimit: 10] *)
Definition connectionLimit : nat := 10.

Section WithEnv.

Variable env : Env.

(** [await this.pool.getConnection()]: with [waitForConnections: true] and
    [queueLimit: 0] the call waits for as long as every connection is out;
    otherwise a connection is handed out unless the driver raises. *)
Definition getConnection : M unit :=
  fun w =>
    if Nat.leb connectionLimit (pool_in_use w) then (Blocked, w)
    else (driver_call env ;;;
          (fun w' => (Done tt, set_pool_in_use (S (pool_in_use w')) w'))) w.

(** [connection.release()] *)
Definition release : M unit :=
  fun w => (Done tt, set_pool_in_use (Nat.pred (pool_in_use w)) w).

Definition getOrderByGloriaFoodId (orderId : string) : M (option Order) :=
  try_catch
    (getConnection ;;;
     rows <- sql_read env (select_by_id orderId) ;;
     release ;;;
     ret (hd_error rows))
    (fun _ => ret None).

(** The [order] object of [insertOrUpdateOrder]. *)
Definition build (orderData : JValue) : M Order :=
  build_order env
    (fun o => JStr (extractCustomerName o))
    (fun o => JStr (extractCustomerPhone o))
    (fun o => JStr (extractCustomerEmail o))
    (fun o => JStr (extractDeliveryAddress o)) orderData.

Definition insertOrUpdateOrder (orderData : JValue) : M (option Order) :=
  try_catch
    (order <- build orderData ;;
     getConnection ;;;
     sql_write env (insert_or_update on_duplicate_key (inserted_row order)) ;;;
     release ;;;
     getOrderByGloriaFoodId (gloriafood_order_id order))
    (fun _ => ret None).

Definition markOrderSentToDoorDash (gloriafoodOrderId : string)
    (doordashOrderId : JValue) : M unit :=
  try_catch
    (getConnection ;;;
     driver_call env ;;;
     stamp <- now env ;;
     (fun w => (Done tt,
                set_orders (update_where_id gloriafoodOrderId
                              (mark_sent doordashOrderId stamp) (orders w)) w)) ;;;
     release)
    (fun _ => ret tt).

Definition getRecentOrders (minutes : nat) : M (list Order) :=
  try_catch
    (getConnection ;;;
     rows <- (fun w => sql_read env (filter (within_minutes env (db_calls w) minutes)) w) ;;
     release ;;;
     ret rows)
    (fun _ => ret []).

Definition getOrderCount : M nat :=
  try_catch
    (getConnection ;;;
     n <- sql_read env count_rows ;;
     release ;;;
     ret n)
    (fun _ => ret 0).

End WithEnv.

End OrderDatabaseMySQL.

(* ================================================================== *)
(** * [database-factory.ts]: interface [IDatabase] *)
(* ================================================================== *)

(** The operations of the interface that the webhook server calls, with
    [markOrderSentToDoorDash], which it reaches through a cast. *)
Class IDatabase : Type := {
  insertOrUpdateOrder : JValue -> M (option Order);
  getOrderByGloriaFoodId : string -> M (option Order);
  markOrderSentToDoorDash : string -> JValue -> M unit;
  getRecentOrders : nat -> M (list Order);
  getOrderCount : M nat
}.

Definition sqlite (env : Env) : IDatabase :=
  {| insertOrUpdateOrder := OrderDatabase.insertOrUpdateOrder env;
     getOrderByGloriaFoodId := OrderDatabase.getOrderByGloriaFoodId env;
     markOrderSentToDoorDash :=
       fun k ddId => OrderDatabase.markOrderSentToDoorDash env k ddId JUndefined;
     getRecentOrders := OrderDatabase.getRecentOrders env;
     getOrderCount := OrderDatabase.getOrderCount env |}.

Definition mysql (env : Env) : IDatabase :=
  {| insertOrUpdateOrder := OrderDatabaseMySQL.insertOrUpdateOrder env;
     getOrderByGloriaFoodId := OrderDatabaseMySQL.getOrderByGloriaFoodId env;
     markOrderSentToDoorDash := OrderDatabaseMySQL.markOrderSentToDoorDash env;
     getRecentOrders := OrderDatabaseMySQL.getRecentOrders env;
     getOrderCount := OrderDatabaseMySQL.getOrderCount env |}.

(** [DatabaseFactory.createDatabase()] picks one of the two from the
    process environment. *)
Inductive DbType : Type := SQLite | MySQL.

Definition createDatabase (env : Env) (dbType : DbType) : IDatabase :=
  match dbType with
  | SQLite => sqlite env
  | MySQL => mysql env
  end.

(** A variable of [process.env]: a string, or unset. *)
Definition EnvVar : Type := option string.

(** Truthiness of [process.env.X]. *)
Definition is_set (v : EnvVar) : bool :=
  match v with
  | Some s => negb (is_empty s)
  | None => false
  end.

(** The choice [DatabaseFactory.createDatabase] makes:
    [dbType = process.env.DB_TYPE?.toLowerCase() || 'sqlite'], then MySQL
    when [dbType === 'mysql' || (hasMySQLConfig && dbType !== 'sqlite')]. *)
Definition selectedDatabase (DB_TYPE DB_HOST DB_USER DB_NAME : EnvVar) : DbType :=
  let dbType :=
    match DB_TYPE with
    | Some s => if is_empty (toLowerCase s) then "sqlite" else toLowerCase s
    | None => "sqlite"
    end in
  let hasMySQLConfig := is_set DB_HOST || is_set DB_USER || is_set DB_NAME in
  if String.eqb dbType "mysql" || (hasMySQLConfig && negb (String.eqb dbType "sqlite"))
  then MySQL else SQLite.

(* ================================================================== *)
(** * [doordash-client.ts]: class [DoorDashClient] *)
(* ================================================================== *)

Module DoorDashClient.

Record DoorDashResponse : Type := mkResponse {
  id : JValue;
  external_delivery_id : JValue;
  status : JValue;
  tracking_url : JValue;
  raw : JValue
}.

Fixpoint keep_phone_chars (s : string) : string :=
  match s with
  | EmptyString => EmptyString
  | String c r =>
      if is_digit c || Ascii.eqb c "+" then String c (keep_phone_chars r)
      else keep_phone_chars r
  end.

(** [(raw || '').replace(/[^\d+]/g, '')]: only a string has [replace]. *)
Definition normalizePhone (raw : JValue) : JSError + string :=
  match raw <||> JStr "" with
  | JStr s => inr (keep_phone_chars s)
  | _ => inl (TypeError "replace is not a function")
  end.

(** [Math.round(n * 100)] on an exact decimal (halves go up). *)
Definition round_times_100 (neg : bool) (m : N) (e : Z) : JSNum :=
  let e2 := (e + 2)%Z in
  if (0 <=? e2)%Z then Dec neg (m * N.pow 10 (Z.to_N e2)) 0
  else
    let d := N.pow 10 (Z.to_N (- e2)) in
    let q := (m / d)%N in
    let twice_r := (2 * (m mod d))%N in
    let up := if neg then N.ltb d twice_r else N.leb d twice_r in
    Dec neg (if up then q + 1 else q) 0.

(** [toCents]: [Number.isFinite(n) ? Math.round(n * 100) : undefined] with
    [n = parseFloat(v || 0)].  The number is the exact decimal that was
    read: the binary rounding of the double and of its product with 100
    ([Math.round(1.005 * 100)] is 100) and the overflow of the product to
    [Infinity] are not represented, so next to a half cent and beyond 2^53
    the code's value can differ from this one. *)
Definition toCents (v : JValue) : JValue :=
  match parseFloat (v <||> JNum (Dec false 0 0)) with
  | Dec neg m e => JNum (round_times_100 neg m e)
  | _ => JUndefined
  end.

Definition nonempty (s : string) : bool := negb (is_empty s).

(** [convertGloriaFoodToDrive]: the Drive payload, or the [TypeError] of
    [normalizePhone].  [uuid] is what [crypto.randomUUID()] would give. *)
Definition convertGloriaFoodToDrive (uuid : string) (orderData : JValue)
    : JSError + JValue :=
  let parts := get orderData "client_address_parts" in
  let client := get orderData "client" in
  let externalId :=
    toString_opt (get orderData "id") <||> toString_opt (get orderData "order_id")
    <||> JStr uuid in
  let pickupAddressParts :=
    join ", " (map to_string (filter truthy
      [ get orderData "restaurant_street"; get orderData "restaurant_city";
        get orderData "restaurant_state"; get orderData "restaurant_zipcode";
        get orderData "restaurant_country" ])) in
  let country := to_string (opt parts "country" <||> get orderData "restaurant_country" <||> JStr "") in
  let city := to_string (opt parts "city" <||> get orderData "restaurant_city" <||> JStr "") in
  let state := to_string (opt parts "state" <||> get orderData "restaurant_state" <||> JStr "") in
  let zip := to_string (opt parts "zip" <||> opt parts "postal_code"
                        <||> get orderData "restaurant_zipcode" <||> JStr "") in
  let street := to_string (opt parts "street" <||> get orderData "client_address" <||> JStr "") in
  let dropoffAddress :=
    join ", " (filter nonempty
      [ street; city; join " " (filter nonempty [state; zip]); country ]) in
  let given := get orderData "client_first_name" <||> opt client "first_name" <||> JStr "" in
  let family := get orderData "client_last_name" <||> opt client "last_name" <||> JStr "" in
  let phone := get orderData "client_phone" <||> opt client "phone" <||> JStr "" in
  match (if truthy (get orderData "restaurant_phone")
         then match normalizePhone (get orderData "restaurant_phone") with
              | inr p => inr (JStr p)
              | inl e => inl e
              end
         else inr JUndefined) with
  | inl e => inl e
  | inr pickupPhone =>
      match normalizePhone phone with
      | inl e => inl e
      | inr dropoffPhone =>
          inr (JObj
            [ ("external_delivery_id", externalId);
              ("pickup_address", JStr pickupAddressParts);
              ("pickup_phone_number", pickupPhone);
              ("pickup_business_name", get orderData "restaurant_name" <||> JUndefined);
              ("dropoff_address", JStr dropoffAddress);
              ("dropoff_phone_number", JStr dropoffPhone);
              ("dropoff_contact_given_name", given <||> JUndefined);
              ("dropoff_contact_family_name", family <||> JUndefined);
              ("dropoff_instructions", get orderData "instructions" <||> JUndefined);
              ("order_value", toCents (get orderData "total_price")) ])
      end
  end.

(** [encodeURIComponent]: every byte outside [A-Za-z0-9-_.!~*'()] becomes
    a percent escape. *)
Definition upper_hex (n : nat) : ascii :=
  if Nat.ltb n 10 then ascii_of_nat (48 + n) else ascii_of_nat (55 + n).

Definition is_unreserved (c : ascii) : bool :=
  let n := nat_of_ascii c in
  is_digit c || (Nat.leb 65 n && Nat.leb n 90) || (Nat.leb 97 n && Nat.leb n 122)
  || existsb (Nat.eqb n) [45; 95; 46; 33; 126; 42; 39; 40; 41].

Fixpoint encodeURIComponent (s : string) : string :=
  match s with
  | EmptyString => EmptyString
  | String c r =>
      if is_unreserved c then String c (encodeURIComponent r)
      else let n := nat_of_ascii c in
           String "%" (String (upper_hex (n / 16)) (String (upper_hex (n mod 16))
                         (encodeURIComponent r)))
  end.

(** What [getOrderStatus] returns for the data of a successful lookup. *)
Definition status_response (idOrExternalId : string) (response_data : JValue)
    : DoorDashResponse :=
  let data := response_data <||> JObj [] in
  {| id := get data "delivery_id" <||> get data "id" <||> get data "support_reference";
     external_delivery_id := get data "external_delivery_id" <||> JStr idOrExternalId;
     status := get data "status" <||> get data "delivery_status" <||> get data "state";
     tracking_url := get data "tracking_url";
     raw := data |}.

(** The three lookup routes of [getOrderStatus], in the order tried. *)
Definition tryEndpoints (key : string) : list string :=
  [ "/deliveries/" ++ encodeURIComponent key;
    "/deliveries/external_delivery_id/" ++ encodeURIComponent key;
    "/deliveries/by_external_id/" ++ encodeURIComponent key ].

Section WithEnv.

Variable env : Env.

Definition createDriveDelivery (payload : JValue) : M DoorDashResponse :=
  try_catch
    (response_data <- axios env (HttpPost "/deliveries" payload) ;;
     let data := response_data <||> JObj [] in
     ret {| id := get data "delivery_id" <||> get data "id"
                  <||> get data "support_reference" <||> opt (get data "data") "delivery_id";
            external_delivery_id :=
              get data "external_delivery_id" <||> get payload "external_delivery_id";
            status := get data "status" <||> get data "delivery_status"
                      <||> get data "state" <||> opt (get data "data") "status";
            tracking_url := get data "tracking_url" <||> opt (get data "data") "tracking_url";
            raw := data |})
    (fun error =>
       match error with
       | AxiosError (Some (code, data)) _ => throw (DoorDashApiError code data)
       | _ => throw (DoorDashFailure (error_message error))
       end).

(** The [for (const path of tryEndpoints)] loop: the first request that
    succeeds is returned, a failed one is only remembered in [lastError]. *)
Fixpoint try_each (idOrExternalId : string) (paths : list string)
    (lastError : option JSError) : M (DoorDashResponse + option JSError) :=
  match paths with
  | [] => ret (inr lastError)
  | path :: rest =>
      r <- try_catch
             (response_data <- axios env (HttpGet path) ;;
              ret (inl (status_response idOrExternalId response_data)))
             (fun error => ret (inr error)) ;;
      match r with
      | inl response => ret (inl response)
      | inr error => try_each idOrExternalId rest (Some error)
      end
  end.

Definition getOrderStatus (idOrExternalId : string) : M DoorDashResponse :=
  let key := trim idOrExternalId in
  if is_empty key then throw MissingIdentifier
  else
    r <- try_each idOrExternalId (tryEndpoints key) None ;;
    match r with
    | inl response => ret response
    | inr (Some (AxiosError (Some (code, data)) _)) =>
        if (code =? 404)%Z then throw (DoorDashNotFound key data)
        else throw (DoorDashApiError code data)
    | inr (Some error) =>
        throw (DoorDashFailure
                 (as_string (JStr (error_message error) <||> JStr "Unknown error")))
    | inr None => throw (DoorDashFailure "Unknown error")
    end.

(** [cancelOrder]: one POST to the cancel route of the delivery; the id goes
    into the path as it is.  Reading [response.data.id] throws, inside the
    [try], when the body is [null] or absent. *)
Definition cancelOrder (merchantOrderId : string) (reason : JValue)
    : M DoorDashResponse :=
  try_catch
    (response_data <-
       axios env
         (HttpPost ("/deliveries/" ++ merchantOrderId ++ "/cancel")
            (JObj [("cancellation_reason",
                    reason <||> JStr "Restaurant cancellation")])) ;;
     if nullish response_data
     then throw (TypeError "Cannot read properties of undefined (reading 'id')")
     else ret {| id := get response_data "id";
                 external_delivery_id := JUndefined;
                 status := get response_data "status" <||> JStr "cancelled";
                 tracking_url := JUndefined;
                 raw := JUndefined |})
    (fun error =>
       match error with
       | AxiosError (Some (code, data)) _ => throw (DoorDashApiError code data)
       | _ => throw (DoorDashFailure (error_message error))
       end).

End WithEnv.

End DoorDashClient.

(* ================================================================== *)
(** * [webhook-mode.ts]: class [GloriaFoodWebhookServer] *)
(* ================================================================== *)

Module GloriaFoodWebhookServer.

(** The part of an express request the POST handler reads. *)
Record WebhookRequest : Type := mkRequest {
  body : JValue;
  query : JValue
}.

(** The four responses of the POST handler. *)
Inductive WebhookResponse : Type :=
| InvalidPayload                      (* 200 { success: false, error, received } *)
| OrderProcessed (order_id : JValue)  (* 200 { success: true, message, order_id } *)
| StoreFailed                         (* 500 { error: 'Failed to store order' } *)
| WebhookError (message : string).    (* 200 { success: false, error: message } *)

Definition statusCode (r : WebhookResponse) : Z :=
  match r with
  | StoreFailed => 500
  | _ => 200
  end.

Definition success (r : WebhookResponse) : JValue :=
  match r with
  | OrderProcessed _ => JBool true
  | InvalidPayload | WebhookError _ => JBool false
  | StoreFailed => JUndefined
  end.

Definition isArray (v : JValue) : bool :=
  match v with JArr _ => true | _ => false end.

(** [v.length] of an array, [v[0]], [Object.keys(v).length]. *)
Definition array_length (v : JValue) : nat :=
  match v with JArr l => List.length l | _ => 0 end.

Definition first_element (v : JValue) : JValue :=
  match v with JArr (x :: _) => x | _ => JUndefined end.

Definition keys_count (v : JValue) : nat :=
  match v with
  | JObj fields => List.length fields
  | JArr l => List.length l
  | JStr s => String.length s
  | _ => 0
  end.

Definition extractOrderData (body : JValue) : JValue :=
  if negb (truthy body) then JNull
  else if truthy (get body "order") then get body "order"
  else if truthy (get body "data") && truthy (get (get body "data") "order")
       then get (get body "data") "order"
  else if truthy (get body "id" <||> get body "order_id") then body
  else if isArray body && Nat.ltb 0 (array_length body) then first_element body
  else if truthy (get body "orders") && isArray (get body "orders")
          && Nat.ltb 0 (array_length (get body "orders"))
       then first_element (get body "orders")
  else JNull.

(** [const orderId = orderData.id || orderData.order_id || 'unknown'] *)
Definition orderId_of (orderData : JValue) : JValue :=
  get orderData "id" <||> get orderData "order_id" <||> JStr "unknown".

(** [orderData.type || orderData.order_type || ''], the value whose
    [toLowerCase()] the gate of [sendOrderToDoorDash] compares. *)
Definition gate_type (orderData : JValue) : JValue :=
  get orderData "type" <||> get orderData "order_type" <||> JStr "".

(** [(orderData.type || orderData.order_type || '').toString().toLowerCase()
     === 'delivery'] *)
Definition isDeliveryOrder (orderData : JValue) : bool :=
  String.eqb
    (toLowerCase (to_string (gate_type orderData))) "delivery".

(** The order data the handler works on: from the body, or from the query
    parameters when the body gives none. *)
Definition orderData_of (body query : JValue) : JValue :=
  let fromBody := extractOrderData body in
  if negb (truthy fromBody) && Nat.ltb 0 (keys_count query)
  then extractOrderData query else fromBody.

(** [!(existingBefore as any)?.sent_to_doordash] *)
Definition wasNotSent (existingBefore : option Order) : bool :=
  match existingBefore with
  | Some r => Z.eqb (sent_to_doordash r) 0
  | None => true
  end.

(** The responses of [GET /orders/:orderId]. *)
Inductive OrderResponse : Type :=
| OrderFound (order : Order)          (* 200 { success: true, order } *)
| OrderNotFound                       (* 404 { error: 'Order not found' } *)
| OrderError (message : string).      (* 500 { error: message } *)

(** The responses of [GET /doordash/status/:orderId]. *)
Inductive StatusResponse : Type :=
| NotConfigured                       (* 400 { error: 'DoorDash not configured', ... } *)
| InvalidOrderId                      (* 400 { error: 'Invalid order ID', ... } *)
| DeliveryStatus (gloriafood_order_id : string)
                 (response : DoorDashClient.DoorDashResponse)
                                      (* 200 { success: true, ... } *)
| StatusError (message : string).     (* 500 { error: message, success: false } *)

Section WithEnv.

Variable env : Env.
Variable doorDashConfigured : bool.   (* whether [this.doorDashClient] is set *)
Context {database : IDatabase}.

(** Bookkeeping for the statements below: the try block of
    [sendOrderToDoorDash] has been entered once more. *)
Definition note_attempt : M unit :=
  fun w => (Done tt, set_dispatch_attempts (S (dispatch_attempts w)) w).

Definition lift_sum {A} (r : JSError + A) : M A :=
  match r with
  | inl e => throw e
  | inr a => ret a
  end.

Definition sendOrderToDoorDash (orderData : JValue)
    : M (option DoorDashClient.DoorDashResponse) :=
  if negb doorDashConfigured then ret None
  else
    match gate_type orderData with
    | JStr orderType =>
        if negb (String.eqb (toLowerCase orderType) "delivery") then ret None
        else
          try_catch
            (note_attempt ;;;
             drivePayload <-
               (fun w => lift_sum (DoorDashClient.convertGloriaFoodToDrive
                                     (randomUUID env (dispatch_attempts w)) orderData) w) ;;
             response <- DoorDashClient.createDriveDelivery env drivePayload ;;
             ret (Some response))
            (fun _ => ret None)
    | _ => throw (TypeError "orderType.toLowerCase is not a function")
    end.

(** [displayOrder]: of the console rendering, what can throw is
    represented, the call of [formatStatus] on the stored status; the two
    statistics queries come after it. *)
Definition displayOrder (order : Order) : M unit :=
  formatStatus (status order) ;;;
  totalOrders <- getOrderCount ;;
  recentOrders <- getRecentOrders 60 ;;
  ret tt.

(** [await this.sendOrderToDoorDash(orderData).then(async (resp) => { if
    (resp && markOrderSentToDoorDash) { try { await mark(...) } catch {} }
    ... }).catch(...)] *)
Definition dispatch (orderData orderId : JValue) : M unit :=
  try_catch
    (resp <- sendOrderToDoorDash orderData ;;
     match resp with
     | Some r =>
         try_catch
           (markOrderSentToDoorDash (to_string orderId) (DoorDashClient.id r))
           (fun _ => ret tt)
     | None => ret tt
     end)
    (fun _ => ret tt).

(** [this.app.post(this.config.webhookPath, async (req, res) => ...)].  The
    authentication check, which only computes [isValid] and never blocks,
    and the console output are not represented. *)
Definition handleWebhook (req : WebhookRequest) : M WebhookResponse :=
  try_catch
    (let orderData := orderData_of (body req) (query req) in
     if negb (truthy orderData) then ret InvalidPayload
     else
       let orderId := orderId_of orderData in
       existingBefore <- getOrderByGloriaFoodId (to_string orderId) ;;
       savedOrder <- insertOrUpdateOrder orderData ;;
       match savedOrder with
       | Some saved =>
           let isNew := match existingBefore with None => true | Some _ => false end in
           (if isNew then
              displayOrder saved ;;;
              when (isDeliveryOrder orderData) (dispatch orderData orderId)
            else
              when (isDeliveryOrder orderData && wasNotSent existingBefore)
                   (dispatch orderData orderId)) ;;;
           ret (OrderProcessed orderId)
       | None => ret StoreFailed
       end)
    (fun error => ret (WebhookError (error_message error))).

(** The server handling a sequence of requests, one after the other. *)
Fixpoint handleAll (reqs : list WebhookRequest) : M (list WebhookResponse) :=
  match reqs with
  | [] => ret []
  | req :: rest =>
      r <- handleWebhook req ;;
      rs <- handleAll rest ;;
      ret (r :: rs)
  end.

(** [this.app.get('/orders/:orderId', ...)] *)
Definition getOrder (orderId : string) : M OrderResponse :=
  try_catch
    (order <- getOrderByGloriaFoodId orderId ;;
     match order with
     | None => ret OrderNotFound
     | Some o => ret (OrderFound o)
     end)
    (fun error => ret (OrderError (error_message error))).

(** [this.app.get('/doordash/status/:orderId', ...)]: the delivery is looked
    up under the stored [doordash_order_id] when the order has one, under
    the order id itself otherwise, also when the store lookup throws. *)
Definition getDoorDashStatus (orderId : string) : M StatusResponse :=
  try_catch
    (if negb doorDashConfigured then ret NotConfigured
     else
       doorDashId <-
         try_catch
           (order <- getOrderByGloriaFoodId orderId ;;
            match order with
            | Some o =>
                if truthy (doordash_order_id o) then ret (doordash_order_id o)
                else ret (JStr orderId)
            | None => ret (JStr orderId)
            end)
           (fun _ => ret (JStr orderId)) ;;
       if negb (truthy doorDashId) then ret InvalidOrderId
       else
         match doorDashId with
         | JStr s =>
             if String.eqb (trim s) "" then ret InvalidOrderId
             else
               response <- DoorDashClient.getOrderStatus env s ;;
               ret (DeliveryStatus orderId response)
         | _ => throw (TypeError "doorDashId.trim is not a function")
         end)
    (fun error => ret (StatusError (error_message error))).

End WithEnv.

End GloriaFoodWebhookServer.

(* ================================================================== *)
(** * [index.ts]: class [GloriaFoodOrderFetcher] (polling mode) *)
(* ================================================================== *)

Module GloriaFoodOrderFetcher.

Section WithEnv.

Variable env : Env.

(** [this.client.fetchOrders(50)]: the request to the GloriaFood API and
    what it answers are left to the caller. *)
Variable fetchOrders : M JValue.

(** [displayStats]: the two statistics queries; the console output is not
    represented. *)
Definition displayStats : M unit :=
  totalOrders <- OrderDatabase.getOrderCount env ;;
  recentOrders <- OrderDatabase.getRecentOrders env 60 ;;
  ret tt.

(** [order.id?.toString() || ''], the key an order is looked up under. *)
Definition lookup_key (order : JValue) : string :=
  as_string (toString_opt (get order "id") <||> JStr "").

(** [displayOrder]: of the console rendering, what can throw is
    represented, the call of [formatStatus] on the stored status. *)
Definition displayOrder (order : Order) : M unit :=
  formatStatus (status order).

(** The [for (const order of orders)] loop, with its two counters.  Reading
    [order.id] throws on an order that is [null] or [undefined]; a new
    order is displayed. *)
Fixpoint storeOrders (orders : list JValue) (newCount updatedCount : nat)
    : M (nat * nat) :=
  match orders with
  | [] => ret (newCount, updatedCount)
  | order :: rest =>
      if nullish order
      then throw (TypeError "Cannot read properties of undefined (reading 'id')")
      else
        existing <- OrderDatabase.getOrderByGloriaFoodId env (lookup_key order) ;;
        saved <- OrderDatabase.insertOrUpdateOrder env order ;;
        match saved, existing with
        | Some _, Some _ => storeOrders rest newCount (S updatedCount)
        | Some row, None =>
            displayOrder row ;;; storeOrders rest (S newCount) updatedCount
        | None, _ => storeOrders rest newCount updatedCount
        end
  end.

(** What [for ... of] iterates over: the elements of an array, the
    characters of a string; anything else is not iterable. *)
Definition iterate (orders : JValue) : option (list JValue) :=
  match orders with
  | JArr l => Some l
  | JStr s => Some (map (fun c => JStr (String c EmptyString)) (list_ascii_of_string s))
  | _ => None
  end.

Definition fetchAndStoreOrders : M unit :=
  try_catch
    (timestamp <- now env ;;
     orders <- fetchOrders ;;
     if nullish orders
     then throw (TypeError "Cannot read properties of undefined (reading 'length')")
     else
       match iterate orders with
       | Some [] => displayStats
       | Some l => storeOrders l 0 0 ;;; displayStats
       | None => throw (TypeError "orders is not iterable")
       end)
    (fun _ => ret tt).

End WithEnv.

End GloriaFoodOrderFetcher.

(* ================================================================== *)
(** * Sample payloads and environments *)
(* ================================================================== *)

Module Samples.

(** An environment whose SQL driver never raises. *)
Definition calm_env (partner : nat -> Request -> HttpOutcome) : Env :=
  {| clock := fun n => "2024-05-01T10:00:00." ++ digits_of_N (N.of_nat n) ++ "Z";
     db_fault := fun _ => false;
     within_minutes := fun _ _ _ => true;
     http := partner;
     randomUUID := fun _ => "6f1c2d3e-0000-4000-8000-000000000000" |}.

Definition partner_accepts : nat -> Request -> HttpOutcome :=
  fun _ _ => HttpOk (JObj [("delivery_id", JStr "D-1"); ("status", JStr "created")]).

Definition partner_down : nat -> Request -> HttpOutcome :=
  fun _ _ => HttpStatus 500 (JObj [("message", JStr "internal error")]).

Definition empty_world : World :=
  {| orders := []; pool_in_use := 0; clock_reads := 0; db_calls := 0;
     http_log := []; dispatch_attempts := 0 |}.

(** The payload of the concrete scenario: order 555 of Ana Cruz, with a
    nested customer name that conflicts with the flat fields. *)
Definition order_555 (type status : string) : JValue :=
  JObj [ ("id", JStr "555"); ("type", JStr type); ("status", JStr status);
         ("client_first_name", JStr "Ana"); ("client_last_name", JStr "Cruz");
         ("client_phone", JStr "09171234567");
         ("client_address", JStr "12 Rizal St, Manila");
         ("total_price", JStr "25.00");
         ("customer", JObj [("name", JStr "Bob")]) ].

Definition webhook (payload : JValue) : GloriaFoodWebhookServer.WebhookRequest :=
  {| GloriaFoodWebhookServer.body := payload;
     GloriaFoodWebhookServer.query := JObj [] |}.

(** A partner that answers the n-th request with the n-th outcome of a
    list, and with a 404 after that. *)
Definition scripted (outcomes : list HttpOutcome) : nat -> Request -> HttpOutcome :=
  fun n _ => nth n outcomes (HttpStatus 404 JNull).

(** An environment in which exactly the [n]-th call into the driver raises. *)
Definition fault_at (n : nat) : Env :=
  {| clock := clock (calm_env partner_accepts);
     db_fault := Nat.eqb n;
     within_minutes := fun _ _ _ => true;
     http := partner_accepts;
     randomUUID := fun _ => "" |}.

(** Order 555 as the pooled backend stores it, and the same record once it
    has been sent to the partner as delivery D-1. *)
Definition stored_555 : Order :=
  OrderDatabaseMySQL.inserted_row
    (order_literal (fun _ => JStr "Ana Cruz") (fun _ => JStr "09171234567")
       (fun _ => JStr "") (fun _ => JStr "12 Rizal St, Manila")
       (Samples.order_555 "delivery" "pending")
       (JStr "2024-05-01T10:00:00.0Z") (JStr "2024-05-01T10:00:00.1Z")
       (JStr "2024-05-01T10:00:00.2Z")).

Definition sent_555 : Order :=
  OrderDatabaseMySQL.mark_sent (JStr "D-1") (JStr "2024-05-01T10:00:01.0Z") stored_555.

(** A table that holds order 7 with one item. *)
Definition stored_order_7 : Order :=
  OrderDatabaseMySQL.inserted_row
    (order_literal (fun _ => JStr "Liza") (fun _ => JNull) (fun _ => JNull)
       (fun _ => JNull)
       (JObj [("id", JStr "7"); ("items", JArr [JObj [("name", JStr "Adobo")]])])
       (JStr "t0") (JStr "t1") (JStr "t2")).

Definition order_7_update : JValue :=
  JObj [("id", JStr "7"); ("items", JArr [JObj [("name", JStr "Sinigang")]])].

End Samples.

(* ================================================================== *)
(** * Notions used in the statements *)
(* ================================================================== *)

Import GloriaFoodWebhookServer.

(** The UNIQUE constraint on [gloriafood_order_id]. *)
Definition unique_ids (t : list Order) : Prop :=
  NoDup (map gloriafood_order_id t).

(** The number of stored records with a given external order id. *)
Definition stored_under (k : string) (t : list Order) : nat :=
  List.length (select_by_id k t).

(** The environment in which no call into the SQL driver raises. *)
Definition no_db_faults (env : Env) : Prop :=
  forall i, db_fault env i = false.

(** The pool still has a connection to hand out. *)
Definition pool_available (w : World) : Prop :=
  pool_in_use w < OrderDatabaseMySQL.connectionLimit.

(** The [order] object that [insertOrUpdateOrder] builds from a payload in
    a given world; [None] when building throws. *)
Definition order_built (m : M Order) (w : World) : option Order :=
  match m w with
  | (Done o, _) => Some o
  | _ => None
  end.

(** Requests that reached [createDriveDelivery]'s POST. *)
Definition is_createDelivery (r : Request) : bool :=
  match r with
  | HttpPost path _ => String.eqb path "/deliveries"
  | HttpGet _ => false
  end.

(** How many times [createDriveDelivery] has posted so far. *)
Definition createDelivery_calls (w : World) : nat :=
  List.length (filter is_createDelivery (http_log w)).

(** The dispatch columns of a row. *)
Definition dispatch_state (r : Order) : Z * JValue * JValue :=
  (sent_to_doordash r, doordash_order_id r, doordash_sent_at r).

(** What an operation of the store leaves alone. *)
Definition quiet (w w' : World) : Prop :=
  pool_in_use w' = pool_in_use w /\
  http_log w' = http_log w /\
  dispatch_attempts w' = dispatch_attempts w.

(** What the clauses of the two upsert statements have in common. *)
Record upsert_clauses (merge : Order -> Order -> Order) (row : Order -> Order) : Prop := {
  merge_id : forall old new, gloriafood_order_id (merge old new) = gloriafood_order_id old;
  merge_created : forall old new, created_at (merge old new) = created_at old;
  merge_updated : forall old new, updated_at (merge old new) = updated_at new;
  merge_dispatch : forall old new, dispatch_state (merge old new) = dispatch_state old;
  row_id : forall o, gloriafood_order_id (row o) = gloriafood_order_id o;
  row_created : forall o, created_at (row o) = created_at o;
  row_updated : forall o, updated_at (row o) = updated_at o;
  row_unsent : forall o, sent_to_doordash (row o) = 0%Z
}.

(** The conflict clause and the inserted row of each backend. *)
Definition upsert_merge (dbType : DbType) : Order -> Order -> Order :=
  match dbType with
  | SQLite => OrderDatabase.on_conflict
  | MySQL => OrderDatabaseMySQL.on_duplicate_key
  end.

Definition upsert_row (dbType : DbType) : Order -> Order :=
  match dbType with
  | SQLite => OrderDatabase.inserted_row
  | MySQL => OrderDatabaseMySQL.inserted_row
  end.

(** The [order] object a backend builds from a payload. *)
Definition payload_order (env : Env) (dbType : DbType) (p : JValue) : M Order :=
  match dbType with
  | SQLite => OrderDatabase.build env p
  | MySQL => OrderDatabaseMySQL.build env p
  end.

(** What may happen to a stored order between two webhook deliveries: the
    dispatch controller marks it as sent, or nothing. *)
Definition maybe_mark (env : Env) (dbType : DbType) (k : string)
    (dispatched : option JValue) : M unit :=
  match dispatched with
  | Some ddId => markOrderSentToDoorDash (IDatabase := createDatabase env dbType) k ddId
  | None => ret tt
  end.

(** One upsert after the other, as two webhook deliveries cause them. *)
Definition upsert_twice (db : IDatabase) (P1 P2 : JValue) : M (option Order) :=
  insertOrUpdateOrder P1 ;;; insertOrUpdateOrder P2.

(** The failure [getOrderStatus] throws once all three lookups have failed,
    read off the outcome of the last one. *)
Definition failure_after (key : string) (last : HttpOutcome) : JSError :=
  match last with
  | HttpStatus code data =>
      if (code =? 404)%Z then DoorDashNotFound key data else DoorDashApiError code data
  | HttpNoResponse message =>
      DoorDashFailure (as_string (JStr message <||> JStr "Unknown error"))
  | HttpOk _ => DoorDashFailure "Unknown error"
  end.

(** A 2xx answer. *)
Definition is_ok (o : HttpOutcome) : bool :=
  match o with HttpOk _ => true | _ => false end.

(** The gate inside [sendOrderToDoorDash]: the type is a string that
    lowercases to [delivery]. *)
Definition passes_type_gate (orderData : JValue) : bool :=
  match gate_type orderData with
  | JStr orderType => String.eqb (toLowerCase orderType) "delivery"
  | _ => false
  end.

(** The drive payload of an order at a given world, when the conversion
    does not throw. *)
Definition drive_payload (env : Env) (orderData : JValue) (w : World) : JSError + JValue :=
  DoorDashClient.convertGloriaFoodToDrive
    (randomUUID env (S (dispatch_attempts w))) orderData.

(** The id under which the handler looks the order up and marks it. *)
Definition handler_key (orderData : JValue) : string :=
  to_string (orderId_of orderData).

(** The handler and the store read the same key off the payload: the
    handler looks the order up, and marks it, under the id it is stored
    under. *)
Definition keyed_alike (orderData : JValue) : Prop :=
  external_order_id orderData = handler_key orderData.

(** [status] as [insertOrUpdateOrder] reads it off the payload. *)
Definition normalized_status (orderData : JValue) : JValue :=
  get orderData "status" <||> get orderData "order_status" <||> JStr "unknown".

(** The status of the payload is one [formatStatus] renders: it is not a
    string that lowercases to [__proto__]. *)
Definition displayable (orderData : JValue) : bool :=
  match normalized_status orderData with
  | JStr s => negb (String.eqb (toLowerCase s) "__proto__")
  | _ => true
  end.

(** The display the handler makes of a new order goes through: the order
    was found by the lookup, and is not displayed, or its status is one
    [formatStatus] renders. *)
Definition display_passes (orderData : JValue) (existing : option Order) : bool :=
  match existing with
  | Some _ => true
  | None => displayable orderData
  end.

(** [existingBefore] when the lookup does not fail. *)
Definition existing_before (orderData : JValue) (w : World) : option Order :=
  hd_error (select_by_id (handler_key orderData) (orders w)).

(** What the handler does after a successful store: dispatch when the order
    is a delivery order and is new or not yet marked as sent. *)
Definition dispatch_phase (env : Env) (configured : bool) (dbType : DbType)
    (orderData : JValue) (existing : option Order) : M unit :=
  when (isDeliveryOrder orderData && wasNotSent existing)
       (dispatch env configured (database := createDatabase env dbType)
          orderData (orderId_of orderData)).

(** A record is stored under the id, and [sent_to_doordash] is set on it. *)
Definition marked_sent (k : string) (t : list Order) : Prop :=
  select_by_id k t <> []
  /\ Forall (fun r => sent_to_doordash r <> 0%Z) (select_by_id k t).

(** The payload has an [id] that the store and the handler read alike. *)
Definition has_usable_id (orderData : JValue) : bool :=
  truthy (get orderData "id") && negb (is_empty (to_string (get orderData "id"))).

(** A later delivery for the id [k]: it carries order data, and the handler
    looks it up under [k]. *)
Definition delivery_for (k : string) (req : WebhookRequest) : Prop :=
  let q := orderData_of (body req) (query req) in
  truthy q = true /\ handler_key q = k.

(** The first dispatch attempt fails: the conversion throws, or the partner
    answers the POST with anything but a 2xx. *)
Definition attempt_fails (env : Env) (orderData : JValue) (w : World) : Prop :=
  match drive_payload env orderData w with
  | inl _ => True
  | inr payload =>
      is_ok (http env (List.length (http_log w)) (HttpPost "/deliveries" payload)) = false
  end.

(** ** Notions of the further properties *)

(** The field names under which either backend looks for a customer name. *)
Definition name_fields : list string :=
  [ "client_first_name"; "client_last_name"; "client_name"; "client"; "customer";
    "customer_name"; "name"; "first_name"; "last_name"; "order" ].

(** What no statement of the service changes in a stored row: its id, its
    store, its currency and its creation date; and a row marked as sent
    stays marked. *)
Definition row_evolves (r r' : Order) : Prop :=
  gloriafood_order_id r' = gloriafood_order_id r
  /\ store_id r' = store_id r
  /\ currency r' = currency r
  /\ created_at r' = created_at r
  /\ (sent_to_doordash r <> 0%Z -> sent_to_doordash r' <> 0%Z).

(** The table after some statements: the rows it had, each at its place and
    evolved, followed by the rows added. *)
Definition table_evolves (t t' : list Order) : Prop :=
  exists kept added, t' = (kept ++ added)%list /\ Forall2 row_evolves t kept.

(** What a run of the service can do at most to the world, with a budget of
    dispatch attempts and of requests to the partner. *)
Definition within (attempts posts : nat) (w w' : World) : Prop :=
  table_evolves (orders w) (orders w')
  /\ (unique_ids (orders w) -> unique_ids (orders w'))
  /\ dispatch_attempts w <= dispatch_attempts w' <= dispatch_attempts w + attempts
  /\ exists sent,
       http_log w' = (http_log w ++ sent)%list
       /\ List.length sent <= posts
       /\ forallb is_createDelivery sent = true.

(** Every run of [m] stays [within] the bounds, from any world. *)
Definition keeps {A} (attempts posts : nat) (m : M A) : Prop :=
  forall w, within attempts posts w (snd (m w)).

(** The pool has no connection left. *)
Definition pool_exhausted (w : World) : Prop :=
  OrderDatabaseMySQL.connectionLimit <= pool_in_use w.

(** [n] lookups of one id, one after the other. *)
Fixpoint lookups (env : Env) (k : string) (n : nat) : M unit :=
  match n with
  | O => ret tt
  | S n' => OrderDatabaseMySQL.getOrderByGloriaFoodId env k ;;; lookups env k n'
  end.

(** From the call [from] on, every second call into the driver raises: each
    [getConnection] succeeds and the query that follows it fails. *)
Definition every_query_fails (env : Env) (from n : nat) : Prop :=
  forall i, i < n ->
    db_fault env (from + 2 * i) = false /\ db_fault env (from + 2 * i + 1) = true.

(** From the call [from] on, no call into the SQL driver raises. *)
Definition no_db_faults_from (env : Env) (from : nat) : Prop :=
  forall i, from <= i -> db_fault env i = false.

(** The lookup of [getOrderByGloriaFoodId] fails: its first or its second
    call into the driver raises. *)
Definition lookup_raises (env : Env) (w : World) : Prop :=
  db_fault env (db_calls w) = true
  \/ (db_fault env (db_calls w) = false /\ db_fault env (S (db_calls w)) = true).

(** The marking statement of each backend, as the handler calls it. *)
Definition backend_mark (dbType : DbType) (ddId stamp : JValue) : Order -> Order :=
  match dbType with
  | SQLite => OrderDatabase.mark_sent ddId JUndefined stamp
  | MySQL => OrderDatabaseMySQL.mark_sent ddId stamp
  end.

(** The columns that come from the payload. *)
Definition payload_columns (r : Order)
    : JValue * JValue * JValue * JValue * JSNum * JValue * JValue * string * string :=
  (customer_name r, customer_phone r, customer_email r, delivery_address r,
   total_price r, status r, order_type r, items r, raw_data r).

(** What [createDriveDelivery] returns for the data of a 2xx answer. *)
Definition created_response (payload response_data : JValue)
    : DoorDashClient.DoorDashResponse :=
  let data := response_data <||> JObj [] in
  {| DoorDashClient.id :=
       get data "delivery_id" <||> get data "id"
       <||> get data "support_reference" <||> opt (get data "data") "delivery_id";
     DoorDashClient.external_delivery_id :=
       get data "external_delivery_id" <||> get payload "external_delivery_id";
     DoorDashClient.status :=
       get data "status" <||> get data "delivery_status"
       <||> get data "state" <||> opt (get data "data") "status";
     DoorDashClient.tracking_url :=
       get data "tracking_url" <||> opt (get data "data") "tracking_url";
     DoorDashClient.raw := data |}.

(** The answer of the status route for an outcome of [getOrderStatus]. *)
Definition status_answer (orderId : string)
    (r : Outcome DoorDashClient.DoorDashResponse * World)
    : Outcome StatusResponse * World :=
  match r with
  | (Done response, w) => (Done (DeliveryStatus orderId response), w)
  | (Raise e, w) => (Done (StatusError (error_message e)), w)
  | (Blocked, w) => (Blocked, w)
  end.

(** A delivery order that carries neither [id] nor [order_id], whose status
    [formatStatus] renders, and that the client can convert whatever the
    generated external id. *)
Definition idless_delivery (req : WebhookRequest) : Prop :=
  let p := orderData_of (body req) (query req) in
  truthy p = true
  /\ get p "id" = JUndefined /\ get p "order_id" = JUndefined
  /\ passes_type_gate p = true
  /\ displayable p = true
  /\ forall uuid, exists payload,
       DoorDashClient.convertGloriaFoodToDrive uuid p = inr payload.

(** The record is not marked as sent. *)
Definition unsent (r : Order) : Prop := sent_to_doordash r = 0%Z.

(** Every character of a string passes a test. *)
Fixpoint all_chars (f : ascii -> bool) (s : string) : bool :=
  match s with
  | EmptyString => true
  | String c r => f c && all_chars f r
  end.

(** The characters a phone number is made of: the ten digits and [+]. *)
Definition phone_char (c : ascii) : bool :=
  existsb (Ascii.eqb c) (list_ascii_of_string "0123456789+").

(** The characters of an encoded URI component. *)
Definition uri_char (c : ascii) : bool :=
  DoorDashClient.is_unreserved c || Ascii.eqb c "%".

(** [typeof v === 'string'] *)
Definition is_string (v : JValue) : bool :=
  match v with JStr _ => true | _ => false end.

(** The customer's phone number as [convertGloriaFoodToDrive] reads it:
    [order.client_phone || order.client?.phone || '']. *)
Definition dropoff_phone (orderData : JValue) : JValue :=
  get orderData "client_phone" <||> opt (get orderData "client") "phone" <||> JStr "".

(** The value of an upper-case hexadecimal digit. *)
Definition hex_value (c : ascii) : nat :=
  let n := nat_of_ascii c in
  if Nat.leb n 57 then n - 48 else n - 55.

(** The identifier under which the status route asks the partner: the
    stored delivery id when the order has one, the order id otherwise. *)
Definition delivery_key (orderId : string) (t : list Order) : JValue :=
  match hd_error (select_by_id orderId t) with
  | Some o => if truthy (doordash_order_id o) then doordash_order_id o else JStr orderId
  | None => JStr orderId
  end.

(** The fields in which the SQLite backend looks for the customer's phone
    number, e-mail address and delivery address. *)
Definition nested_contact_fields : list string :=
  [ "client"; "customer"; "customer_phone"; "phone"; "customer_email"; "email";
    "delivery"; "delivery_address" ].

(** The order carries an [id] of its own, which gives a non-empty key. *)
Definition has_own_id (order : JValue) : bool :=
  negb (nullish (get order "id")) && negb (is_empty (to_string (get order "id"))).

(** The order is identified by [order_id] alone. *)
Definition known_by_order_id_only (order : JValue) : bool :=
  negb (nullish order) && nullish (get order "id")
  && negb (nullish (get order "order_id"))
  && negb (is_empty (to_string (get order "order_id"))).

(* ================================================================== *)
(** * The table statements *)
(* ================================================================== *)

Section TableFacts.

Variable merge : Order -> Order -> Order.
Hypothesis merge_keeps_id :
  forall old new, gloriafood_order_id (merge old new) = gloriafood_order_id old.

Lemma has_id_true (k : string) (r : Order) :
  has_id k r = true <-> gloriafood_order_id r = k.
Proof. unfold has_id. apply String.eqb_eq. Qed.

Lemma has_id_false (k : string) (r : Order) :
  has_id k r = false <-> gloriafood_order_id r <> k.
Proof. unfold has_id. apply String.eqb_neq. Qed.

Lemma existsb_has_id (k : string) (t : list Order) :
  existsb (has_id k) t = true <-> In k (map gloriafood_order_id t).
Proof.
  rewrite existsb_exists, in_map_iff. split.
  - intros [r [Hin Hk]]. exists r. split; [now apply has_id_true | exact Hin].
  - intros [r [Hk Hin]]. exists r. split; [exact Hin | now apply has_id_true].
Qed.

Lemma select_absent (k : string) (t : list Order) :
  existsb (has_id k) t = false -> select_by_id k t = [].
Proof.
  induction t as [|r t IH]; simpl; [reflexivity|].
  intros H. apply orb_false_iff in H as [Hr Ht].
  rewrite Hr. now apply IH.
Qed.

Lemma select_present (k : string) (t : list Order) :
  existsb (has_id k) t = true -> select_by_id k t <> [].
Proof.
  induction t as [|r t IH]; simpl; [discriminate|].
  destruct (has_id k r); [discriminate|]. simpl. exact IH.
Qed.

Lemma unique_ids_at_most_one (k : string) (t : list Order) :
  unique_ids t -> stored_under k t <= 1.
Proof.
  unfold unique_ids, stored_under.
  induction t as [|r t IH]; simpl; intros Hnd; [lia|].
  inversion Hnd as [|? ? Hnotin Hnd']; subst.
  destruct (has_id k r) eqn:Hr; simpl.
  - apply has_id_true in Hr. subst k.
    rewrite select_absent; [simpl; lia|].
    destruct (existsb (has_id (gloriafood_order_id r)) t) eqn:He; [|reflexivity].
    apply existsb_has_id in He. contradiction.
  - now apply IH.
Qed.

Lemma map_upsert_ids (new : Order) (t : list Order) :
  map gloriafood_order_id
    (map (fun old => if has_id (gloriafood_order_id new) old
                     then merge old new else old) t)
  = map gloriafood_order_id t.
Proof.
  rewrite map_map. apply map_ext. intros r.
  destruct (has_id _ r); [apply merge_keeps_id | reflexivity].
Qed.

(** The upsert keeps the UNIQUE constraint. *)
Lemma insert_or_update_unique (new : Order) (t : list Order) :
  unique_ids t -> unique_ids (insert_or_update merge new t).
Proof.
  unfold unique_ids, insert_or_update. intros Hnd.
  destruct (existsb (has_id (gloriafood_order_id new)) t) eqn:He.
  - now rewrite map_upsert_ids.
  - rewrite map_app. simpl.
    apply NoDup_app; repeat split; try assumption.
    + constructor; [intros [] | constructor].
    + intros x Hx [Heq|[]]. subst x.
      apply existsb_has_id in Hx. congruence.
Qed.

Lemma select_map_merge (k : string) (new : Order) (t : list Order) :
  select_by_id k
    (map (fun old => if has_id (gloriafood_order_id new) old
                     then merge old new else old) t)
  = map (fun old => if has_id (gloriafood_order_id new) old
                    then merge old new else old) (select_by_id k t).
Proof.
  induction t as [|r t IH]; simpl; [reflexivity|].
  assert (Hk : has_id k (if has_id (gloriafood_order_id new) r
                         then merge r new else r) = has_id k r).
  { destruct (has_id (gloriafood_order_id new) r); [|reflexivity].
    unfold has_id. now rewrite merge_keeps_id. }
  rewrite Hk. destruct (has_id k r); simpl; now rewrite IH.
Qed.

(** The rows under the upserted id after the statement. *)
Lemma select_after_upsert (new : Order) (t : list Order) :
  select_by_id (gloriafood_order_id new) (insert_or_update merge new t)
  = if existsb (has_id (gloriafood_order_id new)) t
    then map (fun old => merge old new) (select_by_id (gloriafood_order_id new) t)
    else [new].
Proof.
  unfold insert_or_update.
  destruct (existsb (has_id (gloriafood_order_id new)) t) eqn:He.
  - rewrite select_map_merge. apply map_ext_in.
    intros r Hr. apply filter_In in Hr as [_ Hr]. now rewrite Hr.
  - unfold select_by_id. rewrite filter_app. fold (select_by_id (gloriafood_order_id new) t).
    rewrite select_absent by exact He. simpl.
    unfold has_id. now rewrite String.eqb_refl.
Qed.

(** Rows under any other id are left alone. *)
Lemma select_after_upsert_other (k : string) (new : Order) (t : list Order) :
  gloriafood_order_id new <> k ->
  select_by_id k (insert_or_update merge new t) = select_by_id k t.
Proof.
  intros Hk. unfold insert_or_update.
  destruct (existsb (has_id (gloriafood_order_id new)) t).
  - rewrite select_map_merge.
    rewrite <- (map_id (select_by_id k t)) at 2. apply map_ext_in.
    intros r Hr. apply filter_In in Hr as [_ Hr]. apply has_id_true in Hr.
    destruct (has_id (gloriafood_order_id new) r) eqn:Hn; [|reflexivity].
    apply has_id_true in Hn. congruence.
  - unfold select_by_id. rewrite filter_app. simpl.
    apply has_id_false in Hk. rewrite Hk. apply app_nil_r.
Qed.

(** Exactly one record is stored under the upserted id. *)
Lemma stored_under_after_upsert (new : Order) (t : list Order) :
  unique_ids t ->
  stored_under (gloriafood_order_id new) (insert_or_update merge new t) = 1.
Proof.
  intros Hu.
  assert (Hle := unique_ids_at_most_one (gloriafood_order_id new) _
                   (insert_or_update_unique new t Hu)).
  unfold stored_under in *. rewrite select_after_upsert in *.
  destruct (existsb (has_id (gloriafood_order_id new)) t) eqn:He; [|reflexivity].
  apply select_present in He.
  rewrite length_map in *.
  destruct (select_by_id (gloriafood_order_id new) t); [congruence | simpl in *; lia].
Qed.

End TableFacts.

Lemma existsb_after_upsert (merge : Order -> Order -> Order) (k : string)
    (new : Order) (t : list Order) :
  (forall old n, gloriafood_order_id (merge old n) = gloriafood_order_id old) ->
  existsb (has_id k) (insert_or_update merge new t)
  = existsb (has_id k) t || String.eqb (gloriafood_order_id new) k.
Proof.
  intros Hm. unfold insert_or_update.
  destruct (existsb (has_id (gloriafood_order_id new)) t) eqn:He.
  - assert (Hk : existsb (has_id k)
                   (map (fun old => if has_id (gloriafood_order_id new) old
                                    then merge old new else old) t)
                 = existsb (has_id k) t).
    { apply eq_true_iff_eq. rewrite !existsb_has_id.
      now rewrite (map_upsert_ids merge Hm). }
    rewrite Hk.
    destruct (String.eqb (gloriafood_order_id new) k) eqn:Hn.
    + apply String.eqb_eq in Hn. subst k. now rewrite He.
    + now rewrite orb_false_r.
  - rewrite existsb_app. simpl. unfold has_id at 2. now rewrite orb_false_r.
Qed.

Lemma length_after_upsert (merge : Order -> Order -> Order) (new : Order) (t : list Order) :
  List.length (insert_or_update merge new t)
  = if existsb (has_id (gloriafood_order_id new)) t
    then List.length t else S (List.length t).
Proof.
  unfold insert_or_update.
  destruct (existsb (has_id (gloriafood_order_id new)) t).
  - apply length_map.
  - rewrite length_app. simpl. lia.
Qed.

Lemma select_after_update_where (k k' : string) (f : Order -> Order) (t : list Order) :
  (forall r, gloriafood_order_id (f r) = gloriafood_order_id r) ->
  select_by_id k (update_where_id k' f t)
  = map (fun r => if has_id k' r then f r else r) (select_by_id k t).
Proof.
  intros Hf. unfold update_where_id.
  induction t as [|r t IH]; simpl; [reflexivity|].
  assert (Hk : has_id k (if has_id k' r then f r else r) = has_id k r).
  { destruct (has_id k' r); [|reflexivity]. unfold has_id. now rewrite Hf. }
  rewrite Hk. destruct (has_id k r); simpl; now rewrite IH.
Qed.

(* ================================================================== *)
(** * Running the store operations when the driver does not raise *)
(* ================================================================== *)

Lemma quiet_trans (w1 w2 w3 : World) : quiet w1 w2 -> quiet w2 w3 -> quiet w1 w3.
Proof.
  unfold quiet. intros (A1 & A2 & A3) (B1 & B2 & B3).
  repeat split; congruence.
Qed.

Ltac step_effects :=
  cbv beta iota zeta delta
    [bind ret throw try_catch when sql_read sql_write driver_call now].

Ltac now_quiet := unfold quiet; simpl; repeat split; try reflexivity; try lia.

Ltac run_calm calm :=
  repeat (progress (step_effects; rewrite ?calm)).

Lemma bind_done {A B} (m : M A) (k : A -> M B) (w w1 : World) (a : A) :
  m w = (Done a, w1) -> bind m k w = k a w1.
Proof. intros H. unfold bind. now rewrite H. Qed.

Lemma try_done {A} (m : M A) (h : JSError -> M A) (w w1 : World) (a : A) :
  m w = (Done a, w1) -> try_catch m h w = (Done a, w1).
Proof. intros H. unfold try_catch. now rewrite H. Qed.

Section StoreRuns.

Variable env : Env.
Hypothesis calm : no_db_faults env.

Lemma build_order_run (e1 e2 e3 e4 : JValue -> JValue) (p : JValue) (w : World) :
  nullish p = false ->
  exists created updated fetched w',
    build_order env e1 e2 e3 e4 p w
      = (Done (order_literal e1 e2 e3 e4 p created updated fetched), w')
    /\ orders w' = orders w /\ db_calls w' = db_calls w /\ quiet w w'.
Proof.
  intros Hp. unfold build_order. rewrite Hp.
  destruct (truthy (get p "created_at" <||> get p "order_date")) eqn:Hg;
    run_calm calm; rewrite ?Hg;
    do 4 eexists; (split; [reflexivity|]); repeat split.
Qed.

Lemma sqlite_get_run (k : string) (w : World) :
  exists w',
    OrderDatabase.getOrderByGloriaFoodId env k w
      = (Done (hd_error (select_by_id k (orders w))), w')
    /\ orders w' = orders w /\ quiet w w'.
Proof.
  unfold OrderDatabase.getOrderByGloriaFoodId, OrderDatabase.prepare.
  run_calm calm.
  eexists. split; [reflexivity|]. split; [reflexivity | now_quiet].
Qed.

Lemma sqlite_upsert_run (p : JValue) (w : World) :
  nullish p = false ->
  exists order w',
    order_built (OrderDatabase.build env p) w = Some order
    /\ OrderDatabase.insertOrUpdateOrder env p w
        = (Done (hd_error (select_by_id (gloriafood_order_id order)
                   (insert_or_update OrderDatabase.on_conflict
                      (OrderDatabase.inserted_row order) (orders w)))), w')
    /\ orders w'
        = insert_or_update OrderDatabase.on_conflict
            (OrderDatabase.inserted_row order) (orders w)
    /\ quiet w w'.
Proof.
  intros Hp.
  destruct (build_order_run OrderDatabase.extractCustomerName
              OrderDatabase.extractCustomerPhone OrderDatabase.extractCustomerEmail
              OrderDatabase.extractDeliveryAddress p w Hp)
    as (c & u & f & w1 & Hb & Ho & Hd & Hq).
  eexists. 
  unfold OrderDatabase.insertOrUpdateOrder, order_built, OrderDatabase.build.
  rewrite Hb.
  unfold try_catch at 1. erewrite bind_done by exact Hb.
  unfold OrderDatabase.getOrderByGloriaFoodId, OrderDatabase.prepare.
  run_calm calm. simpl. rewrite Ho.
  eexists. split; [reflexivity|]. split; [reflexivity|].
  split; [reflexivity|].
  destruct Hq as (Q1 & Q2 & Q3). now_quiet; assumption.
Qed.

Lemma sqlite_mark_run (k : string) (ddId tracking : JValue) (w : World) :
  exists stamp w',
    OrderDatabase.markOrderSentToDoorDash env k ddId tracking w = (Done tt, w')
    /\ orders w' = update_where_id k (OrderDatabase.mark_sent ddId tracking stamp) (orders w)
    /\ quiet w w'.
Proof.
  unfold OrderDatabase.markOrderSentToDoorDash, OrderDatabase.prepare.
  run_calm calm. simpl.
  do 2 eexists. split; [reflexivity|]. split; [reflexivity | now_quiet].
Qed.

Lemma sqlite_stats_run (w : World) :
  exists n w',
    OrderDatabase.getOrderCount env w = (Done n, w')
    /\ orders w' = orders w /\ quiet w w'.
Proof.
  unfold OrderDatabase.getOrderCount, OrderDatabase.prepare.
  run_calm calm. simpl.
  do 2 eexists. split; [reflexivity|]. split; [reflexivity | now_quiet].
Qed.

Lemma sqlite_recent_run (minutes : nat) (w : World) :
  exists rows w',
    OrderDatabase.getRecentOrders env minutes w = (Done rows, w')
    /\ orders w' = orders w /\ quiet w w'.
Proof.
  unfold OrderDatabase.getRecentOrders, OrderDatabase.prepare.
  run_calm calm. simpl.
  do 2 eexists. split; [reflexivity|]. split; [reflexivity | now_quiet].
Qed.

(** ** The pooled backend *)

Lemma pool_available_leb (w : World) :
  pool_available w ->
  Nat.leb OrderDatabaseMySQL.connectionLimit (pool_in_use w) = false.
Proof. unfold pool_available. intros H. apply Nat.leb_gt. exact H. Qed.

Ltac run_pool calm Hpool :=
  repeat (progress
    (cbv beta iota zeta delta
       [bind ret throw try_catch when sql_read sql_write driver_call now
        OrderDatabaseMySQL.getConnection OrderDatabaseMySQL.release];
     cbn [pool_in_use db_calls orders clock_reads http_log dispatch_attempts
          set_pool_in_use set_db_calls set_orders set_clock_reads set_http_log
          set_dispatch_attempts Nat.pred];
     rewrite ?calm, ?Hpool)).

Lemma mysql_get_run (k : string) (w : World) :
  pool_available w ->
  exists w',
    OrderDatabaseMySQL.getOrderByGloriaFoodId env k w
      = (Done (hd_error (select_by_id k (orders w))), w')
    /\ orders w' = orders w /\ quiet w w'.
Proof.
  intros Hpool. apply pool_available_leb in Hpool.
  unfold OrderDatabaseMySQL.getOrderByGloriaFoodId.
  run_pool calm Hpool. simpl.
  eexists. split; [reflexivity|]. split; [reflexivity | now_quiet].
Qed.

Lemma mysql_upsert_run (p : JValue) (w : World) :
  nullish p = false ->
  pool_available w ->
  exists order w',
    order_built (OrderDatabaseMySQL.build env p) w = Some order
    /\ OrderDatabaseMySQL.insertOrUpdateOrder env p w
        = (Done (hd_error (select_by_id (gloriafood_order_id order)
                   (insert_or_update OrderDatabaseMySQL.on_duplicate_key
                      (OrderDatabaseMySQL.inserted_row order) (orders w)))), w')
    /\ orders w'
        = insert_or_update OrderDatabaseMySQL.on_duplicate_key
            (OrderDatabaseMySQL.inserted_row order) (orders w)
    /\ quiet w w'.
Proof.
  intros Hp Hpool. apply pool_available_leb in Hpool.
  destruct (build_order_run
              (fun o => JStr (OrderDatabaseMySQL.extractCustomerName o))
              (fun o => JStr (OrderDatabaseMySQL.extractCustomerPhone o))
              (fun o => JStr (OrderDatabaseMySQL.extractCustomerEmail o))
              (fun o => JStr (OrderDatabaseMySQL.extractDeliveryAddress o)) p w Hp)
    as (c & u & f & w1 & Hb & Ho & Hd & (Q1 & Q2 & Q3)).
  eexists.
  unfold OrderDatabaseMySQL.insertOrUpdateOrder, order_built, OrderDatabaseMySQL.build.
  rewrite Hb.
  unfold try_catch at 1. erewrite bind_done by exact Hb.
  rewrite <- Q1 in Hpool.
  unfold OrderDatabaseMySQL.getOrderByGloriaFoodId.
  run_pool calm Hpool. simpl. rewrite Ho.
  eexists. split; [reflexivity|]. split; [reflexivity|].
  split; [reflexivity|].
  now_quiet; assumption.
Qed.

Lemma mysql_mark_run (k : string) (ddId : JValue) (w : World) :
  pool_available w ->
  exists stamp w',
    OrderDatabaseMySQL.markOrderSentToDoorDash env k ddId w = (Done tt, w')
    /\ orders w' = update_where_id k (OrderDatabaseMySQL.mark_sent ddId stamp) (orders w)
    /\ quiet w w'.
Proof.
  intros Hpool. apply pool_available_leb in Hpool.
  unfold OrderDatabaseMySQL.markOrderSentToDoorDash.
  run_pool calm Hpool. simpl.
  do 2 eexists. split; [reflexivity|]. split; [reflexivity | now_quiet].
Qed.

Lemma mysql_stats_run (w : World) :
  pool_available w ->
  exists n w',
    OrderDatabaseMySQL.getOrderCount env w = (Done n, w')
    /\ orders w' = orders w /\ quiet w w'.
Proof.
  intros Hpool. apply pool_available_leb in Hpool.
  unfold OrderDatabaseMySQL.getOrderCount.
  run_pool calm Hpool. simpl.
  do 2 eexists. split; [reflexivity|]. split; [reflexivity | now_quiet].
Qed.

Lemma mysql_recent_run (minutes : nat) (w : World) :
  pool_available w ->
  exists rows w',
    OrderDatabaseMySQL.getRecentOrders env minutes w = (Done rows, w')
    /\ orders w' = orders w /\ quiet w w'.
Proof.
  intros Hpool. apply pool_available_leb in Hpool.
  unfold OrderDatabaseMySQL.getRecentOrders.
  run_pool calm Hpool. simpl.
  do 2 eexists. split; [reflexivity|]. split; [reflexivity | now_quiet].
Qed.

End StoreRuns.

(* ================================================================== *)
(** * Upsert: one record per id, [created_at] and dispatch state kept *)
(* ================================================================== *)

Lemma select_nonempty_existsb (k : string) (t : list Order) (r : Order) (rest : list Order) :
  select_by_id k t = r :: rest -> existsb (has_id k) t = true.
Proof.
  intros H. destruct (existsb (has_id k) t) eqn:He; [reflexivity|].
  apply select_absent in He. congruence.
Qed.

Lemma sqlite_clauses : upsert_clauses OrderDatabase.on_conflict OrderDatabase.inserted_row.
Proof. constructor; reflexivity. Qed.

Lemma mysql_clauses :
  upsert_clauses OrderDatabaseMySQL.on_duplicate_key OrderDatabaseMySQL.inserted_row.
Proof. constructor; reflexivity. Qed.

Section UpsertOnTables.

Variable merge : Order -> Order -> Order.
Variable row : Order -> Order.
Hypothesis clauses : upsert_clauses merge row.

(** First application of an id that is not stored yet. *)
Lemma first_upsert_table (o1 : Order) (t0 : list Order) :
  existsb (has_id (gloriafood_order_id o1)) t0 = false ->
  select_by_id (gloriafood_order_id o1) (insert_or_update merge (row o1) t0) = [row o1].
Proof.
  intros Habs.
  rewrite <- (row_id _ _ clauses o1) at 1.
  rewrite (select_after_upsert merge (merge_id _ _ clauses)).
  now rewrite (row_id _ _ clauses), Habs.
Qed.

(** A later application on a table that holds one record under the id. *)
Lemma later_upsert_table (o2 rmid : Order) (t : list Order) :
  select_by_id (gloriafood_order_id o2) t = [rmid] ->
  select_by_id (gloriafood_order_id o2) (insert_or_update merge (row o2) t)
  = [merge rmid (row o2)].
Proof.
  intros Hsel.
  rewrite <- (row_id _ _ clauses o2) at 1.
  rewrite (select_after_upsert merge (merge_id _ _ clauses)).
  rewrite (row_id _ _ clauses).
  rewrite (select_nonempty_existsb _ _ _ _ Hsel), Hsel. reflexivity.
Qed.

End UpsertOnTables.

(** ** The two backends behind [createDatabase] *)

Lemma backend_clauses (dbType : DbType) :
  upsert_clauses (upsert_merge dbType) (upsert_row dbType).
Proof. destruct dbType; [apply sqlite_clauses | apply mysql_clauses]. Qed.

Lemma order_built_fields (env : Env) (e1 e2 e3 e4 : JValue -> JValue)
    (p : JValue) (w : World) (order : Order) :
  order_built (build_order env e1 e2 e3 e4 p) w = Some order ->
  gloriafood_order_id order = external_order_id p
  /\ total_price order = normalized_total_price p
  /\ items order = normalized_items p
  /\ customer_name order = e1 p.
Proof.
  unfold order_built, build_order.
  destruct (nullish p); [discriminate|].
  destruct (truthy (get p "created_at" <||> get p "order_date")) eqn:Hg;
    step_effects; rewrite ?Hg; intros H; injection H as <-; repeat split.
Qed.

Lemma payload_order_fields (env : Env) (dbType : DbType) (p : JValue) (w : World)
    (order : Order) :
  order_built (payload_order env dbType p) w = Some order ->
  gloriafood_order_id order = external_order_id p
  /\ total_price order = normalized_total_price p
  /\ items order = normalized_items p.
Proof.
  destruct dbType; unfold payload_order, OrderDatabase.build, OrderDatabaseMySQL.build; intros H;
    apply order_built_fields in H; tauto.
Qed.

Lemma order_built_payload (env : Env) (e1 e2 e3 e4 : JValue -> JValue)
    (p : JValue) (w : World) (order : Order) :
  order_built (build_order env e1 e2 e3 e4 p) w = Some order ->
  raw_data order = json_text p /\ status order = normalized_status p.
Proof.
  unfold order_built, build_order.
  destruct (nullish p); [discriminate|].
  destruct (truthy (get p "created_at" <||> get p "order_date")) eqn:Hg;
    step_effects; rewrite ?Hg; intros H; injection H as <-; repeat split.
Qed.

Lemma payload_order_payload (env : Env) (dbType : DbType) (p : JValue) (w : World)
    (order : Order) :
  order_built (payload_order env dbType p) w = Some order ->
  raw_data order = json_text p /\ status order = normalized_status p.
Proof.
  destruct dbType; unfold payload_order, OrderDatabase.build, OrderDatabaseMySQL.build;
    apply order_built_payload.
Qed.

(** Both upsert statements write these columns from the new payload, on an
    insert and on a conflict. *)
(** The stored status after an upsert is the payload's, on both backends. *)
Lemma saved_status (dbType : DbType) (order saved : Order) (t : list Order) :
  hd_error (select_by_id (gloriafood_order_id order)
              (insert_or_update (upsert_merge dbType) (upsert_row dbType order) t))
  = Some saved ->
  status saved = status order.
Proof.
  pose proof (backend_clauses dbType) as C.
  rewrite <- (row_id _ _ C order) at 1.
  rewrite (select_after_upsert _ (merge_id _ _ C)).
  destruct (existsb (has_id (gloriafood_order_id (upsert_row dbType order))) t).
  - destruct (select_by_id (gloriafood_order_id (upsert_row dbType order)) t)
      as [|old rest]; [discriminate|].
    simpl. intros H. injection H as <-. destruct dbType; reflexivity.
  - simpl. intros H. injection H as <-. destruct dbType; reflexivity.
Qed.

Lemma formatStatus_passes (p : JValue) (w : World) :
  displayable p = true -> formatStatus (normalized_status p) w = (Done tt, w).
Proof.
  unfold displayable, formatStatus.
  destruct (normalized_status p); try reflexivity.
  intros H. apply negb_true_iff in H. now rewrite H.
Qed.

Lemma formatStatus_throws (p : JValue) (w : World) :
  displayable p = false ->
  formatStatus (normalized_status p) w
  = (Raise (TypeError "colorizer is not a function"), w).
Proof.
  unfold displayable, formatStatus.
  destruct (normalized_status p); try discriminate.
  intros H. apply negb_false_iff in H. now rewrite H.
Qed.

Section BackendRuns.

Variable env : Env.
Hypothesis calm : no_db_faults env.
Variable dbType : DbType.

Lemma db_get_run (k : string) (w : World) :
  pool_available w ->
  exists w',
    getOrderByGloriaFoodId (IDatabase := createDatabase env dbType) k w
      = (Done (hd_error (select_by_id k (orders w))), w')
    /\ orders w' = orders w /\ quiet w w'.
Proof.
  intros Hpool. destruct dbType; simpl.
  - apply sqlite_get_run; assumption.
  - apply mysql_get_run; assumption.
Qed.

Lemma db_upsert_run (p : JValue) (w : World) :
  nullish p = false ->
  pool_available w ->
  exists order w',
    order_built (payload_order env dbType p) w = Some order
    /\ insertOrUpdateOrder (IDatabase := createDatabase env dbType) p w
       = (Done (hd_error (select_by_id (gloriafood_order_id order)
                  (insert_or_update (upsert_merge dbType)
                     (upsert_row dbType order) (orders w)))), w')
    /\ orders w'
       = insert_or_update (upsert_merge dbType) (upsert_row dbType order) (orders w)
    /\ quiet w w'.
Proof.
  intros Hp Hpool. destruct dbType; simpl.
  - apply sqlite_upsert_run; assumption.
  - apply mysql_upsert_run; assumption.
Qed.

Lemma db_mark_run (k : string) (ddId : JValue) (w : World) :
  pool_available w ->
  exists f w',
    markOrderSentToDoorDash (IDatabase := createDatabase env dbType) k ddId w = (Done tt, w')
    /\ orders w' = update_where_id k f (orders w)
    /\ (forall r, gloriafood_order_id (f r) = gloriafood_order_id r
                  /\ created_at (f r) = created_at r
                  /\ sent_to_doordash (f r) = 1%Z)
    /\ quiet w w'.
Proof.
  intros Hpool. destruct dbType; simpl.
  - destruct (sqlite_mark_run env calm k ddId JUndefined w) as (stamp & w' & H1 & H2 & H3).
    exists (OrderDatabase.mark_sent ddId JUndefined stamp), w'.
    split; [exact H1|]. split; [exact H2|]. split; [intros r; repeat split | exact H3].
  - destruct (mysql_mark_run env calm k ddId w Hpool) as (stamp & w' & H1 & H2 & H3).
    exists (OrderDatabaseMySQL.mark_sent ddId stamp), w'.
    split; [exact H1|]. split; [exact H2|]. split; [intros r; repeat split | exact H3].
Qed.

Lemma db_count_run (w : World) :
  pool_available w ->
  exists n w',
    getOrderCount (IDatabase := createDatabase env dbType) w = (Done n, w')
    /\ orders w' = orders w /\ quiet w w'.
Proof.
  intros Hpool. destruct dbType; simpl.
  - apply sqlite_stats_run; assumption.
  - apply mysql_stats_run; assumption.
Qed.

Lemma db_recent_run (minutes : nat) (w : World) :
  pool_available w ->
  exists rows w',
    getRecentOrders (IDatabase := createDatabase env dbType) minutes w = (Done rows, w')
    /\ orders w' = orders w /\ quiet w w'.
Proof.
  intros Hpool. destruct dbType; simpl.
  - apply sqlite_recent_run; assumption.
  - apply mysql_recent_run; assumption.
Qed.

End BackendRuns.

Lemma quiet_pool (w w' : World) : quiet w w' -> pool_available w -> pool_available w'.
Proof. unfold quiet, pool_available. intros (H & _ & _). now rewrite H. Qed.

Lemma stored_under_zero (k : string) (t : list Order) :
  stored_under k t = 0 -> existsb (has_id k) t = false.
Proof.
  unfold stored_under. intros H.
  destruct (existsb (has_id k) t) eqn:He; [|reflexivity].
  apply select_present in He. destruct (select_by_id k t); [congruence | discriminate].
Qed.

(** C2.  For two payloads P1, P2 with the same external order id, on either
    backend: [insertOrUpdateOrder P1] on a table that has no record under
    the id, then (possibly) [markOrderSentToDoorDash], then
    [insertOrUpdateOrder P2], leaves exactly one record under the id; its
    [created_at] is the one computed by the first application, its
    [updated_at] the one computed by the second, and its dispatch columns
    ([sent_to_doordash], [doordash_order_id], [doordash_sent_at]) are what
    they were just before the second upsert. *)
Theorem upsert_twice_keeps_one_record
    (env : Env) (dbType : DbType) (P1 P2 : JValue)
    (dispatched : option JValue) (w0 : World) :
  no_db_faults env ->
  pool_available w0 ->
  nullish P1 = false ->
  nullish P2 = false ->
  external_order_id P1 = external_order_id P2 ->
  stored_under (external_order_id P1) (orders w0) = 0 ->
  exists order1 r1 w1 before w1' order2 r2 w2,
    order_built (payload_order env dbType P1) w0 = Some order1
    /\ insertOrUpdateOrder (IDatabase := createDatabase env dbType) P1 w0
       = (Done (Some r1), w1)
    /\ maybe_mark env dbType (external_order_id P1) dispatched w1 = (Done tt, w1')
    /\ select_by_id (external_order_id P1) (orders w1') = [before]
    /\ order_built (payload_order env dbType P2) w1' = Some order2
    /\ insertOrUpdateOrder (IDatabase := createDatabase env dbType) P2 w1'
       = (Done (Some r2), w2)
    /\ select_by_id (external_order_id P1) (orders w2) = [r2]
    /\ stored_under (external_order_id P1) (orders w2) = 1
    /\ created_at r2 = created_at order1
    /\ updated_at r2 = updated_at order2
    /\ dispatch_state r2 = dispatch_state before.
Proof.
  intros calm Hpool Hp1 Hp2 Hsame Hnew.
  pose proof (backend_clauses dbType) as C.
  apply stored_under_zero in Hnew.
  (* first application *)
  destruct (db_upsert_run env calm dbType P1 w0 Hp1 Hpool)
    as (order1 & w1 & Hb1 & Hrun1 & Ht1 & Hq1).
  destruct (payload_order_fields _ _ _ _ _ Hb1) as (Hid1 & _).
  rewrite <- Hid1 in Hnew.
  pose proof (first_upsert_table _ _ C order1 (orders w0) Hnew) as Hsel1.
  rewrite Hsel1 in Hrun1. simpl in Hrun1.
  (* between the two deliveries *)
  assert (Hmid : exists before w1',
             maybe_mark env dbType (external_order_id P1) dispatched w1 = (Done tt, w1')
             /\ select_by_id (external_order_id P1) (orders w1') = [before]
             /\ created_at before = created_at order1
             /\ pool_available w1').
  { destruct dispatched as [ddId|]; simpl.
    - destruct (db_mark_run env calm dbType (external_order_id P1) ddId w1
                  (quiet_pool _ _ Hq1 Hpool)) as (f & w1' & Hm & Htm & Hf & Hqm).
      exists (f (upsert_row dbType order1)), w1'.
      split; [exact Hm|]. split.
      + rewrite Htm, select_after_update_where by (intros r; apply Hf).
        rewrite Ht1, <- Hid1, Hsel1. simpl.
        unfold has_id. rewrite (row_id _ _ C), String.eqb_refl. reflexivity.
      + split.
        * destruct (Hf (upsert_row dbType order1)) as (_ & Hc & _).
          rewrite Hc. apply (row_created _ _ C).
        * eapply quiet_pool; [exact Hqm|]. eapply quiet_pool; eassumption.
    - exists (upsert_row dbType order1), w1.
      split; [reflexivity|]. split; [|split].
      + rewrite Ht1, <- Hid1. exact Hsel1.
      + apply (row_created _ _ C).
      + eapply quiet_pool; eassumption. }
  destruct Hmid as (before & w1' & Hm & Hselm & Hcm & Hpool1).
  (* second application *)
  destruct (db_upsert_run env calm dbType P2 w1' Hp2 Hpool1)
    as (order2 & w2 & Hb2 & Hrun2 & Ht2 & Hq2).
  destruct (payload_order_fields _ _ _ _ _ Hb2) as (Hid2 & _).
  assert (Hk : gloriafood_order_id order2 = external_order_id P1) by congruence.
  rewrite <- Hk in Hselm.
  pose proof (later_upsert_table _ _ C order2 before (orders w1') Hselm) as Hsel2.
  rewrite Hsel2 in Hrun2. simpl in Hrun2.
  exists order1, (upsert_row dbType order1), w1, before, w1', order2,
         (upsert_merge dbType before (upsert_row dbType order2)), w2.
  split; [exact Hb1|]. split; [exact Hrun1|]. split; [exact Hm|].
  split; [now rewrite <- Hk|]. split; [exact Hb2|]. split; [exact Hrun2|].
  split; [now rewrite Ht2, <- Hk|].
  split; [unfold stored_under; now rewrite Ht2, <- Hk, Hsel2|].
  split; [now rewrite (merge_created _ _ C)|].
  split; [rewrite (merge_updated _ _ C); apply (row_updated _ _ C)|].
  apply (merge_dispatch _ _ C).
Qed.

Lemma upsert_twice_witness :
  exists r2 w2,
    stored_under "555" (orders w2) = 1
    /\ select_by_id "555" (orders w2) = [r2].
Proof.
  destruct (upsert_twice_keeps_one_record
              (Samples.calm_env Samples.partner_accepts) MySQL
              (Samples.order_555 "delivery" "pending")
              (Samples.order_555 "delivery" "accepted")
              (Some (JStr "D-1")) Samples.empty_world)
    as (order1 & r1 & w1 & before & w1' & order2 & r2 & w2 & H);
    [ intros i; reflexivity
    | apply Nat.ltb_lt; reflexivity
    | reflexivity | reflexivity | reflexivity | reflexivity | ].
  destruct H as (_ & _ & Hm & Hb & _ & _ & Hsel & Hone & _ & _ & Hd).
  exists r2, w2. split; [exact Hone | exact Hsel].
Defined.

(* ================================================================== *)
(** * Payloads without an id *)
(* ================================================================== *)

Lemma external_order_id_absent (p : JValue) :
  get p "id" = JUndefined ->
  get p "order_id" = JUndefined ->
  external_order_id p = "".
Proof. intros H1 H2. unfold external_order_id. now rewrite H1, H2. Qed.

Lemma insert_or_update_length_present (merge : Order -> Order -> Order)
    (new : Order) (t : list Order) :
  existsb (has_id (gloriafood_order_id new)) t = true ->
  List.length (insert_or_update merge new t) = List.length t.
Proof. intros H. unfold insert_or_update. rewrite H. apply length_map. Qed.

Lemma select_in_id (k : string) (t : list Order) (r : Order) :
  In r (select_by_id k t) -> gloriafood_order_id r = k.
Proof. intros H. apply filter_In in H as [_ H]. now apply has_id_true. Qed.

(** What one upsert leaves under its id, on a table that respects the
    UNIQUE constraint. *)
Lemma upsert_result (env : Env) (dbType : DbType) (p : JValue) (w : World) :
  no_db_faults env ->
  pool_available w ->
  unique_ids (orders w) ->
  nullish p = false ->
  exists r w',
    insertOrUpdateOrder (IDatabase := createDatabase env dbType) p w = (Done (Some r), w')
    /\ gloriafood_order_id r = external_order_id p
    /\ select_by_id (external_order_id p) (orders w') = [r]
    /\ unique_ids (orders w')
    /\ existsb (has_id (external_order_id p)) (orders w') = true
    /\ (existsb (has_id (external_order_id p)) (orders w) = true ->
        List.length (orders w') = List.length (orders w))
    /\ quiet w w'.
Proof.
  intros calm Hpool Hu Hp.
  pose proof (backend_clauses dbType) as C.
  destruct (db_upsert_run env calm dbType p w Hp Hpool)
    as (order & w' & Hb & Hrun & Ht & Hq).
  destruct (payload_order_fields _ _ _ _ _ Hb) as (Hid & _).
  pose proof (stored_under_after_upsert _ (merge_id _ _ C)
                (upsert_row dbType order) (orders w) Hu) as Hone.
  rewrite (row_id _ _ C) in Hone. unfold stored_under in Hone.
  rewrite <- Ht in Hone. rewrite <- Ht in Hrun.
  destruct (select_by_id (gloriafood_order_id order) (orders w')) as [|r [|r' rest]] eqn:Hsel;
    try discriminate.
  exists r, w'. rewrite <- Hid.
  split; [exact Hrun|].
  split; [apply (select_in_id _ (orders w')); rewrite Hsel; now left|].
  split; [exact Hsel|].
  split; [rewrite Ht; apply insert_or_update_unique; [apply (merge_id _ _ C) | exact Hu]|].
  split; [eapply select_nonempty_existsb; exact Hsel|].
  split; [|exact Hq].
  intros Hex. rewrite Ht. apply insert_or_update_length_present.
  now rewrite (row_id _ _ C).
Qed.

Lemma upsert_payload_columns (dbType : DbType) (order : Order) :
  (forall old,
     raw_data (upsert_merge dbType old (upsert_row dbType order)) = raw_data order
     /\ status (upsert_merge dbType old (upsert_row dbType order)) = status order
     /\ total_price (upsert_merge dbType old (upsert_row dbType order)) = total_price order)
  /\ raw_data (upsert_row dbType order) = raw_data order
  /\ status (upsert_row dbType order) = status order
  /\ total_price (upsert_row dbType order) = total_price order.
Proof. destruct dbType; repeat split. Qed.

Section RoundTrips.

Variable env : Env.
Hypothesis calm : no_db_faults env.
Variable dbType : DbType.

(** The row an upsert leaves under its id: the inserted row, or the row
    that was there merged with it. *)
Lemma upsert_row_shape (p : JValue) (w : World) :
  pool_available w ->
  unique_ids (orders w) ->
  nullish p = false ->
  exists order r w',
    order_built (payload_order env dbType p) w = Some order
    /\ insertOrUpdateOrder (IDatabase := createDatabase env dbType) p w = (Done (Some r), w')
    /\ select_by_id (external_order_id p) (orders w') = [r]
    /\ (r = upsert_row dbType order
        \/ exists old, r = upsert_merge dbType old (upsert_row dbType order))
    /\ orders w' = insert_or_update (upsert_merge dbType) (upsert_row dbType order) (orders w)
    /\ quiet w w'.
Proof.
  intros Hpool Hu Hp.
  pose proof (backend_clauses dbType) as C.
  destruct (db_upsert_run env calm dbType p w Hp Hpool)
    as (order & w' & Hb & Hrun & Ht & Hq).
  destruct (payload_order_fields _ _ _ _ _ Hb) as (Hid & _).
  pose proof (stored_under_after_upsert _ (merge_id _ _ C)
                (upsert_row dbType order) (orders w) Hu) as Hone.
  rewrite (row_id _ _ C) in Hone. unfold stored_under in Hone.
  pose proof (select_after_upsert _ (merge_id _ _ C)
                (upsert_row dbType order) (orders w)) as Hsel.
  rewrite (row_id _ _ C) in Hsel.
  destruct (select_by_id (gloriafood_order_id order)
              (insert_or_update (upsert_merge dbType) (upsert_row dbType order) (orders w)))
    as [|r [|r' rest]] eqn:Hs; try discriminate.
  exists order, r, w'. rewrite <- Hid, Ht.
  split; [exact Hb|]. split; [exact Hrun|]. split; [exact Hs|].
  split; [|split; [reflexivity | exact Hq]].
  destruct (existsb (has_id (gloriafood_order_id order)) (orders w)).
  - destruct (select_by_id (gloriafood_order_id order) (orders w)) as [|old rest];
      [discriminate|].
    simpl in Hsel. injection Hsel as -> _. right. now exists old.
  - injection Hsel as ->. now left.
Qed.

End RoundTrips.

(** C10 as stated fails.  [insertOrUpdateOrder] does refuse a payload
    without an id when the driver refuses the statement: better-sqlite3
    binds numbers, strings, bigints, buffers and [null] only, so for the
    status [true] the call that runs the INSERT (the second call into the
    driver) raises; [insertOrUpdateOrder] catches that and returns [null],
    nothing is stored, and the webhook that carries the payload is
    answered with the 500. *)
Lemma unbound_idless_payload_is_refused :
  let payload := JObj [("status", JBool true)] in
  exists w1 w2,
    external_order_id payload = ""
    /\ OrderDatabase.insertOrUpdateOrder (Samples.fault_at 1) payload Samples.empty_world
       = (Done None, w1)
    /\ orders w1 = []
    /\ handleWebhook (Samples.fault_at 3) true (database := sqlite (Samples.fault_at 3))
         (mkRequest (JObj [("order", payload)]) (JObj [])) Samples.empty_world
       = (Done StoreFailed, w2)
    /\ orders w2 = [].
Proof.
  cbv zeta. eexists. eexists.
  split; [reflexivity|].
  split; [vm_compute; reflexivity|]. split; [reflexivity|].
  split; [vm_compute; reflexivity | reflexivity].
Qed.

(** C10, amended.  [insertOrUpdateOrder] has no check for a missing id:
    when no call into the database driver raises and the pool has a
    connection to give, a payload with neither [id] nor [order_id] is
    stored under the empty external order id, with its JSON and status; a
    second such payload updates that same record with its own JSON and
    status, keeping [created_at] and the dispatch state, instead of adding
    one, on either backend. *)
Theorem idless_payloads_share_one_record
    (env : Env) (dbType : DbType) (P1 P2 : JValue) (w0 : World) :
  no_db_faults env ->
  pool_available w0 ->
  unique_ids (orders w0) ->
  nullish P1 = false -> get P1 "id" = JUndefined -> get P1 "order_id" = JUndefined ->
  nullish P2 = false -> get P2 "id" = JUndefined -> get P2 "order_id" = JUndefined ->
  exists r1 w1 r2 w2,
    insertOrUpdateOrder (IDatabase := createDatabase env dbType) P1 w0 = (Done (Some r1), w1)
    /\ gloriafood_order_id r1 = ""
    /\ select_by_id "" (orders w1) = [r1]
    /\ raw_data r1 = json_text P1
    /\ (is_string (normalized_status P1) = true -> status r1 = normalized_status P1)
    /\ insertOrUpdateOrder (IDatabase := createDatabase env dbType) P2 w1 = (Done (Some r2), w2)
    /\ gloriafood_order_id r2 = ""
    /\ select_by_id "" (orders w2) = [r2]
    /\ raw_data r2 = json_text P2
    /\ (is_string (normalized_status P2) = true -> status r2 = normalized_status P2)
    /\ created_at r2 = created_at r1
    /\ dispatch_state r2 = dispatch_state r1
    /\ List.length (orders w2) = List.length (orders w1).
Proof.
  intros calm Hpool Hu Hp1 Hi1 Ho1 Hp2 Hi2 Ho2.
  pose proof (backend_clauses dbType) as C.
  pose proof (external_order_id_absent P1 Hi1 Ho1) as K1.
  pose proof (external_order_id_absent P2 Hi2 Ho2) as K2.
  (* the first payload *)
  destruct (upsert_row_shape env calm dbType P1 w0 Hpool Hu Hp1)
    as (order1 & r1 & w1 & Hb1 & Hrun1 & Hsel1 & Hshape1 & Ht1 & Hq1).
  destruct (payload_order_payload _ _ _ _ _ Hb1) as (Hraw1 & Hst1).
  destruct (upsert_payload_columns dbType order1) as (Hm1 & R1 & R2 & _).
  assert (Hcols1 : raw_data r1 = json_text P1 /\ status r1 = normalized_status P1).
  { destruct Hshape1 as [-> | [old ->]].
    - rewrite R1, R2. now split.
    - destruct (Hm1 old) as (M1 & M2 & _). rewrite M1, M2. now split. }
  assert (Hu1 : unique_ids (orders w1)).
  { rewrite Ht1. apply insert_or_update_unique; [apply (merge_id _ _ C) | exact Hu]. }
  (* the second payload *)
  destruct (upsert_row_shape env calm dbType P2 w1 (quiet_pool _ _ Hq1 Hpool) Hu1 Hp2)
    as (order2 & r2 & w2 & Hb2 & Hrun2 & Hsel2 & _ & Ht2 & _).
  destruct (payload_order_fields _ _ _ _ _ Hb2) as (Hid2 & _).
  destruct (payload_order_payload _ _ _ _ _ Hb2) as (Hraw2 & Hst2).
  destruct (upsert_payload_columns dbType order2) as (Hm2 & _).
  rewrite K1 in *. rewrite K2 in *.
  assert (Hr2 : r2 = upsert_merge dbType r1 (upsert_row dbType order2)).
  { pose proof (later_upsert_table _ _ C order2 r1 (orders w1)) as Hl.
    rewrite Hid2 in Hl. specialize (Hl Hsel1).
    rewrite <- Ht2, Hsel2 in Hl. now injection Hl. }
  destruct (Hm2 r1) as (M1 & M2 & _).
  exists r1, w1, r2, w2.
  split; [exact Hrun1|].
  split; [apply (select_in_id _ (orders w1)); rewrite Hsel1; now left|].
  split; [exact Hsel1|].
  split; [apply Hcols1|]. split; [intros _; apply Hcols1|].
  split; [exact Hrun2|].
  split; [apply (select_in_id _ (orders w2)); rewrite Hsel2; now left|].
  split; [exact Hsel2|].
  subst r2.
  split; [congruence|]. split; [intros _; congruence|].
  split; [apply (merge_created _ _ C)|].
  split; [apply (merge_dispatch _ _ C)|].
  rewrite Ht2. apply insert_or_update_length_present.
  rewrite (row_id _ _ C), Hid2.
  eapply select_nonempty_existsb. exact Hsel1.
Qed.

Lemma idless_payloads_witness :
  exists r2 w2,
    select_by_id "" (orders w2) = [r2]
    /\ raw_data r2 = json_text (JObj [("type", JStr "delivery"); ("client_name", JStr "Liza")])
    /\ List.length (orders w2) = 1.
Proof.
  destruct (idless_payloads_share_one_record
              (Samples.calm_env Samples.partner_accepts) SQLite
              (JObj [("type", JStr "pickup"); ("total", JStr "9.50")])
              (JObj [("type", JStr "delivery"); ("client_name", JStr "Liza")])
              Samples.empty_world)
    as (r1 & w1 & r2 & w2 & H1 & _ & _ & _ & _ & _ & _ & Hs2 & Hraw & _ & _ & _ & Hlen);
    [ intros i; reflexivity
    | apply Nat.ltb_lt; reflexivity
    | constructor
    | reflexivity | reflexivity | reflexivity
    | reflexivity | reflexivity | reflexivity | ].
  exists r2, w2. split; [exact Hs2|]. split; [exact Hraw|].
  rewrite Hlen. vm_compute in H1. injection H1 as _ <-. reflexivity.
Defined.

(* ================================================================== *)
(** * Customer name, total price, items: where the backends part *)
(* ================================================================== *)

(** The flat [client_first_name]/[client_last_name] fields win in the
    pooled backend whenever their concatenation is not blank. *)
Lemma mysql_name_prefers_flat_fields (p : JValue) (name : string) :
  OrderDatabaseMySQL.template_name (get p "client_first_name") (get p "client_last_name")
    = Some name ->
  OrderDatabaseMySQL.extractCustomerName p = name.
Proof.
  intros H. unfold OrderDatabaseMySQL.extractCustomerName.
  cbn [OrderDatabaseMySQL.first_some]. now rewrite H.
Qed.

(** C6.  On the payload of order 555, which carries the flat fields
    [client_first_name = Ana], [client_last_name = Cruz] and a nested
    [customer.name = Bob], [OrderDatabaseMySQL.extractCustomerName] answers
    the concatenation of the flat fields, but [OrderDatabase.extractCustomerName]
    (the default backend) never reads the flat fields and answers the
    nested customer name. *)
Theorem sqlite_name_ignores_flat_fields :
  let p := Samples.order_555 "delivery" "pending" in
  get p "client_first_name" = JStr "Ana"
  /\ get p "client_last_name" = JStr "Cruz"
  /\ get (get p "customer") "name" = JStr "Bob"
  /\ OrderDatabaseMySQL.extractCustomerName p = "Ana Cruz"
  /\ OrderDatabase.extractCustomerName p = JStr "Bob".
Proof. repeat split. Qed.

(** C8.  [total_price] is [parseFloat(total_price || total || '0')]: zero
    when both fields are missing, but [NaN], not zero, when the field holds
    text that does not start with a number; the record is built without any
    exception either way. *)
Theorem unparseable_price_is_NaN :
  let missing := JObj [("id", JStr "1")] in
  let unparseable := JObj [("id", JStr "1"); ("total_price", JStr "abc")] in
  normalized_total_price missing = Dec false 0 0
  /\ normalized_total_price unparseable = NaN
  /\ num_is_zero (normalized_total_price unparseable) = false
  /\ (exists order w,
        OrderDatabase.build (Samples.calm_env Samples.partner_accepts) unparseable
          Samples.empty_world = (Done order, w)
        /\ total_price order = NaN)
  /\ (exists order w,
        OrderDatabaseMySQL.build (Samples.calm_env Samples.partner_accepts) unparseable
          Samples.empty_world = (Done order, w)
        /\ total_price order = NaN).
Proof.
  repeat split; try reflexivity; do 2 eexists; split; reflexivity.
Qed.

(** C7.  Two payloads for order 7 with different items, upserted one after
    the other: the pooled backend stores the items of the second payload,
    the SQLite backend still holds the items of the first (its ON CONFLICT
    clause rewrites status, total_price, updated_at, fetched_at and raw_data
    only), although raw_data and status are those of the second. *)
Theorem sqlite_conflict_update_misses_items :
  let env := Samples.calm_env Samples.partner_accepts in
  let P1 := JObj [("id", JStr "7"); ("status", JStr "pending");
                  ("items", JArr [JObj [("name", JStr "Adobo")]])] in
  let P2 := JObj [("id", JStr "7"); ("status", JStr "accepted");
                  ("items", JArr [JObj [("name", JStr "Sinigang")]])] in
  (exists r w,
     upsert_twice (sqlite env) P1 P2 Samples.empty_world = (Done (Some r), w)
     /\ items r = normalized_items P1
     /\ String.eqb (items r) (normalized_items P2) = false
     /\ raw_data r = json_text P2
     /\ status r = JStr "accepted")
  /\ (exists r w,
        upsert_twice (mysql env) P1 P2 Samples.empty_world = (Done (Some r), w)
        /\ items r = normalized_items P2).
Proof.
  split; do 2 eexists; (split; [vm_compute; reflexivity|]); repeat split.
Qed.

(* ================================================================== *)
(** * The connection pool *)
(* ================================================================== *)

(** X1.  When the query raises, the connection that was handed out stays out:
    the catch block returns without [connection.release()]. *)
Lemma mysql_get_leaks_on_query_error (env : Env) (k : string) (w : World) :
  pool_available w ->
  db_fault env (db_calls w) = false ->
  db_fault env (S (db_calls w)) = true ->
  exists w',
    OrderDatabaseMySQL.getOrderByGloriaFoodId env k w = (Done None, w')
    /\ pool_in_use w' = S (pool_in_use w).
Proof.
  intros Hpool H0 H1. apply pool_available_leb in Hpool.
  unfold OrderDatabaseMySQL.getOrderByGloriaFoodId.
  cbv beta iota zeta delta
    [bind ret throw try_catch sql_read driver_call
     OrderDatabaseMySQL.getConnection OrderDatabaseMySQL.release].
  rewrite Hpool, H0. cbn [db_calls set_db_calls set_pool_in_use pool_in_use].
  rewrite H1. eexists. split; reflexivity.
Qed.

(** C9.  In [OrderDatabaseMySQL], a query that raises leaves the acquired
    connection unreleased: after [insertOrUpdateOrder] whose INSERT raises,
    and after [getOrderByGloriaFoodId] whose SELECT raises, the operation
    has returned [null] and one pooled connection is still held. *)
Theorem mysql_error_path_keeps_connection :
  let p := Samples.order_555 "delivery" "pending" in
  (exists w,
     OrderDatabaseMySQL.insertOrUpdateOrder (Samples.fault_at 1) p Samples.empty_world
       = (Done None, w)
     /\ pool_in_use Samples.empty_world = 0
     /\ pool_in_use w = 1)
  /\ (exists w,
        OrderDatabaseMySQL.getOrderByGloriaFoodId (Samples.fault_at 1) "555" Samples.empty_world
          = (Done None, w)
        /\ pool_in_use w = 1)
  /\ (exists r w,
        OrderDatabaseMySQL.insertOrUpdateOrder (Samples.fault_at 99) p Samples.empty_world
          = (Done (Some r), w)
        /\ pool_in_use w = 0).
Proof.
  repeat split; repeat eexists; vm_compute; reflexivity.
Qed.

(* ================================================================== *)
(** * Status lookup over the three routes *)
(* ================================================================== *)

(** C5 as stated fails.  With the answers 401, then 200, the lookup does not
    fail fast on the non-404 error: it goes on to the second route and
    returns its result.  With the answers 500, 500, 404 it reports the
    not-found failure although only the last route answered 404. *)
Lemma status_lookup_does_not_fail_fast :
  let found := JObj [("delivery_id", JStr "D-9"); ("status", JStr "created")] in
  let env1 := Samples.calm_env
                (Samples.scripted [HttpStatus 401 JNull; HttpOk found]) in
  let env2 := Samples.calm_env
                (Samples.scripted [HttpStatus 500 JNull; HttpStatus 500 JNull;
                           HttpStatus 404 JNull]) in
  (exists w,
     DoorDashClient.getOrderStatus env1 "abc" Samples.empty_world
       = (Done (DoorDashClient.status_response "abc" found), w)
     /\ http_log w = [HttpGet "/deliveries/abc";
                      HttpGet "/deliveries/external_delivery_id/abc"])
  /\ (exists w,
        DoorDashClient.getOrderStatus env2 "abc" Samples.empty_world
          = (Raise (DoorDashNotFound "abc" JNull), w)
        /\ List.length (http_log w) = 3).
Proof.
  split; eexists; split; vm_compute; reflexivity.
Qed.

Lemma axios_run (env : Env) (req : Request) (w : World) :
  axios env req w
  = (match http env (List.length (http_log w)) req with
     | HttpOk data => Done data
     | HttpStatus code data => Raise (AxiosError (Some (code, data)) "Request failed")
     | HttpNoResponse msg => Raise (AxiosError None msg)
     end,
     set_http_log (http_log w ++ [req])%list w).
Proof. unfold axios. destruct (http env _ req); reflexivity. Qed.

(** C5, amended.  For an identifier that is not blank, [getOrderStatus]
    requests the three routes in order and returns the result of the first
    that succeeds, whatever errors the earlier ones gave; no error ends the
    loop early.  When all three fail, the failure is decided by the last
    route alone: the not-found failure when it answered 404, the generic
    API failure otherwise. *)
Theorem getOrderStatus_tries_every_route (env : Env) (idOrExternalId : string) (w : World) :
  is_empty (trim idOrExternalId) = false ->
  let key := trim idOrExternalId in
  let n := List.length (http_log w) in
  let r1 := HttpGet ("/deliveries/" ++ DoorDashClient.encodeURIComponent key) in
  let r2 := HttpGet ("/deliveries/external_delivery_id/"
                     ++ DoorDashClient.encodeURIComponent key) in
  let r3 := HttpGet ("/deliveries/by_external_id/"
                     ++ DoorDashClient.encodeURIComponent key) in
  exists w',
    DoorDashClient.getOrderStatus env idOrExternalId w
    = (match http env n r1, http env (S n) r2, http env (S (S n)) r3 with
       | HttpOk data, _, _
       | _, HttpOk data, _
       | _, _, HttpOk data => Done (DoorDashClient.status_response idOrExternalId data)
       | _, _, last => Raise (failure_after key last)
       end, w')
    /\ http_log w'
       = (http_log w ++
          (if is_ok (http env n r1) then [r1]
           else if is_ok (http env (S n) r2) then [r1; r2]
           else [r1; r2; r3]))%list.
Proof.
  intros Hkey. cbv zeta.
  unfold DoorDashClient.getOrderStatus. rewrite Hkey.
  unfold DoorDashClient.tryEndpoints, DoorDashClient.try_each.
  unfold bind at 1. unfold bind at 1. unfold try_catch at 1. unfold bind at 1.
  rewrite axios_run.
  destruct (http env (List.length (http_log w)) _) as [d1|c1 d1|m1] eqn:E1;
    cbn [is_ok];
    try (eexists; split; [reflexivity | reflexivity]);
    (unfold ret at 1; cbv beta iota;
     unfold bind at 1; unfold try_catch at 1; unfold bind at 1;
     rewrite axios_run; cbn [http_log set_http_log];
     rewrite length_app; cbn [List.length]; rewrite Nat.add_1_r;
     destruct (http env (S (List.length (http_log w))) _) as [d2|c2 d2|m2] eqn:E2;
       cbn [is_ok];
       try (eexists; split; [reflexivity | cbn; rewrite <- app_assoc; reflexivity]);
       (unfold ret at 1; cbv beta iota;
        unfold bind at 1; unfold try_catch at 1; unfold bind at 1;
        rewrite axios_run; cbn [http_log set_http_log];
        rewrite !length_app; cbn [List.length]; rewrite !Nat.add_1_r;
        destruct (http env (S (S (List.length (http_log w)))) _) as [d3|c3 d3|m3] eqn:E3;
          cbn [is_ok];
          eexists; (split; [cbn; try destruct (c3 =? 404)%Z; reflexivity
                           | cbn; rewrite <- !app_assoc; reflexivity]))).
Qed.

(* ================================================================== *)
(** * The dispatch controller *)
(* ================================================================== *)


Lemma passes_type_gate_delivery (p : JValue) :
  passes_type_gate p = true -> isDeliveryOrder p = true.
Proof.
  unfold passes_type_gate, isDeliveryOrder.
  destruct (gate_type p); try discriminate. simpl. tauto.
Qed.

Section DispatchRuns.

Variable env : Env.
Hypothesis calm : no_db_faults env.
Variable dbType : DbType.
Variable configured : bool.

Lemma dispatch_skips (p oid : JValue) (w : World) :
  configured && passes_type_gate p = false ->
  dispatch env configured (database := createDatabase env dbType) p oid w = (Done tt, w).
Proof.
  unfold passes_type_gate, dispatch, sendOrderToDoorDash.
  destruct configured; simpl; [|reflexivity].
  destruct (gate_type p); try reflexivity.
  intros ->. reflexivity.
Qed.

Lemma dispatch_attempts_run (p oid : JValue) (w : World) :
  configured = true ->
  passes_type_gate p = true ->
  pool_available w ->
  exists w',
    dispatch env configured (database := createDatabase env dbType) p oid w = (Done tt, w')
    /\ dispatch_attempts w' = S (dispatch_attempts w)
    /\ pool_in_use w' = pool_in_use w
    /\ match drive_payload env p w with
       | inl _ => orders w' = orders w /\ http_log w' = http_log w
       | inr payload =>
           http_log w' = (http_log w ++ [HttpPost "/deliveries" payload])%list
           /\ match http env (List.length (http_log w)) (HttpPost "/deliveries" payload) with
              | HttpOk _ =>
                  exists f,
                    orders w' = update_where_id (to_string oid) f (orders w)
                    /\ (forall r, gloriafood_order_id (f r) = gloriafood_order_id r
                                  /\ created_at (f r) = created_at r
                                  /\ sent_to_doordash (f r) = 1%Z)
              | _ => orders w' = orders w
              end
       end.
Proof.
  intros Hc Hgate Hpool. subst configured.
  unfold passes_type_gate in Hgate.
  unfold dispatch, sendOrderToDoorDash, drive_payload. simpl negb. cbv iota.
  destruct (gate_type p) as [| | | |orderType| |]; try discriminate.
  rewrite Hgate. simpl negb. cbv iota.
  unfold note_attempt, lift_sum.
  destruct (DoorDashClient.convertGloriaFoodToDrive
              (randomUUID env (S (dispatch_attempts w))) p) as [e|payload] eqn:Hconv.
  - (* the conversion throws *)
    unfold try_catch, bind, throw, ret. cbn. rewrite Hconv. cbn.
    eexists. split; [reflexivity|]. repeat split.
  - unfold DoorDashClient.createDriveDelivery.
    unfold try_catch, bind, throw, ret. cbn. rewrite Hconv. cbn.
    rewrite axios_run. cbn.
    destruct (http env (List.length (http_log w)) (HttpPost "/deliveries" payload))
      as [data|code data|msg] eqn:Hhttp; cbn.
    + (* accepted: the order is marked as sent *)
      match goal with
      | |- context [markOrderSentToDoorDash ?k ?i ?w0] =>
          destruct (db_mark_run env calm dbType k i w0) as (f & w' & Hm & Ht & Hf & Hq);
            [exact Hpool|]; rewrite Hm
      end.
      destruct Hq as (Q1 & Q2 & Q3). cbn in *.
      exists w'. split; [reflexivity|].
      split; [exact Q3|]. split; [exact Q1|]. split; [exact Q2|].
      exists f. split; assumption.
    + eexists. split; [reflexivity|]. repeat split.
    + eexists. split; [reflexivity|]. repeat split.
Qed.

End DispatchRuns.

Lemma upsert_returns_row (merge : Order -> Order -> Order) (new : Order) (t : list Order) :
  (forall old n, gloriafood_order_id (merge old n) = gloriafood_order_id old) ->
  exists r,
    hd_error (select_by_id (gloriafood_order_id new) (insert_or_update merge new t)) = Some r.
Proof.
  intros Hm. rewrite (select_after_upsert merge Hm).
  destruct (existsb (has_id (gloriafood_order_id new)) t) eqn:He.
  - apply select_present in He.
    destruct (select_by_id (gloriafood_order_id new) t) as [|r rest]; [congruence|].
    simpl. eexists. reflexivity.
  - simpl. eexists. reflexivity.
Qed.

Section HandlerRuns.

Variable env : Env.
Hypothesis calm : no_db_faults env.
Variable dbType : DbType.
Variable configured : bool.

Lemma dispatch_done (p oid : JValue) (w : World) :
  pool_available w ->
  exists w',
    dispatch env configured (database := createDatabase env dbType) p oid w = (Done tt, w')
    /\ pool_in_use w' = pool_in_use w.
Proof.
  intros Hpool.
  destruct (configured && passes_type_gate p) eqn:Hg.
  - apply andb_true_iff in Hg as [Hc Hgate].
    destruct (dispatch_attempts_run env calm dbType configured p oid w Hc Hgate Hpool)
      as (w' & H & _ & Hp & _).
    exists w'. split; assumption.
  - exists w. split; [now apply dispatch_skips | reflexivity].
Qed.

(** The lookup and the store of one webhook delivery, when the driver does
    not raise. *)
Lemma handle_store_run (req : WebhookRequest) (w : World) :
  pool_available w ->
  let p := orderData_of (body req) (query req) in
  truthy p = true ->
  exists order saved wg wu,
    gloriafood_order_id order = external_order_id p
    /\ raw_data order = json_text p
    /\ status order = normalized_status p
    /\ status saved = normalized_status p
    /\ getOrderByGloriaFoodId (IDatabase := createDatabase env dbType)
         (to_string (orderId_of p)) w = (Done (existing_before p w), wg)
    /\ insertOrUpdateOrder (IDatabase := createDatabase env dbType) p wg
       = (Done (Some saved), wu)
    /\ orders wu
       = insert_or_update (upsert_merge dbType) (upsert_row dbType order) (orders w)
    /\ quiet w wu
    /\ pool_available wu.
Proof.
  intros Hpool p Hp.
  pose proof (backend_clauses dbType) as C.
  assert (Hnn : nullish p = false) by (destruct p; simpl in *; congruence).
  destruct (db_get_run env calm dbType (to_string (orderId_of p)) w Hpool)
    as (wg & Hget & Htg & Hqg).
  destruct (db_upsert_run env calm dbType p wg Hnn (quiet_pool _ _ Hqg Hpool))
    as (order & wu & Hb & Hup & Htu & Hqu).
  destruct (payload_order_fields _ _ _ _ _ Hb) as (Hid & _).
  destruct (payload_order_payload _ _ _ _ _ Hb) as (Hraw & Hstatus).
  destruct (upsert_returns_row (upsert_merge dbType) (upsert_row dbType order) (orders wg)
              (merge_id _ _ C)) as (saved & Hsaved).
  rewrite (row_id _ _ C) in Hsaved.
  pose proof (saved_status dbType order saved (orders wg) Hsaved) as Hss.
  rewrite Hsaved in Hup.
  exists order, saved, wg, wu.
  split; [exact Hid|]. split; [exact Hraw|]. split; [exact Hstatus|].
  split; [congruence|]. split; [exact Hget|]. split; [exact Hup|].
  split; [congruence|].
  split; [eapply quiet_trans; eassumption|].
  eapply quiet_pool; [exact Hqu|]. eapply quiet_pool; eassumption.
Qed.

(** One webhook delivery that carries order data, when the store works and
    the display of a new order goes through: the order is upserted, the
    dispatch phase runs on the result, and the response is the 200 with
    [success: true]. *)
Lemma handle_run (req : WebhookRequest) (w : World) :
  pool_available w ->
  let p := orderData_of (body req) (query req) in
  truthy p = true ->
  display_passes p (existing_before p w) = true ->
  exists order w1 w2,
    gloriafood_order_id order = external_order_id p
    /\ orders w1
       = insert_or_update (upsert_merge dbType) (upsert_row dbType order) (orders w)
    /\ quiet w w1
    /\ dispatch_phase env configured dbType p (existing_before p w) w1 = (Done tt, w2)
    /\ pool_available w2
    /\ handleWebhook env configured (database := createDatabase env dbType) req w
       = (Done (OrderProcessed (orderId_of p)), w2).
Proof.
  intros Hpool p Hp Hshow.
  destruct (handle_store_run req w Hpool Hp)
    as (order & saved & wg & wu & Hid & _ & _ & Hss & Hget & Hup & Htu & Hqu & Hpu).
  fold p in Hid, Hss, Hget, Hup.
  (* the world in which the dispatch phase starts *)
  assert (Hdisp : exists w1,
            orders w1 = orders wu /\ quiet wu w1
            /\ (match existing_before p w with
                | None => displayOrder saved (database := createDatabase env dbType) wu = (Done tt, w1)
                | Some _ => w1 = wu
                end)).
  { destruct (existing_before p w).
    - exists wu. repeat split.
    - destruct (db_count_run env calm dbType wu Hpu) as (n & wc & Hc & Htc & Hqc).
      destruct (db_recent_run env calm dbType 60 wc (quiet_pool _ _ Hqc Hpu))
        as (rows & wr & Hr & Htr & Hqr).
      exists wr. split; [congruence|]. split; [eapply quiet_trans; eassumption|].
      unfold displayOrder. rewrite Hss.
      erewrite bind_done by (apply formatStatus_passes; exact Hshow).
      erewrite bind_done by exact Hc.
      erewrite bind_done by exact Hr. reflexivity. }
  destruct Hdisp as (w1 & Ht1 & Hq1 & Hdisplay).
  assert (Hp1 : pool_available w1) by (eapply quiet_pool; eassumption).
  assert (Hphase : exists w2,
            dispatch_phase env configured dbType p (existing_before p w) w1 = (Done tt, w2)
            /\ pool_available w2).
  { unfold dispatch_phase, when.
    destruct (isDeliveryOrder p && wasNotSent (existing_before p w)).
    - destruct (dispatch_done p (orderId_of p) w1 Hp1) as (w2 & Hd & Hpp).
      exists w2. split; [exact Hd|]. unfold pool_available in *. now rewrite Hpp.
    - exists w1. split; [reflexivity | exact Hp1]. }
  destruct Hphase as (w2 & Hphase & Hp2).
  exists order, w1, w2.
  split; [exact Hid|]. split; [congruence|].
  split; [eapply quiet_trans; eassumption|].
  split; [exact Hphase|]. split; [exact Hp2|].
  unfold handleWebhook. fold p. rewrite Hp. simpl negb. cbv iota.
  apply try_done.
  erewrite bind_done by exact Hget.
  erewrite bind_done by exact Hup.
  unfold dispatch_phase, when in Hphase.
  destruct (existing_before p w) as [existing|] eqn:Hex.
  - subst w1. simpl wasNotSent in *.
    erewrite bind_done; [reflexivity|].
    unfold when. exact Hphase.
  - simpl wasNotSent in Hphase. rewrite andb_true_r in Hphase.
    erewrite bind_done; [reflexivity|].
    erewrite bind_done by exact Hdisplay.
    unfold when. exact Hphase.
Qed.

(** One webhook delivery for a new order whose status [formatStatus] does
    not render: the order is stored, the display throws, and the handler
    answers from its outer catch, before any dispatch. *)
Lemma handle_run_undisplayed (req : WebhookRequest) (w : World) :
  pool_available w ->
  let p := orderData_of (body req) (query req) in
  truthy p = true ->
  display_passes p (existing_before p w) = false ->
  exists order w1,
    gloriafood_order_id order = external_order_id p
    /\ raw_data order = json_text p
    /\ status order = normalized_status p
    /\ orders w1
       = insert_or_update (upsert_merge dbType) (upsert_row dbType order) (orders w)
    /\ quiet w w1
    /\ pool_available w1
    /\ handleWebhook env configured (database := createDatabase env dbType) req w
       = (Done (WebhookError "colorizer is not a function"), w1).
Proof.
  intros Hpool p Hp Hshow.
  destruct (handle_store_run req w Hpool Hp)
    as (order & saved & wg & wu & Hid & Hraw & Hst & Hss & Hget & Hup & Htu & Hqu & Hpu).
  fold p in Hid, Hraw, Hst, Hss, Hget, Hup.
  exists order, wu.
  split; [exact Hid|]. split; [exact Hraw|]. split; [exact Hst|]. split; [exact Htu|]. split; [exact Hqu|]. split; [exact Hpu|].
  unfold handleWebhook. fold p. rewrite Hp. simpl negb. cbv iota.
  destruct (existing_before p w) as [existing|] eqn:Hex; [discriminate|].
  simpl in Hshow.
  unfold try_catch.
  erewrite bind_done by exact Hget.
  erewrite bind_done by exact Hup.
  cbv beta iota zeta.
  unfold displayOrder. rewrite Hss.
  unfold bind at 1. unfold bind at 1. unfold bind at 1.
  rewrite (formatStatus_throws p wu Hshow). reflexivity.
Qed.

End HandlerRuns.

(** ** Orders already marked as sent *)

Lemma is_empty_eqb (s : string) : is_empty s = String.eqb s "".
Proof. destruct s; reflexivity. Qed.

Lemma usable_id_keys_agree (p : JValue) :
  has_usable_id p = true -> external_order_id p = handler_key p.
Proof.
  unfold has_usable_id, external_order_id, handler_key, orderId_of, toString_opt.
  intros H. apply andb_true_iff in H as [Ht He].
  assert (Hn : nullish (get p "id") = false) by (destruct (get p "id"); simpl in *; congruence).
  rewrite Hn. unfold jor at 2. simpl truthy at 1.
  rewrite <- is_empty_eqb, He.
  unfold jor at 3. rewrite Ht. unfold jor. simpl truthy.
  rewrite <- is_empty_eqb, He, Ht. reflexivity.
Qed.

(** An order that carries a truthy [id] is keyed alike; so is one that
    carries no [id] and a truthy [order_id]. *)
Lemma keyed_alike_by_id (p : JValue) : has_usable_id p = true -> keyed_alike p.
Proof. apply usable_id_keys_agree. Qed.

Lemma keyed_alike_by_order_id (p : JValue) :
  nullish (get p "id") = true ->
  truthy (get p "order_id") = true ->
  is_empty (to_string (get p "order_id")) = false ->
  keyed_alike p.
Proof.
  intros Hi Ht He.
  assert (Hn : nullish (get p "order_id") = false)
    by (destruct (get p "order_id"); simpl in *; congruence).
  assert (Hf : truthy (get p "id") = false)
    by (destruct (get p "id"); simpl in *; congruence).
  unfold keyed_alike, external_order_id, handler_key, orderId_of, toString_opt.
  rewrite Hi, Hn. unfold jor. simpl truthy. rewrite Hf, Ht.
  rewrite <- is_empty_eqb, He. reflexivity.
Qed.

Lemma usable_id_truthy (p : JValue) : has_usable_id p = true -> truthy p = true.
Proof.
  unfold has_usable_id. intros H. apply andb_true_iff in H as [Ht _].
  destruct p; simpl in *; try discriminate; reflexivity.
Qed.

Lemma marked_sent_not_pending (k : string) (t : list Order) :
  marked_sent k t -> wasNotSent (hd_error (select_by_id k t)) = false.
Proof.
  intros [Hne Hall]. destruct (select_by_id k t) as [|r rest]; [congruence|].
  simpl. inversion Hall; subst. now apply Z.eqb_neq.
Qed.

Lemma marked_sent_after_upsert (merge : Order -> Order -> Order) (row : Order -> Order)
    (k : string) (order : Order) (t : list Order) :
  upsert_clauses merge row ->
  marked_sent k t ->
  marked_sent k (insert_or_update merge (row order) t).
Proof.
  intros C [Hne Hall].
  destruct (String.eqb (gloriafood_order_id (row order)) k) eqn:Hk.
  - apply String.eqb_eq in Hk. subst k. unfold marked_sent.
    rewrite (select_after_upsert merge (merge_id _ _ C)).
    destruct (existsb (has_id (gloriafood_order_id (row order))) t) eqn:He.
    + split.
      * destruct (select_by_id (gloriafood_order_id (row order)) t); [congruence | discriminate].
      * apply Forall_map. eapply Forall_impl; [|exact Hall].
        intros r Hr. cbv beta.
        pose proof (merge_dispatch _ _ C r (row order)) as Hd.
        unfold dispatch_state in Hd. injection Hd as Hs _ _. now rewrite Hs.
    + apply select_absent in He. congruence.
  - apply String.eqb_neq in Hk.
    unfold marked_sent.
    rewrite (select_after_upsert_other merge (merge_id _ _ C)) by exact Hk.
    split; assumption.
Qed.

Lemma marked_sent_after_mark (k : string) (f : Order -> Order) (t : list Order) :
  (forall r, gloriafood_order_id (f r) = gloriafood_order_id r
             /\ created_at (f r) = created_at r
             /\ sent_to_doordash (f r) = 1%Z) ->
  select_by_id k t <> [] ->
  marked_sent k (update_where_id k f t).
Proof.
  intros Hf Hne. unfold marked_sent.
  rewrite select_after_update_where by (intros r; apply Hf).
  split.
  - destruct (select_by_id k t); [congruence | discriminate].
  - apply Forall_map. apply Forall_forall. intros r Hr.
    apply filter_In in Hr as [_ Hr]. rewrite Hr.
    destruct (Hf r) as (_ & _ & Hs). rewrite Hs. discriminate.
Qed.

(* ================================================================== *)
(** * Dispatch gating *)
(* ================================================================== *)




(* ================================================================== *)
(** * Single dispatch *)
(* ================================================================== *)

Lemma stored_under_zero_select (k : string) (t : list Order) :
  stored_under k t = 0 -> select_by_id k t = [].
Proof. unfold stored_under. now destruct (select_by_id k t). Qed.

Lemma drive_payload_attempts (env : Env) (p : JValue) (w w' : World) :
  dispatch_attempts w' = dispatch_attempts w ->
  drive_payload env p w' = drive_payload env p w.
Proof. unfold drive_payload. now intros ->. Qed.

Lemma createDelivery_calls_post (w w' : World) (payload : JValue) :
  http_log w' = (http_log w ++ [HttpPost "/deliveries" payload])%list ->
  createDelivery_calls w' = S (createDelivery_calls w).
Proof.
  unfold createDelivery_calls. intros ->.
  rewrite filter_app, length_app. simpl. lia.
Qed.

Lemma marked_order_is_found (k : string) (p : JValue) (w : World) :
  marked_sent k (orders w) ->
  handler_key p = k ->
  display_passes p (existing_before p w) = true.
Proof.
  intros [Hne _] Hk. unfold existing_before. rewrite Hk.
  destruct (select_by_id k (orders w)); [congruence | reflexivity].
Qed.

Lemma new_order_is_displayed (p : JValue) (w : World) :
  stored_under (handler_key p) (orders w) = 0 ->
  displayable p = true ->
  display_passes p (existing_before p w) = true.
Proof.
  intros Hnew Hd. unfold existing_before.
  now rewrite (stored_under_zero_select _ _ Hnew).
Qed.

Lemma gate_truthy (p : JValue) : passes_type_gate p = true -> truthy p = true.
Proof.
  unfold passes_type_gate, gate_type.
  destruct p; simpl; try discriminate; reflexivity.
Qed.

Section SingleDispatch.

Variable env : Env.
Hypothesis calm : no_db_faults env.
Variable dbType : DbType.
Variable configured : bool.

(** Once the record is marked, a delivery for the same id is stored and
    answered, and nothing is sent to the partner. *)
Lemma marked_order_is_not_dispatched (k : string) (req : WebhookRequest) (w : World) :
  pool_available w ->
  marked_sent k (orders w) ->
  delivery_for k req ->
  exists w',
    handleWebhook env configured (database := createDatabase env dbType) req w
      = (Done (OrderProcessed (orderId_of (orderData_of (body req) (query req)))), w')
    /\ http_log w' = http_log w
    /\ dispatch_attempts w' = dispatch_attempts w
    /\ marked_sent k (orders w')
    /\ pool_available w'.
Proof.
  intros Hpool Hmarked [Hp Hk].
  destruct (handle_run env calm dbType configured req w Hpool Hp
              (marked_order_is_found k _ w Hmarked Hk))
    as (order & w1 & w2 & _ & Ht1 & (Q1 & Q2 & Q3) & Hphase & Hp2 & Hrun).
  unfold dispatch_phase, existing_before in Hphase. rewrite Hk in Hphase.
  rewrite (marked_sent_not_pending k (orders w) Hmarked), andb_false_r in Hphase.
  simpl in Hphase. injection Hphase as <-.
  exists w1. split; [exact Hrun|]. split; [exact Q2|]. split; [exact Q3|].
  split; [|exact Hp2].
  rewrite Ht1. apply marked_sent_after_upsert; [apply backend_clauses | exact Hmarked].
Qed.

Lemma marked_order_never_dispatched_again (k : string) (reqs : list WebhookRequest) :
  forall w,
    pool_available w ->
    marked_sent k (orders w) ->
    Forall (delivery_for k) reqs ->
    exists resps w',
      handleAll env configured (database := createDatabase env dbType) reqs w
        = (Done resps, w')
      /\ createDelivery_calls w' = createDelivery_calls w
      /\ dispatch_attempts w' = dispatch_attempts w
      /\ marked_sent k (orders w').
Proof.
  induction reqs as [|req rest IH]; intros w Hpool Hmarked Hall.
  - exists [], w. split; [reflexivity|]. split; [reflexivity|].
    split; [reflexivity | exact Hmarked].
  - inversion Hall as [|? ? Hreq Hrest]; subst.
    destruct (marked_order_is_not_dispatched k req w Hpool Hmarked Hreq)
      as (w1 & Hrun & Hlog & Hatt & Hm1 & Hp1).
    destruct (IH w1 Hp1 Hm1 Hrest) as (resps & w' & Hruns & Hcalls & Hatts & Hm').
    eexists. exists w'. split.
    + simpl. erewrite bind_done by exact Hrun.
      erewrite bind_done by exact Hruns. reflexivity.
    + split; [|split; [congruence | exact Hm']].
      rewrite Hcalls. unfold createDelivery_calls. now rewrite Hlog.
Qed.

(** A new delivery order whose dispatch the partner accepts: one request is
    sent and the record ends up marked. *)
Lemma new_delivery_order_is_dispatched (req : WebhookRequest) (w : World)
    (payload data : JValue) :
  configured = true ->
  pool_available w ->
  let p := orderData_of (body req) (query req) in
  keyed_alike p ->
  displayable p = true ->
  stored_under (handler_key p) (orders w) = 0 ->
  passes_type_gate p = true ->
  drive_payload env p w = inr payload ->
  http env (List.length (http_log w)) (HttpPost "/deliveries" payload) = HttpOk data ->
  exists w',
    handleWebhook env configured (database := createDatabase env dbType) req w
      = (Done (OrderProcessed (orderId_of p)), w')
    /\ http_log w' = (http_log w ++ [HttpPost "/deliveries" payload])%list
    /\ marked_sent (handler_key p) (orders w')
    /\ pool_available w'.
Proof.
  intros Hc Hpool p Hkey Hshow Hnew Hgate Hconv Hhttp.
  pose proof (backend_clauses dbType) as C.
  destruct (handle_run env calm dbType configured req w Hpool (gate_truthy p Hgate)
              (new_order_is_displayed p w Hnew Hshow))
    as (order & w1 & w2 & Hoid & Ht1 & (Q1 & Q2 & Q3) & Hphase & Hp2 & Hrun).
  fold p in Hoid, Hphase, Hrun.
  unfold keyed_alike in Hkey. rewrite Hkey in Hoid.
  unfold dispatch_phase, existing_before in Hphase.
  rewrite (stored_under_zero_select _ _ Hnew) in Hphase.
  rewrite (passes_type_gate_delivery p Hgate) in Hphase. simpl in Hphase.
  destruct (dispatch_attempts_run env calm dbType configured p (orderId_of p) w1
              Hc Hgate) as (w' & Hd & _ & _ & Hmatch).
  { unfold pool_available in *. now rewrite Q1. }
  rewrite Hd in Hphase. injection Hphase as <-.
  rewrite (drive_payload_attempts env p w w1 Q3), Hconv, Q2, Hhttp in Hmatch.
  destruct Hmatch as (Hlog & f & Htab & Hf).
  exists w'. split; [exact Hrun|]. split; [exact Hlog|]. split; [|exact Hp2].
  rewrite Htab. apply marked_sent_after_mark; [exact Hf|].
  change (to_string (orderId_of p)) with (handler_key p).
  rewrite Ht1, <- Hoid.
  rewrite <- (row_id _ _ C order) at 1.
  rewrite (select_after_upsert _ (merge_id _ _ C)).
  rewrite (row_id _ _ C), Hoid.
  rewrite (stored_under_zero _ _ Hnew). discriminate.
Qed.

End SingleDispatch.




(* ================================================================== *)
(** * Retry after a failed dispatch *)
(* ================================================================== *)

Lemma unsent_after_upsert (merge : Order -> Order -> Order) (row : Order -> Order)
    (k : string) (order : Order) (t : list Order) :
  upsert_clauses merge row ->
  Forall unsent (select_by_id k t) ->
  Forall unsent (select_by_id k (insert_or_update merge (row order) t)).
Proof.
  intros C Hall.
  destruct (String.eqb (gloriafood_order_id (row order)) k) eqn:Hk.
  - apply String.eqb_eq in Hk. subst k.
    rewrite (select_after_upsert merge (merge_id _ _ C)).
    destruct (existsb (has_id (gloriafood_order_id (row order))) t).
    + apply Forall_map. eapply Forall_impl; [|exact Hall].
      intros r Hr. unfold unsent in *.
      pose proof (merge_dispatch _ _ C r (row order)) as Hd.
      unfold dispatch_state in Hd. injection Hd as Hs _ _. now rewrite Hs.
    + constructor; [apply (row_unsent _ _ C) | constructor].
  - apply String.eqb_neq in Hk.
    now rewrite (select_after_upsert_other merge (merge_id _ _ C)) by exact Hk.
Qed.




Lemma status_lookup_witness :
  let found := JObj [("delivery_id", JStr "D-9"); ("status", JStr "created")] in
  let env := Samples.calm_env
               (Samples.scripted [HttpStatus 404 JNull; HttpOk found]) in
  exists w',
    DoorDashClient.getOrderStatus env "D-9" Samples.empty_world
    = (Done (DoorDashClient.status_response "D-9" found), w').
Proof.
  cbv zeta.
  destruct (getOrderStatus_tries_every_route
              (Samples.calm_env
                 (Samples.scripted [HttpStatus 404 JNull;
                            HttpOk (JObj [("delivery_id", JStr "D-9");
                                          ("status", JStr "created")])]))
              "D-9" Samples.empty_world)
    as (w' & Hrun & _); [reflexivity|].
  exists w'. exact Hrun.
Defined.

(* ================================================================== *)
(** * Further properties of the pipeline *)
(* ================================================================== *)

Lemma mysql_name_flat_fields_witness :
  OrderDatabaseMySQL.extractCustomerName (Samples.order_555 "delivery" "pending")
  = "Ana Cruz".
Proof.
  apply (mysql_name_prefers_flat_fields (Samples.order_555 "delivery" "pending") "Ana Cruz").
  reflexivity.
Defined.

(** A payload object with none of the name fields resolves to [Unknown] in
    both backends. *)
Theorem name_defaults_to_Unknown (fields : list (string * JValue)) :
  (forall k, In k name_fields -> lookup k fields = JUndefined) ->
  OrderDatabaseMySQL.extractCustomerName (JObj fields) = "Unknown"
  /\ OrderDatabase.extractCustomerName (JObj fields) = JStr "Unknown".
Proof.
  intros H.
  unfold OrderDatabaseMySQL.extractCustomerName, OrderDatabase.extractCustomerName.
  cbn [get].
  rewrite !H by (simpl; tauto).
  split; reflexivity.
Qed.

Lemma name_defaults_witness :
  OrderDatabaseMySQL.extractCustomerName (JObj [("id", JStr "9"); ("type", JStr "pickup")])
  = "Unknown".
Proof.
  apply (name_defaults_to_Unknown [("id", JStr "9"); ("type", JStr "pickup")]).
  intros k Hk. simpl in Hk.
  repeat (destruct Hk as [<-|Hk]; [reflexivity|]). contradiction.
Defined.

(** X2.  On the pooled backend, an upsert over a stored record rewrites [items]
    (and [status], [total_price], [raw_data]) from the new payload. *)
Theorem mysql_upsert_rewrites_items (env : Env) (P : JValue) (old : Order) (w : World) :
  no_db_faults env ->
  pool_available w ->
  nullish P = false ->
  select_by_id (external_order_id P) (orders w) = [old] ->
  exists r w',
    OrderDatabaseMySQL.insertOrUpdateOrder env P w = (Done (Some r), w')
    /\ select_by_id (external_order_id P) (orders w') = [r]
    /\ items r = normalized_items P
    /\ total_price r = normalized_total_price P
    /\ raw_data r = json_text P
    /\ created_at r = created_at old.
Proof.
  intros calm Hpool Hp Hsel.
  destruct (mysql_upsert_run env calm P w Hp Hpool) as (order & w' & Hb & Hrun & Ht & _).
  pose proof Hb as Hb'. unfold order_built, OrderDatabaseMySQL.build in Hb'.
  apply order_built_fields in Hb as (Hid & Hprice & Hitems & _).
  rewrite <- Hid in Hsel.
  pose proof (later_upsert_table _ _ mysql_clauses order old (orders w) Hsel) as Hsel2.
  rewrite Hsel2 in Hrun. simpl in Hrun.
  eexists. exists w'. split; [exact Hrun|].
  rewrite <- Hid, Ht. split; [exact Hsel2|].
  split; [exact Hitems|]. split; [exact Hprice|]. split; [|reflexivity].
  simpl.
  unfold build_order in Hb'. rewrite Hp in Hb'.
  destruct (truthy (get P "created_at" <||> get P "order_date")) eqn:Hg;
    cbv beta iota zeta delta [bind ret now] in Hb'; rewrite ?Hg in Hb';
    injection Hb' as <-; reflexivity.
Qed.

Lemma mysql_upsert_rewrites_items_witness :
  exists r w',
    OrderDatabaseMySQL.insertOrUpdateOrder (Samples.calm_env Samples.partner_accepts)
      Samples.order_7_update (set_orders [Samples.stored_order_7] Samples.empty_world)
    = (Done (Some r), w')
    /\ items r = normalized_items Samples.order_7_update.
Proof.
  destruct (mysql_upsert_rewrites_items (Samples.calm_env Samples.partner_accepts)
              Samples.order_7_update Samples.stored_order_7
              (set_orders [Samples.stored_order_7] Samples.empty_world))
    as (r & w' & Hrun & _ & Hitems & _);
    [ intros i; reflexivity
    | apply Nat.ltb_lt; reflexivity
    | reflexivity
    | reflexivity
    | exists r, w'; split; [exact Hrun | exact Hitems] ].
Defined.

Lemma mysql_get_leak_witness :
  exists w',
    OrderDatabaseMySQL.getOrderByGloriaFoodId (Samples.fault_at 1) "555" Samples.empty_world
      = (Done None, w')
    /\ pool_in_use w' = 1.
Proof.
  apply (mysql_get_leaks_on_query_error (Samples.fault_at 1) "555" Samples.empty_world);
    [apply Nat.ltb_lt; reflexivity | reflexivity | reflexivity].
Defined.

(** [extractOrderData] accepts the order directly, or unwrapped from
    [{order}], [{data: {order}}], a bare array or [{orders: [...]}], and
    gives [null] for a body with none of these. *)
Theorem extractOrderData_shapes (order : JValue) :
  truthy order = true ->
  extractOrderData (JObj [("order", order)]) = order
  /\ extractOrderData (JObj [("data", JObj [("order", order)])]) = order
  /\ extractOrderData (JArr [order]) = order
  /\ extractOrderData (JObj [("orders", JArr [order])]) = order
  /\ (truthy (get order "id" <||> get order "order_id") = true ->
      truthy (get order "order") = false ->
      truthy (get order "data") = false ->
      extractOrderData order = order)
  /\ extractOrderData (JObj [("status", JStr "accepted")]) = JNull.
Proof.
  intros Ht. unfold extractOrderData. cbn. rewrite Ht. cbn.
  repeat split.
  intros Hid Ho Hd. rewrite Hid, Ho, Hd. reflexivity.
Qed.

Lemma extractOrderData_witness :
  extractOrderData (JObj [("order", Samples.order_555 "delivery" "pending")])
  = Samples.order_555 "delivery" "pending".
Proof.
  destruct (extractOrderData_shapes (Samples.order_555 "delivery" "pending") eq_refl)
    as [H _].
  exact H.
Defined.

(* ================================================================== *)
(** * What any run of webhook deliveries keeps *)
(* ================================================================== *)

Lemma row_evolves_refl (r : Order) : row_evolves r r.
Proof. unfold row_evolves. tauto. Qed.

Lemma row_evolves_trans (r1 r2 r3 : Order) :
  row_evolves r1 r2 -> row_evolves r2 r3 -> row_evolves r1 r3.
Proof.
  unfold row_evolves. intros (A1 & A2 & A3 & A4 & A5) (B1 & B2 & B3 & B4 & B5).
  repeat split; try congruence. auto.
Qed.

Lemma Forall2_row_refl (t : list Order) : Forall2 row_evolves t t.
Proof. induction t; constructor; [apply row_evolves_refl | assumption]. Qed.

Lemma Forall2_row_trans (t1 t2 t3 : list Order) :
  Forall2 row_evolves t1 t2 -> Forall2 row_evolves t2 t3 -> Forall2 row_evolves t1 t3.
Proof.
  intros H. revert t3. induction H; intros t3 H3; inversion H3; subst; constructor.
  - eapply row_evolves_trans; eassumption.
  - now apply IHForall2.
Qed.

Lemma table_evolves_refl (t : list Order) : table_evolves t t.
Proof. exists t, []. split; [now rewrite app_nil_r | apply Forall2_row_refl]. Qed.

Lemma table_evolves_trans (t1 t2 t3 : list Order) :
  table_evolves t1 t2 -> table_evolves t2 t3 -> table_evolves t1 t3.
Proof.
  intros (k1 & a1 & -> & H1) (k2 & a2 & -> & H2).
  apply Forall2_app_inv_l in H2 as (k21 & k22 & H21 & H22 & ->).
  exists k21, (k22 ++ a2)%list. split; [now rewrite app_assoc|].
  eapply Forall2_row_trans; eassumption.
Qed.

Lemma table_evolves_map (g : Order -> Order) (t : list Order) :
  (forall r, row_evolves r (g r)) -> table_evolves t (map g t).
Proof.
  intros Hg. exists (map g t), []. split; [now rewrite app_nil_r|].
  induction t; constructor; [apply Hg | assumption].
Qed.

Lemma table_evolves_upsert (merge : Order -> Order -> Order) (new : Order) (t : list Order) :
  (forall old, row_evolves old (merge old new)) ->
  table_evolves t (insert_or_update merge new t).
Proof.
  intros Hm. unfold insert_or_update.
  destruct (existsb (has_id (gloriafood_order_id new)) t).
  - apply table_evolves_map. intros r.
    destruct (has_id _ r); [apply Hm | apply row_evolves_refl].
  - exists t, [new]. split; [reflexivity | apply Forall2_row_refl].
Qed.

Lemma table_evolves_update (k : string) (f : Order -> Order) (t : list Order) :
  (forall r, row_evolves r (f r)) ->
  table_evolves t (update_where_id k f t).
Proof.
  intros Hf. unfold update_where_id. apply table_evolves_map. intros r.
  destruct (has_id k r); [apply Hf | apply row_evolves_refl].
Qed.

Lemma update_where_id_unique (k : string) (f : Order -> Order) (t : list Order) :
  (forall r, gloriafood_order_id (f r) = gloriafood_order_id r) ->
  unique_ids t -> unique_ids (update_where_id k f t).
Proof.
  intros Hf. unfold unique_ids, update_where_id.
  rewrite map_map.
  replace (map (fun x => gloriafood_order_id (if has_id k x then f x else x)) t)
    with (map gloriafood_order_id t); [tauto|].
  apply map_ext. intros r. destruct (has_id k r); [now rewrite Hf | reflexivity].
Qed.

Lemma within_same (w w' : World) :
  orders w' = orders w -> http_log w' = http_log w ->
  dispatch_attempts w' = dispatch_attempts w ->
  within 0 0 w w'.
Proof.
  intros Ho Hl Ha. unfold within. rewrite Ho, Hl, Ha.
  split; [apply table_evolves_refl|]. split; [tauto|]. split; [lia|].
  exists []. rewrite app_nil_r. repeat split. simpl. lia.
Qed.

Lemma within_refl (w : World) : within 0 0 w w.
Proof. now apply within_same. Qed.

Lemma within_trans (a1 p1 a2 p2 : nat) (w1 w2 w3 : World) :
  within a1 p1 w1 w2 -> within a2 p2 w2 w3 -> within (a1 + a2) (p1 + p2) w1 w3.
Proof.
  intros (T1 & U1 & A1 & s1 & L1 & N1 & F1) (T2 & U2 & A2 & s2 & L2 & N2 & F2).
  split; [eapply table_evolves_trans; eassumption|].
  split; [tauto|]. split; [lia|].
  exists (s1 ++ s2)%list. rewrite L2, L1, app_assoc.
  split; [reflexivity|]. split; [rewrite length_app; lia|].
  rewrite forallb_app, F1, F2. reflexivity.
Qed.

Lemma within_weaken (a p a' p' : nat) (w w' : World) :
  a <= a' -> p <= p' -> within a p w w' -> within a' p' w w'.
Proof.
  intros Ha Hp (T & U & A & s & L & N & F).
  split; [exact T|]. split; [exact U|]. split; [lia|].
  exists s. repeat split; try assumption; lia.
Qed.

Lemma keeps_weaken {A} (a p a' p' : nat) (m : M A) :
  a <= a' -> p <= p' -> keeps a p m -> keeps a' p' m.
Proof. intros Ha Hp H w. eapply within_weaken; [exact Ha | exact Hp | apply H]. Qed.

Lemma keeps_ret {A} (x : A) : keeps 0 0 (ret x).
Proof. intros w. apply within_refl. Qed.

Lemma keeps_throw {A} (e : JSError) : keeps 0 0 (@throw A e).
Proof. intros w. apply within_refl. Qed.

Lemma keeps_formatStatus (status : JValue) : keeps 0 0 (formatStatus status).
Proof.
  unfold formatStatus. destruct status; try apply keeps_ret.
  destruct (String.eqb _ _); [apply keeps_throw | apply keeps_ret].
Qed.

Lemma keeps_bind {A B} (a1 p1 a2 p2 : nat) (m : M A) (k : A -> M B) :
  keeps a1 p1 m -> (forall x, keeps a2 p2 (k x)) -> keeps (a1 + a2) (p1 + p2) (bind m k).
Proof.
  intros Hm Hk w. unfold bind. specialize (Hm w).
  destruct (m w) as [[x|e|] w1]; simpl in *.
  - eapply within_trans; [exact Hm | apply Hk].
  - eapply within_weaken; [| | exact Hm]; lia.
  - eapply within_weaken; [| | exact Hm]; lia.
Qed.

Lemma keeps_try {A} (a1 p1 a2 p2 : nat) (m : M A) (h : JSError -> M A) :
  keeps a1 p1 m -> (forall e, keeps a2 p2 (h e)) ->
  keeps (a1 + a2) (p1 + p2) (try_catch m h).
Proof.
  intros Hm Hh w. unfold try_catch. specialize (Hm w).
  destruct (m w) as [[x|e|] w1]; simpl in *.
  - eapply within_weaken; [| | exact Hm]; lia.
  - eapply within_trans; [exact Hm | apply Hh].
  - eapply within_weaken; [| | exact Hm]; lia.
Qed.

Lemma keeps_bind0 {A B} (m : M A) (k : A -> M B) :
  keeps 0 0 m -> (forall x, keeps 0 0 (k x)) -> keeps 0 0 (bind m k).
Proof. intros. now apply (keeps_bind 0 0 0 0). Qed.

Lemma keeps_try0 {A} (m : M A) (h : JSError -> M A) :
  keeps 0 0 m -> (forall e, keeps 0 0 (h e)) -> keeps 0 0 (try_catch m h).
Proof. intros. now apply (keeps_try 0 0 0 0). Qed.

Lemma keeps_when (a p : nat) (b : bool) (m : M unit) :
  keeps a p m -> keeps a p (when b m).
Proof.
  intros H. destruct b; simpl; [exact H|].
  eapply keeps_weaken; [| | apply keeps_ret]; lia.
Qed.

Section Steps.

Variable env : Env.

Lemma keeps_now : keeps 0 0 (now env).
Proof. intros w. now apply within_same. Qed.

Lemma keeps_driver_call : keeps 0 0 (driver_call env).
Proof.
  intros w. unfold driver_call. destruct (db_fault env (db_calls w)); now apply within_same.
Qed.

Lemma keeps_sql_read {A} (f : list Order -> A) : keeps 0 0 (sql_read env f).
Proof.
  unfold sql_read. apply keeps_bind0; [apply keeps_driver_call|].
  intros _ w. apply within_refl.
Qed.

Lemma keeps_set_orders (f : list Order -> list Order) :
  (forall t, table_evolves t (f t)) ->
  (forall t, unique_ids t -> unique_ids (f t)) ->
  keeps 0 0 (fun w => (Done tt, set_orders (f (orders w)) w)).
Proof.
  intros Ht Hu w. unfold within, set_orders. cbn.
  split; [apply Ht|]. split; [apply Hu|]. split; [lia|].
  exists []. rewrite app_nil_r. repeat split. simpl. lia.
Qed.

Lemma keeps_sql_write (f : list Order -> list Order) :
  (forall t, table_evolves t (f t)) ->
  (forall t, unique_ids t -> unique_ids (f t)) ->
  keeps 0 0 (sql_write env f).
Proof.
  intros Ht Hu. unfold sql_write. apply keeps_bind0; [apply keeps_driver_call|].
  intros _. now apply keeps_set_orders.
Qed.

Lemma keeps_getConnection : keeps 0 0 (OrderDatabaseMySQL.getConnection env).
Proof.
  intros w. unfold OrderDatabaseMySQL.getConnection.
  destruct (Nat.leb _ _); [apply within_refl|].
  unfold bind, driver_call.
  destruct (db_fault env (db_calls w)); now apply within_same.
Qed.

Lemma keeps_release : keeps 0 0 OrderDatabaseMySQL.release.
Proof. intros w. now apply within_same. Qed.

Lemma keeps_build_order (e1 e2 e3 e4 : JValue -> JValue) (p : JValue) :
  keeps 0 0 (build_order env e1 e2 e3 e4 p).
Proof.
  unfold build_order. destruct (nullish p); [apply keeps_throw|].
  apply keeps_bind0.
  - destruct (truthy _); [apply keeps_ret | apply keeps_now].
  - intros c. apply keeps_bind0; [apply keeps_now|]. intros u.
    apply keeps_bind0; [apply keeps_now|]. intros f. apply keeps_ret.
Qed.

End Steps.

(** The two conflict clauses and the two marking statements evolve a row. *)
Lemma on_conflict_evolves (old new : Order) :
  row_evolves old (OrderDatabase.on_conflict old new).
Proof. unfold row_evolves. simpl. tauto. Qed.

Lemma on_duplicate_key_evolves (old new : Order) :
  row_evolves old (OrderDatabaseMySQL.on_duplicate_key old new).
Proof. unfold row_evolves. simpl. tauto. Qed.

Lemma sqlite_mark_evolves (ddId tracking stamp : JValue) (r : Order) :
  row_evolves r (OrderDatabase.mark_sent ddId tracking stamp r).
Proof. unfold row_evolves. simpl. repeat split. discriminate. Qed.

Lemma mysql_mark_evolves (ddId stamp : JValue) (r : Order) :
  row_evolves r (OrderDatabaseMySQL.mark_sent ddId stamp r).
Proof. unfold row_evolves. simpl. repeat split. discriminate. Qed.

Ltac keeps_store :=
  repeat first
    [ apply keeps_try0 | apply keeps_bind0 | apply keeps_ret | apply keeps_throw
    | apply keeps_now | apply keeps_driver_call | apply keeps_sql_read
    | apply keeps_getConnection | apply keeps_release | apply keeps_build_order
    | intro ].

Section StoreKeeps.

Variable env : Env.

Lemma sqlite_get_keeps (k : string) :
  keeps 0 0 (OrderDatabase.getOrderByGloriaFoodId env k).
Proof. unfold OrderDatabase.getOrderByGloriaFoodId, OrderDatabase.prepare. keeps_store. Qed.

Lemma mysql_get_keeps (k : string) :
  keeps 0 0 (OrderDatabaseMySQL.getOrderByGloriaFoodId env k).
Proof. unfold OrderDatabaseMySQL.getOrderByGloriaFoodId. keeps_store. Qed.

Lemma sqlite_upsert_keeps (p : JValue) :
  keeps 0 0 (OrderDatabase.insertOrUpdateOrder env p).
Proof.
  unfold OrderDatabase.insertOrUpdateOrder, OrderDatabase.build, OrderDatabase.prepare.
  apply keeps_try0; [|intro; apply keeps_ret].
  apply keeps_bind0; [apply keeps_build_order|]. intros order.
  apply keeps_bind0; [apply keeps_driver_call|]. intros _.
  apply keeps_bind0; [|intros _; apply sqlite_get_keeps].
  apply keeps_sql_write.
  - intros t. apply table_evolves_upsert. intros old. apply on_conflict_evolves.
  - intros t. apply insert_or_update_unique. reflexivity.
Qed.

Lemma mysql_upsert_keeps (p : JValue) :
  keeps 0 0 (OrderDatabaseMySQL.insertOrUpdateOrder env p).
Proof.
  unfold OrderDatabaseMySQL.insertOrUpdateOrder, OrderDatabaseMySQL.build.
  apply keeps_try0; [|intro; apply keeps_ret].
  apply keeps_bind0; [apply keeps_build_order|]. intros order.
  apply keeps_bind0; [apply keeps_getConnection|]. intros _.
  apply keeps_bind0.
  - apply keeps_sql_write.
    + intros t. apply table_evolves_upsert. intros old. apply on_duplicate_key_evolves.
    + intros t. apply insert_or_update_unique. reflexivity.
  - intros _. apply keeps_bind0; [apply keeps_release|]. intros _. apply mysql_get_keeps.
Qed.

Lemma sqlite_mark_keeps (k : string) (ddId tracking : JValue) :
  keeps 0 0 (OrderDatabase.markOrderSentToDoorDash env k ddId tracking).
Proof.
  unfold OrderDatabase.markOrderSentToDoorDash, OrderDatabase.prepare.
  apply keeps_try0; [|intro; apply keeps_ret].
  apply keeps_bind0; [apply keeps_driver_call|]. intros _.
  apply keeps_bind0; [apply keeps_now|]. intros stamp.
  apply keeps_sql_write.
  - intros t. apply table_evolves_update. intros r. apply sqlite_mark_evolves.
  - intros t. apply update_where_id_unique. reflexivity.
Qed.

Lemma mysql_mark_keeps (k : string) (ddId : JValue) :
  keeps 0 0 (OrderDatabaseMySQL.markOrderSentToDoorDash env k ddId).
Proof.
  unfold OrderDatabaseMySQL.markOrderSentToDoorDash.
  apply keeps_try0; [|intro; apply keeps_ret].
  apply keeps_bind0; [apply keeps_getConnection|]. intros _.
  apply keeps_bind0; [apply keeps_driver_call|]. intros _.
  apply keeps_bind0; [apply keeps_now|]. intros stamp.
  apply keeps_bind0; [|intros _; apply keeps_release].
  apply (keeps_set_orders
           (update_where_id k (OrderDatabaseMySQL.mark_sent ddId stamp))).
  - intros t. apply table_evolves_update. intros r. apply mysql_mark_evolves.
  - intros t. apply update_where_id_unique. reflexivity.
Qed.

Lemma sqlite_recent_keeps (minutes : nat) :
  keeps 0 0 (OrderDatabase.getRecentOrders env minutes).
Proof.
  unfold OrderDatabase.getRecentOrders, OrderDatabase.prepare.
  apply keeps_bind0; [apply keeps_driver_call|]. intros _ w. apply keeps_sql_read.
Qed.

Lemma mysql_recent_keeps (minutes : nat) :
  keeps 0 0 (OrderDatabaseMySQL.getRecentOrders env minutes).
Proof.
  unfold OrderDatabaseMySQL.getRecentOrders.
  apply keeps_try0; [|intro; apply keeps_ret].
  apply keeps_bind0; [apply keeps_getConnection|]. intros _.
  apply keeps_bind0; [intros w; apply keeps_sql_read|]. intros rows.
  keeps_store.
Qed.

Lemma sqlite_count_keeps : keeps 0 0 (OrderDatabase.getOrderCount env).
Proof. unfold OrderDatabase.getOrderCount, OrderDatabase.prepare. keeps_store. Qed.

Lemma mysql_count_keeps : keeps 0 0 (OrderDatabaseMySQL.getOrderCount env).
Proof. unfold OrderDatabaseMySQL.getOrderCount. keeps_store. Qed.

Variable dbType : DbType.

Lemma db_get_keeps (k : string) :
  keeps 0 0 (getOrderByGloriaFoodId (IDatabase := createDatabase env dbType) k).
Proof. destruct dbType; [apply sqlite_get_keeps | apply mysql_get_keeps]. Qed.

Lemma db_upsert_keeps (p : JValue) :
  keeps 0 0 (insertOrUpdateOrder (IDatabase := createDatabase env dbType) p).
Proof. destruct dbType; [apply sqlite_upsert_keeps | apply mysql_upsert_keeps]. Qed.

Lemma db_mark_keeps (k : string) (ddId : JValue) :
  keeps 0 0 (markOrderSentToDoorDash (IDatabase := createDatabase env dbType) k ddId).
Proof. destruct dbType; [apply sqlite_mark_keeps | apply mysql_mark_keeps]. Qed.

Lemma db_recent_keeps (minutes : nat) :
  keeps 0 0 (getRecentOrders (IDatabase := createDatabase env dbType) minutes).
Proof. destruct dbType; [apply sqlite_recent_keeps | apply mysql_recent_keeps]. Qed.

Lemma db_count_keeps :
  keeps 0 0 (getOrderCount (IDatabase := createDatabase env dbType)).
Proof. destruct dbType; [apply sqlite_count_keeps | apply mysql_count_keeps]. Qed.

Variable configured : bool.

Lemma keeps_post_delivery (payload : JValue) :
  keeps 0 1 (axios env (HttpPost "/deliveries" payload)).
Proof.
  intros w. rewrite axios_run. unfold within, set_http_log. cbn.
  split; [apply table_evolves_refl|]. split; [tauto|]. split; [lia|].
  exists [HttpPost "/deliveries" payload].
  split; [reflexivity|]. split; [simpl; lia | reflexivity].
Qed.

Lemma createDriveDelivery_keeps (payload : JValue) :
  keeps 0 1 (DoorDashClient.createDriveDelivery env payload).
Proof.
  unfold DoorDashClient.createDriveDelivery.
  apply (keeps_try 0 1 0 0).
  - apply (keeps_bind 0 1 0 0); [apply keeps_post_delivery|]. intros d. apply keeps_ret.
  - intros e. destruct e as [| |[[c d]|] m| | | |]; apply keeps_throw.
Qed.

Lemma sendOrderToDoorDash_keeps (p : JValue) :
  keeps 1 1 (sendOrderToDoorDash env configured p).
Proof.
  unfold sendOrderToDoorDash.
  destruct configured; simpl negb; cbv iota;
    [|eapply keeps_weaken; [| |apply keeps_ret]; lia].
  destruct (gate_type p);
    try (eapply keeps_weaken; [| |apply keeps_throw]; lia).
  destruct (negb _); [eapply keeps_weaken; [| |apply keeps_ret]; lia|].
  apply (keeps_try 1 1 0 0); [|intro; apply keeps_ret].
  apply (keeps_bind 1 0 0 1).
  - intros w. unfold within, note_attempt, set_dispatch_attempts. cbn.
    split; [apply table_evolves_refl|]. split; [tauto|].
    split; [lia|]. exists []. rewrite app_nil_r. repeat split. simpl. lia.
  - intros _. apply (keeps_bind 0 0 0 1).
    + intros w. unfold lift_sum.
      destruct (DoorDashClient.convertGloriaFoodToDrive _ p); apply within_refl.
    + intros payload. apply (keeps_bind 0 1 0 0); [apply createDriveDelivery_keeps|].
      intros r. apply keeps_ret.
Qed.

Lemma dispatch_keeps (p oid : JValue) :
  keeps 1 1 (dispatch env configured (database := createDatabase env dbType) p oid).
Proof.
  unfold dispatch.
  apply (keeps_try 1 1 0 0); [|intro; apply keeps_ret].
  apply (keeps_bind 1 1 0 0); [apply sendOrderToDoorDash_keeps|].
  intros [r|]; [|apply keeps_ret].
  apply keeps_try0; [apply db_mark_keeps | intro; apply keeps_ret].
Qed.

Lemma handleWebhook_keeps (req : WebhookRequest) :
  keeps 1 1 (handleWebhook env configured (database := createDatabase env dbType) req).
Proof.
  unfold handleWebhook.
  apply (keeps_try 1 1 0 0); [|intro; apply keeps_ret].
  destruct (negb _); [eapply keeps_weaken; [| |apply keeps_ret]; lia|].
  apply (keeps_bind 0 0 1 1); [apply db_get_keeps|]. intros existing.
  apply (keeps_bind 0 0 1 1); [apply db_upsert_keeps|]. intros [saved|];
    [|eapply keeps_weaken; [| |apply keeps_ret]; lia].
  apply (keeps_bind 1 1 0 0); [|intros _; apply keeps_ret].
  destruct existing as [old|].
  - apply keeps_when. apply dispatch_keeps.
  - apply (keeps_bind 0 0 1 1).
    + unfold displayOrder. apply keeps_bind0; [apply keeps_formatStatus|]. intros _.
      apply keeps_bind0; [apply db_count_keeps|]. intros n.
      apply keeps_bind0; [apply db_recent_keeps|]. intros rows. apply keeps_ret.
    + intros _. apply keeps_when. apply dispatch_keeps.
Qed.

Lemma handleAll_keeps (reqs : list WebhookRequest) :
  keeps (List.length reqs) (List.length reqs)
    (handleAll env configured (database := createDatabase env dbType) reqs).
Proof.
  induction reqs as [|req rest IH]; simpl; [apply keeps_ret|].
  apply (keeps_bind 1 1 (List.length rest) (List.length rest));
    [apply handleWebhook_keeps|]. intros r.
  replace (List.length rest) with (List.length rest + 0) by lia.
  apply keeps_bind; [exact IH|]. intros rs. apply keeps_ret.
Qed.

End StoreKeeps.

(** X3.  Whatever the environment does (driver calls that raise, an exhausted pool,
    any answer of the partner), a sequence of webhook deliveries keeps the
    UNIQUE constraint of the table. *)
Theorem webhooks_keep_ids_unique
    (env : Env) (dbType : DbType) (configured : bool)
    (reqs : list WebhookRequest) (w : World) :
  unique_ids (orders w) ->
  unique_ids (orders (snd (handleAll env configured
                             (database := createDatabase env dbType) reqs w))).
Proof.
  intros Hu. destruct (handleAll_keeps env dbType configured reqs w) as (_ & H & _).
  now apply H.
Qed.

(** X4.  Whatever the environment does, a sequence of webhook deliveries never
    deletes or moves a stored order: every row the table had is still at
    its place, with its id, store, currency and creation date, and still
    marked as sent if it was; new rows come after them. *)
Theorem webhooks_never_drop_a_stored_order
    (env : Env) (dbType : DbType) (configured : bool)
    (reqs : list WebhookRequest) (w : World) :
  table_evolves (orders w)
    (orders (snd (handleAll env configured
                    (database := createDatabase env dbType) reqs w))).
Proof. apply (handleAll_keeps env dbType configured reqs w). Qed.

(** X5.  Whatever the environment does, [n] webhook deliveries make at most [n]
    dispatch attempts and send the partner at most [n] requests, each of
    them a POST that creates a delivery. *)
Theorem at_most_one_delivery_request_per_webhook
    (env : Env) (dbType : DbType) (configured : bool)
    (reqs : list WebhookRequest) (w : World) :
  let w' := snd (handleAll env configured
                   (database := createDatabase env dbType) reqs w) in
  dispatch_attempts w' <= dispatch_attempts w + List.length reqs
  /\ exists sent,
       http_log w' = (http_log w ++ sent)%list
       /\ List.length sent <= List.length reqs
       /\ forallb is_createDelivery sent = true.
Proof.
  cbv zeta.
  destruct (handleAll_keeps env dbType configured reqs w) as (_ & _ & Ha & Hs).
  split; [lia | exact Hs].
Qed.


(* ================================================================== *)
(** * The pool once connections have leaked *)
(* ================================================================== *)

Lemma pool_exhausted_leb (w : World) :
  pool_exhausted w -> Nat.leb OrderDatabaseMySQL.connectionLimit (pool_in_use w) = true.
Proof. unfold pool_exhausted. intros H. now apply Nat.leb_le. Qed.

Lemma blocked_getConnection (env : Env) (w : World) :
  pool_exhausted w -> OrderDatabaseMySQL.getConnection env w = (Blocked, w).
Proof.
  intros H. unfold OrderDatabaseMySQL.getConnection.
  now rewrite (pool_exhausted_leb w H).
Qed.

Lemma blocked_lookup (env : Env) (k : string) (w : World) :
  pool_exhausted w ->
  OrderDatabaseMySQL.getOrderByGloriaFoodId env k w = (Blocked, w).
Proof.
  intros H. unfold OrderDatabaseMySQL.getOrderByGloriaFoodId, try_catch, bind.
  now rewrite (blocked_getConnection env w H).
Qed.

(** X6.  Once every pooled connection is out, no operation of the pooled backend
    ever settles, and a webhook that carries order data is never answered;
    nothing is stored and nothing is sent. *)
Theorem exhausted_pool_blocks_the_webhook
    (env : Env) (configured : bool) (req : WebhookRequest) (k : string)
    (ddId : JValue) (minutes : nat) (w : World) :
  pool_exhausted w ->
  truthy (orderData_of (body req) (query req)) = true ->
  handleWebhook env configured (database := mysql env) req w = (Blocked, w)
  /\ OrderDatabaseMySQL.getOrderByGloriaFoodId env k w = (Blocked, w)
  /\ (exists w',
        OrderDatabaseMySQL.insertOrUpdateOrder env (orderData_of (body req) (query req)) w
        = (Blocked, w')
        /\ orders w' = orders w /\ pool_in_use w' = pool_in_use w)
  /\ OrderDatabaseMySQL.markOrderSentToDoorDash env k ddId w = (Blocked, w)
  /\ OrderDatabaseMySQL.getRecentOrders env minutes w = (Blocked, w)
  /\ OrderDatabaseMySQL.getOrderCount env w = (Blocked, w).
Proof.
  intros Hx Hp.
  pose proof (blocked_getConnection env w Hx) as Hc.
  pose proof (blocked_lookup env k w Hx) as Hl.
  split.
  { unfold handleWebhook. rewrite Hp. simpl negb. cbv iota.
    unfold try_catch at 1. unfold bind at 1. simpl getOrderByGloriaFoodId.
    now rewrite (blocked_lookup env _ w Hx). }
  split; [exact Hl|].
  split.
  { assert (Hnn : nullish (orderData_of (body req) (query req)) = false)
      by (destruct (orderData_of (body req) (query req)); simpl in *; congruence).
    unfold OrderDatabaseMySQL.insertOrUpdateOrder, OrderDatabaseMySQL.build, build_order.
    rewrite Hnn.
    destruct (truthy (get _ "created_at" <||> get _ "order_date")) eqn:Hg;
      cbv beta iota zeta delta [bind ret try_catch now]; rewrite ?Hg;
      unfold OrderDatabaseMySQL.getConnection;
      cbn [pool_in_use set_clock_reads];
      rewrite (pool_exhausted_leb w Hx);
      (eexists; split; [reflexivity|]; split; reflexivity). }
  split.
  { unfold OrderDatabaseMySQL.markOrderSentToDoorDash, try_catch, bind. now rewrite Hc. }
  split.
  { unfold OrderDatabaseMySQL.getRecentOrders, try_catch, bind. now rewrite Hc. }
  unfold OrderDatabaseMySQL.getOrderCount, try_catch, bind. now rewrite Hc.
Qed.

Lemma exhausted_pool_witness :
  handleWebhook (Samples.calm_env Samples.partner_accepts) true
    (database := mysql (Samples.calm_env Samples.partner_accepts))
    (Samples.webhook (Samples.order_555 "delivery" "pending"))
    (set_pool_in_use 10 Samples.empty_world)
  = (Blocked, set_pool_in_use 10 Samples.empty_world).
Proof.
  apply (exhausted_pool_blocks_the_webhook
           (Samples.calm_env Samples.partner_accepts) true
           (Samples.webhook (Samples.order_555 "delivery" "pending")) "555" JNull 60
           (set_pool_in_use 10 Samples.empty_world)).
  - apply Nat.leb_le. reflexivity.
  - reflexivity.
Defined.

(** X7.  Each lookup whose query raises keeps its connection: [n] of them in a
    row take [n] connections out of the pool for good, and leave the table
    as it was. *)
Theorem failed_lookups_leak_one_connection_each
    (env : Env) (k : string) (n : nat) :
  forall w,
    pool_in_use w + n <= OrderDatabaseMySQL.connectionLimit ->
    every_query_fails env (db_calls w) n ->
    exists w',
      lookups env k n w = (Done tt, w')
      /\ pool_in_use w' = pool_in_use w + n
      /\ db_calls w' = db_calls w + 2 * n
      /\ orders w' = orders w
      /\ http_log w' = http_log w.
Proof.
  induction n as [|n IH]; intros w Hroom Hfail.
  - exists w. simpl. repeat split; lia.
  - destruct (Hfail 0) as [H0 H1]; [lia|].
    rewrite Nat.mul_0_r, Nat.add_0_r in H0, H1. rewrite Nat.add_1_r in H1.
    assert (Hpool : Nat.leb OrderDatabaseMySQL.connectionLimit (pool_in_use w) = false)
      by (apply Nat.leb_gt; lia).
    assert (Hstep : OrderDatabaseMySQL.getOrderByGloriaFoodId env k w
                    = (Done None,
                       set_db_calls (S (S (db_calls w)))
                         (set_pool_in_use (S (pool_in_use w)) w))).
    { unfold OrderDatabaseMySQL.getOrderByGloriaFoodId.
      cbv beta iota zeta delta
        [bind ret throw try_catch sql_read driver_call
         OrderDatabaseMySQL.getConnection OrderDatabaseMySQL.release].
      rewrite Hpool, H0. cbn [db_calls set_db_calls set_pool_in_use pool_in_use].
      rewrite H1. reflexivity. }
    destruct (IH (set_db_calls (S (S (db_calls w)))
                    (set_pool_in_use (S (pool_in_use w)) w)))
      as (w' & Hrun & Hp & Hd & Ho & Hl).
    + simpl. lia.
    + intros i Hi. simpl db_calls.
      destruct (Hfail (S i)) as [A B]; [lia|].
      replace (S (S (db_calls w)) + 2 * i) with (db_calls w + 2 * S i) by lia.
      split; assumption.
    + exists w'. simpl lookups. erewrite bind_done by exact Hstep.
      split; [exact Hrun|]. simpl in Hp, Hd, Ho, Hl.
      repeat split; try assumption; lia.
Qed.

Lemma failed_lookups_witness :
  exists w',
    lookups {| clock := clock (Samples.calm_env Samples.partner_accepts);
               db_fault := Nat.odd;
               within_minutes := fun _ _ _ => true;
               http := Samples.partner_accepts;
               randomUUID := fun _ => "" |} "555" 10 Samples.empty_world = (Done tt, w')
    /\ pool_in_use w' = 10.
Proof.
  destruct (failed_lookups_leak_one_connection_each
              {| clock := clock (Samples.calm_env Samples.partner_accepts);
                 db_fault := Nat.odd;
                 within_minutes := fun _ _ _ => true;
                 http := Samples.partner_accepts;
                 randomUUID := fun _ => "" |} "555" 10 Samples.empty_world)
    as (w' & Hrun & Hp & _).
  - apply Nat.leb_le. reflexivity.
  - intros i Hi. cbn [db_fault db_calls Samples.empty_world].
    rewrite Nat.add_0_l. split.
    + rewrite Nat.odd_even. reflexivity.
    + rewrite Nat.add_1_r, Nat.odd_succ, Nat.even_even. reflexivity.
  - exists w'. split; [exact Hrun | exact Hp].
Defined.


(* ================================================================== *)
(** * Webhooks while the driver raises *)
(* ================================================================== *)

Lemma truthy_not_nullish (p : JValue) : truthy p = true -> nullish p = false.
Proof. destruct p; simpl; congruence. Qed.

(** X8.  On the SQLite backend a lookup that raises ends the webhook in the outer
    catch: the answer is the 200 with [success: false], and the order is
    neither stored nor dispatched. *)
Theorem sqlite_lookup_error_loses_the_order
    (env : Env) (configured : bool) (req : WebhookRequest) (w : World) :
  truthy (orderData_of (body req) (query req)) = true ->
  lookup_raises env w ->
  exists w',
    handleWebhook env configured (database := sqlite env) req w
      = (Done (WebhookError (error_message DriverError)), w')
    /\ statusCode (WebhookError (error_message DriverError)) = 200%Z
    /\ success (WebhookError (error_message DriverError)) = JBool false
    /\ orders w' = orders w
    /\ http_log w' = http_log w
    /\ dispatch_attempts w' = dispatch_attempts w.
Proof.
  intros Hp Hf. unfold handleWebhook. rewrite Hp. simpl negb. cbv iota.
  simpl getOrderByGloriaFoodId.
  unfold OrderDatabase.getOrderByGloriaFoodId, OrderDatabase.prepare.
  destruct Hf as [H0 | [H0 H1]].
  - cbv beta iota zeta delta [bind ret throw try_catch sql_read driver_call].
    rewrite H0. eexists. split; [reflexivity|]. repeat split.
  - cbv beta iota zeta delta [bind ret throw try_catch sql_read driver_call].
    rewrite H0. cbn [db_calls set_db_calls]. rewrite H1.
    eexists. split; [reflexivity|]. repeat split.
Qed.

Lemma sqlite_lookup_error_witness :
  exists w',
    handleWebhook (Samples.fault_at 1) true (database := sqlite (Samples.fault_at 1))
      (Samples.webhook (Samples.order_555 "delivery" "pending")) Samples.empty_world
    = (Done (WebhookError (error_message DriverError)), w')
    /\ orders w' = [].
Proof.
  destruct (sqlite_lookup_error_loses_the_order (Samples.fault_at 1) true
              (Samples.webhook (Samples.order_555 "delivery" "pending"))
              Samples.empty_world)
    as (w' & Hrun & _ & _ & Ho & _).
  - reflexivity.
  - right. split; reflexivity.
  - exists w'. split; [exact Hrun | exact Ho].
Defined.

(** X9.  When the INSERT cannot be started (the third call into the driver
    raises, after a lookup that worked), [insertOrUpdateOrder] answers
    [null]: the webhook is answered with the 500, nothing is stored and
    nothing is dispatched, on either backend. *)
Theorem failed_insert_is_answered_500
    (env : Env) (dbType : DbType) (configured : bool)
    (req : WebhookRequest) (w : World) :
  truthy (orderData_of (body req) (query req)) = true ->
  pool_available w ->
  db_fault env (db_calls w) = false ->
  db_fault env (S (db_calls w)) = false ->
  db_fault env (S (S (db_calls w))) = true ->
  exists w',
    handleWebhook env configured (database := createDatabase env dbType) req w
      = (Done StoreFailed, w')
    /\ statusCode StoreFailed = 500%Z
    /\ orders w' = orders w
    /\ pool_in_use w' = pool_in_use w
    /\ http_log w' = http_log w
    /\ dispatch_attempts w' = dispatch_attempts w.
Proof.
  intros Hp Hpool H0 H1 H2.
  pose proof (truthy_not_nullish _ Hp) as Hnn.
  apply pool_available_leb in Hpool.
  unfold handleWebhook. rewrite Hp. simpl negb. cbv iota.
  destruct dbType; simpl getOrderByGloriaFoodId; simpl insertOrUpdateOrder.
  - unfold OrderDatabase.getOrderByGloriaFoodId, OrderDatabase.insertOrUpdateOrder,
      OrderDatabase.build, OrderDatabase.prepare, build_order.
    rewrite Hnn.
    destruct (truthy (get _ "created_at" <||> get _ "order_date")) eqn:Hg;
      cbv beta iota zeta delta [bind ret throw try_catch sql_read sql_write driver_call now];
      rewrite H0; cbn [db_calls set_db_calls]; rewrite H1;
      cbn [db_calls set_db_calls set_clock_reads]; rewrite ?Hg;
      cbn [db_calls set_db_calls set_clock_reads]; rewrite H2;
      (eexists; split; [reflexivity|]; repeat split).
  - unfold OrderDatabaseMySQL.getOrderByGloriaFoodId, OrderDatabaseMySQL.insertOrUpdateOrder,
      OrderDatabaseMySQL.build, build_order.
    rewrite Hnn.
    destruct (truthy (get _ "created_at" <||> get _ "order_date")) eqn:Hg;
      cbv beta iota zeta delta
        [bind ret throw try_catch sql_read sql_write driver_call now
         OrderDatabaseMySQL.getConnection OrderDatabaseMySQL.release];
      rewrite Hpool, H0;
      cbn [db_calls set_db_calls set_pool_in_use pool_in_use set_clock_reads Nat.pred];
      rewrite H1;
      cbn [db_calls set_db_calls set_pool_in_use pool_in_use set_clock_reads Nat.pred];
      rewrite ?Hg;
      cbn [db_calls set_db_calls set_pool_in_use pool_in_use set_clock_reads Nat.pred];
      rewrite Hpool, H2;
      (eexists; split; [reflexivity|]; repeat split).
Qed.

Lemma failed_insert_witness :
  exists w',
    handleWebhook (Samples.fault_at 2) true
      (database := createDatabase (Samples.fault_at 2) MySQL)
      (Samples.webhook (Samples.order_555 "delivery" "pending")) Samples.empty_world
    = (Done StoreFailed, w')
    /\ orders w' = [].
Proof.
  destruct (failed_insert_is_answered_500 (Samples.fault_at 2) MySQL true
              (Samples.webhook (Samples.order_555 "delivery" "pending"))
              Samples.empty_world)
    as (w' & Hrun & _ & Ho & _).
  - reflexivity.
  - apply Nat.ltb_lt. reflexivity.
  - reflexivity.
  - reflexivity.
  - reflexivity.
  - exists w'. split; [exact Hrun | exact Ho].
Defined.


Section RunsFrom.

Variable env : Env.
Variable from : nat.
Hypothesis calm : no_db_faults_from env from.

Ltac run_pool_from Hpool :=
  repeat (progress
    (cbv beta iota zeta delta
       [bind ret throw try_catch when sql_read sql_write driver_call now
        OrderDatabaseMySQL.getConnection OrderDatabaseMySQL.release];
     cbn [pool_in_use db_calls orders clock_reads http_log dispatch_attempts
          set_pool_in_use set_db_calls set_orders set_clock_reads set_http_log
          set_dispatch_attempts Nat.pred];
     rewrite ?Hpool; rewrite ?calm by lia)).

Lemma mysql_get_from (k : string) (w : World) :
  pool_available w -> from <= db_calls w ->
  exists w',
    OrderDatabaseMySQL.getOrderByGloriaFoodId env k w
      = (Done (hd_error (select_by_id k (orders w))), w')
    /\ orders w' = orders w /\ quiet w w' /\ db_calls w <= db_calls w'.
Proof.
  intros Hpool Hn. apply pool_available_leb in Hpool.
  unfold OrderDatabaseMySQL.getOrderByGloriaFoodId.
  run_pool_from Hpool. cbn.
  eexists. split; [reflexivity|]. split; [reflexivity|]. split; [now_quiet | cbn; lia].
Qed.

Lemma mysql_upsert_from (p : JValue) (w : World) :
  nullish p = false -> pool_available w -> from <= db_calls w ->
  exists order w',
    order_built (OrderDatabaseMySQL.build env p) w = Some order
    /\ OrderDatabaseMySQL.insertOrUpdateOrder env p w
        = (Done (hd_error (select_by_id (gloriafood_order_id order)
                   (insert_or_update OrderDatabaseMySQL.on_duplicate_key
                      (OrderDatabaseMySQL.inserted_row order) (orders w)))), w')
    /\ orders w'
        = insert_or_update OrderDatabaseMySQL.on_duplicate_key
            (OrderDatabaseMySQL.inserted_row order) (orders w)
    /\ quiet w w' /\ db_calls w <= db_calls w'.
Proof.
  intros Hp Hpool Hn. apply pool_available_leb in Hpool.
  destruct (build_order_run env
              (fun o => JStr (OrderDatabaseMySQL.extractCustomerName o))
              (fun o => JStr (OrderDatabaseMySQL.extractCustomerPhone o))
              (fun o => JStr (OrderDatabaseMySQL.extractCustomerEmail o))
              (fun o => JStr (OrderDatabaseMySQL.extractDeliveryAddress o)) p w Hp)
    as (c & u & f & w1 & Hb & Ho & Hd & (Q1 & Q2 & Q3)).
  eexists.
  unfold OrderDatabaseMySQL.insertOrUpdateOrder, order_built, OrderDatabaseMySQL.build.
  rewrite Hb.
  unfold try_catch at 1. erewrite bind_done by exact Hb.
  rewrite <- Q1 in Hpool. rewrite <- Hd in Hn.
  unfold OrderDatabaseMySQL.getOrderByGloriaFoodId.
  run_pool_from Hpool. cbn. rewrite Ho.
  eexists. split; [reflexivity|]. split; [reflexivity|].
  split; [reflexivity|]. split; [now_quiet; assumption | cbn; lia].
Qed.

Lemma mysql_mark_from (k : string) (ddId : JValue) (w : World) :
  pool_available w -> from <= db_calls w ->
  exists stamp w',
    OrderDatabaseMySQL.markOrderSentToDoorDash env k ddId w = (Done tt, w')
    /\ orders w' = update_where_id k (OrderDatabaseMySQL.mark_sent ddId stamp) (orders w)
    /\ quiet w w' /\ db_calls w <= db_calls w'.
Proof.
  intros Hpool Hn. apply pool_available_leb in Hpool.
  unfold OrderDatabaseMySQL.markOrderSentToDoorDash.
  run_pool_from Hpool. cbn.
  do 2 eexists. split; [reflexivity|]. split; [reflexivity|].
  split; [now_quiet | cbn; lia].
Qed.

Lemma mysql_display_from (saved : Order) (w : World) :
  formatStatus (status saved) w = (Done tt, w) ->
  pool_available w -> from <= db_calls w ->
  exists w',
    displayOrder (database := mysql env) saved w = (Done tt, w')
    /\ orders w' = orders w /\ quiet w w' /\ db_calls w <= db_calls w'.
Proof.
  intros Hfs Hpool Hn. apply pool_available_leb in Hpool.
  unfold displayOrder. erewrite bind_done by exact Hfs.
  simpl getOrderCount. simpl getRecentOrders.
  unfold OrderDatabaseMySQL.getOrderCount, OrderDatabaseMySQL.getRecentOrders.
  run_pool_from Hpool. cbn.
  eexists. split; [reflexivity|]. split; [reflexivity|].
  split; [now_quiet | cbn; lia].
Qed.

(** A dispatch whose conversion succeeds, on the pooled backend. *)
Lemma mysql_dispatch_from (p oid payload : JValue) (w : World) :
  passes_type_gate p = true ->
  pool_available w -> from <= db_calls w ->
  drive_payload env p w = inr payload ->
  exists w',
    dispatch env true (database := mysql env) p oid w = (Done tt, w')
    /\ http_log w' = (http_log w ++ [HttpPost "/deliveries" payload])%list
    /\ dispatch_attempts w' = S (dispatch_attempts w)
    /\ pool_in_use w' = pool_in_use w
    /\ match http env (List.length (http_log w)) (HttpPost "/deliveries" payload) with
       | HttpOk data =>
           exists r stamp,
             DoorDashClient.createDriveDelivery env payload
               (set_dispatch_attempts (S (dispatch_attempts w)) w)
             = (Done r, set_http_log (http_log w ++ [HttpPost "/deliveries" payload])%list
                          (set_dispatch_attempts (S (dispatch_attempts w)) w))
             /\ orders w' = update_where_id (to_string oid)
                              (OrderDatabaseMySQL.mark_sent (DoorDashClient.id r) stamp)
                              (orders w)
       | _ => orders w' = orders w
       end.
Proof.
  intros Hgate Hpool Hn Hconv.
  unfold passes_type_gate in Hgate.
  unfold dispatch, sendOrderToDoorDash, drive_payload in *. simpl negb. cbv iota.
  destruct (gate_type p) as [| | | |orderType| |]; try discriminate.
  rewrite Hgate. simpl negb. cbv iota.
  unfold note_attempt, lift_sum.
  unfold DoorDashClient.createDriveDelivery.
  unfold try_catch, bind, throw, ret. cbn. rewrite Hconv. cbn.
  rewrite axios_run. cbn.
  destruct (http env (List.length (http_log w)) (HttpPost "/deliveries" payload))
    as [data|code data|msg] eqn:Hhttp; cbn.
  - match goal with
    | |- context [OrderDatabaseMySQL.markOrderSentToDoorDash env ?k ?i ?w0] =>
        destruct (mysql_mark_from k i w0) as (stamp & w' & Hm & Ht & (Q1 & Q2 & Q3) & Hd);
          [exact Hpool | exact Hn |]; rewrite Hm
    end.
    cbn in *. exists w'. split; [reflexivity|].
    split; [exact Q2|]. split; [exact Q3|]. split; [exact Q1|].
    do 2 eexists. split; [reflexivity | exact Ht].
  - eexists. split; [reflexivity|]. repeat split.
  - eexists. split; [reflexivity|]. repeat split.
Qed.

End RunsFrom.



(* ================================================================== *)
(** * Round trips through the store *)
(* ================================================================== *)

Lemma update_where_id_absent (k : string) (f : Order -> Order) (t : list Order) :
  existsb (has_id k) t = false -> update_where_id k f t = t.
Proof.
  unfold update_where_id. induction t as [|r t IH]; simpl; [reflexivity|].
  intros H. apply orb_false_iff in H as [Hr Ht]. rewrite Hr. now rewrite IH.
Qed.

Lemma update_where_id_length (k : string) (f : Order -> Order) (t : list Order) :
  List.length (update_where_id k f t) = List.length t.
Proof. unfold update_where_id. apply length_map. Qed.

Lemma backend_mark_fields (dbType : DbType) (ddId stamp : JValue) (r : Order) :
  gloriafood_order_id (backend_mark dbType ddId stamp r) = gloriafood_order_id r
  /\ created_at (backend_mark dbType ddId stamp r) = created_at r
  /\ sent_to_doordash (backend_mark dbType ddId stamp r) = 1%Z
  /\ doordash_order_id (backend_mark dbType ddId stamp r)
     = (if truthy ddId then ddId else doordash_order_id r)
  /\ doordash_sent_at (backend_mark dbType ddId stamp r) = stamp
  /\ payload_columns (backend_mark dbType ddId stamp r) = payload_columns r.
Proof.
  destruct dbType; simpl; repeat split;
    unfold jor; destruct (truthy ddId) eqn:Hd; try reflexivity;
    destruct ddId; simpl in Hd; try discriminate; reflexivity.
Qed.

(** X11.  Insert/lookup round trip, on either backend with a store that works:
    the record [insertOrUpdateOrder] returns is the one a lookup under the
    payload's external id finds afterwards, and it carries the payload's raw
    JSON and, where that is a string, its status, whether the order was
    new or known.  Nothing is said of the price, which the engines give
    back converted. *)
Theorem stored_order_is_read_back
    (env : Env) (dbType : DbType) (p : JValue) (w : World) :
  no_db_faults env ->
  pool_available w ->
  unique_ids (orders w) ->
  nullish p = false ->
  exists r w1 w2,
    insertOrUpdateOrder (IDatabase := createDatabase env dbType) p w = (Done (Some r), w1)
    /\ getOrderByGloriaFoodId (IDatabase := createDatabase env dbType)
         (external_order_id p) w1 = (Done (Some r), w2)
    /\ orders w2 = orders w1
    /\ gloriafood_order_id r = external_order_id p
    /\ raw_data r = json_text p
    /\ (is_string (normalized_status p) = true -> status r = normalized_status p).
Proof.
  intros calm Hpool Hu Hp.
  destruct (upsert_row_shape env calm dbType p w Hpool Hu Hp)
    as (order & r & w1 & Hb & Hrun & Hsel & Hshape & Ht & Hq).
  destruct (db_get_run env calm dbType (external_order_id p) w1 (quiet_pool _ _ Hq Hpool))
    as (w2 & Hget & Ho2 & _).
  rewrite Hsel in Hget. simpl in Hget.
  destruct (payload_order_fields _ _ _ _ _ Hb) as (Hid & Hprice & _).
  destruct (payload_order_payload _ _ _ _ _ Hb) as (Hraw & Hstatus).
  destruct (upsert_payload_columns dbType order) as (Hm & R1 & R2 & R3).
  exists r, w1, w2.
  split; [exact Hrun|]. split; [exact Hget|]. split; [exact Ho2|].
  split; [apply (select_in_id _ (orders w1)); rewrite Hsel; now left|].
  destruct Hshape as [-> | [old ->]].
  - rewrite R1, R2. split; [assumption | intros _; assumption].
  - destruct (Hm old) as (M1 & M2 & M3). rewrite M1, M2.
    split; [assumption | intros _; assumption].
Qed.

Lemma stored_order_read_back_witness :
  exists r w1 w2,
    OrderDatabase.insertOrUpdateOrder (Samples.calm_env Samples.partner_accepts)
      (Samples.order_555 "delivery" "pending") Samples.empty_world = (Done (Some r), w1)
    /\ OrderDatabase.getOrderByGloriaFoodId (Samples.calm_env Samples.partner_accepts)
         "555" w1 = (Done (Some r), w2)
    /\ status r = JStr "pending".
Proof.
  destruct (stored_order_is_read_back (Samples.calm_env Samples.partner_accepts) SQLite
              (Samples.order_555 "delivery" "pending") Samples.empty_world)
    as (r & w1 & w2 & H1 & H2 & _ & _ & _ & Hs).
  - intros i. reflexivity.
  - apply Nat.ltb_lt. reflexivity.
  - constructor.
  - reflexivity.
  - exists r, w1, w2. split; [exact H1|]. split; [exact H2 | exact (Hs eq_refl)].
Defined.

(** X12.  An upsert touches the record of its own id only: the rows stored
    under any other id are the same afterwards, and the table grows by one
    row exactly when the id was not stored yet. *)
Theorem upsert_leaves_other_orders_alone
    (env : Env) (dbType : DbType) (p : JValue) (k : string) (w : World) :
  no_db_faults env ->
  pool_available w ->
  nullish p = false ->
  k <> external_order_id p ->
  exists saved w',
    insertOrUpdateOrder (IDatabase := createDatabase env dbType) p w = (Done saved, w')
    /\ select_by_id k (orders w') = select_by_id k (orders w)
    /\ List.length (orders w')
       = List.length (orders w)
         + (if existsb (has_id (external_order_id p)) (orders w) then 0 else 1).
Proof.
  intros calm Hpool Hp Hk.
  pose proof (backend_clauses dbType) as C.
  destruct (db_upsert_run env calm dbType p w Hp Hpool)
    as (order & w' & Hb & Hrun & Ht & Hq).
  destruct (payload_order_fields _ _ _ _ _ Hb) as (Hid & _).
  eexists. exists w'. split; [exact Hrun|]. rewrite Ht. split.
  - apply (select_after_upsert_other _ (merge_id _ _ C)).
    rewrite (row_id _ _ C), Hid. congruence.
  - unfold insert_or_update. rewrite (row_id _ _ C), Hid.
    destruct (existsb (has_id (external_order_id p)) (orders w)).
    + rewrite length_map. lia.
    + rewrite length_app. simpl. lia.
Qed.

Lemma upsert_other_orders_witness :
  exists saved w',
    OrderDatabaseMySQL.insertOrUpdateOrder (Samples.calm_env Samples.partner_accepts)
      (Samples.order_555 "delivery" "pending") Samples.empty_world = (Done saved, w')
    /\ List.length (orders w') = 1.
Proof.
  destruct (upsert_leaves_other_orders_alone (Samples.calm_env Samples.partner_accepts) MySQL
              (Samples.order_555 "delivery" "pending") "7" Samples.empty_world)
    as (saved & w' & H1 & _ & Hl).
  - intros i. reflexivity.
  - apply Nat.ltb_lt. reflexivity.
  - reflexivity.
  - discriminate.
  - exists saved, w'. split; [exact H1 | exact Hl].
Defined.

Section Marking.

Variable env : Env.
Hypothesis calm : no_db_faults env.
Variable dbType : DbType.

Lemma db_mark_exact (k : string) (ddId : JValue) (w : World) :
  pool_available w ->
  exists stamp w',
    markOrderSentToDoorDash (IDatabase := createDatabase env dbType) k ddId w = (Done tt, w')
    /\ orders w' = update_where_id k (backend_mark dbType ddId stamp) (orders w)
    /\ quiet w w'.
Proof.
  intros Hpool. destruct dbType; simpl.
  - apply sqlite_mark_run; assumption.
  - apply mysql_mark_run; assumption.
Qed.

End Marking.

(** Marking an id under which nothing is stored is a silent no-op. *)
Theorem marking_an_unknown_id_changes_nothing
    (env : Env) (dbType : DbType) (k : string) (ddId : JValue) (w : World) :
  no_db_faults env ->
  pool_available w ->
  stored_under k (orders w) = 0 ->
  exists w',
    markOrderSentToDoorDash (IDatabase := createDatabase env dbType) k ddId w = (Done tt, w')
    /\ orders w' = orders w.
Proof.
  intros calm Hpool Hk.
  destruct (db_mark_exact env calm dbType k ddId w Hpool) as (stamp & w' & Hm & Ht & _).
  exists w'. split; [exact Hm|]. rewrite Ht.
  apply update_where_id_absent. now apply stored_under_zero.
Qed.

Lemma marking_unknown_id_witness :
  exists w',
    OrderDatabase.markOrderSentToDoorDash (Samples.calm_env Samples.partner_accepts)
      "unknown" (JStr "D-1") JUndefined Samples.empty_world = (Done tt, w')
    /\ orders w' = [].
Proof.
  apply (marking_an_unknown_id_changes_nothing (Samples.calm_env Samples.partner_accepts)
           SQLite "unknown" (JStr "D-1") Samples.empty_world).
  - intros i. reflexivity.
  - apply Nat.ltb_lt. reflexivity.
  - reflexivity.
Defined.

(** X13.  Marking a stored order sets [sent_to_doordash], records the delivery
    id when one is given and keeps the one already stored otherwise
    (COALESCE), and leaves the payload columns, [created_at] and every
    other order as they were. *)
Theorem marking_records_the_delivery_id
    (env : Env) (dbType : DbType) (k : string) (ddId : JValue) (r : Order) (w : World) :
  no_db_faults env ->
  pool_available w ->
  select_by_id k (orders w) = [r] ->
  exists r' w',
    markOrderSentToDoorDash (IDatabase := createDatabase env dbType) k ddId w = (Done tt, w')
    /\ select_by_id k (orders w') = [r']
    /\ sent_to_doordash r' = 1%Z
    /\ doordash_order_id r' = (if truthy ddId then ddId else doordash_order_id r)
    /\ payload_columns r' = payload_columns r
    /\ created_at r' = created_at r
    /\ List.length (orders w') = List.length (orders w)
    /\ forall k', k' <> k -> select_by_id k' (orders w') = select_by_id k' (orders w).
Proof.
  intros calm Hpool Hsel.
  destruct (db_mark_exact env calm dbType k ddId w Hpool) as (stamp & w' & Hm & Ht & _).
  destruct (backend_mark_fields dbType ddId stamp r) as (F1 & F2 & F3 & F4 & F5 & F6).
  exists (backend_mark dbType ddId stamp r), w'.
  split; [exact Hm|]. rewrite Ht.
  split.
  { rewrite select_after_update_where by (intros x; apply backend_mark_fields).
    rewrite Hsel. simpl.
    assert (Hr : has_id k r = true).
    { assert (Hin : In r (select_by_id k (orders w))) by (rewrite Hsel; now left).
      apply filter_In in Hin. tauto. }
    now rewrite Hr. }
  split; [exact F3|]. split; [exact F4|]. split; [exact F6|]. split; [exact F2|].
  split; [apply update_where_id_length|].
  intros k' Hk'.
  rewrite select_after_update_where by (intros x; apply backend_mark_fields).
  rewrite <- (map_id (select_by_id k' (orders w))) at 2. apply map_ext_in.
  intros x Hx. apply select_in_id in Hx.
  destruct (has_id k x) eqn:Hkx; [|reflexivity].
  apply has_id_true in Hkx. congruence.
Qed.


(* ================================================================== *)
(** * The dispatch, exactly *)
(* ================================================================== *)

Lemma createDriveDelivery_run (env : Env) (payload : JValue) (w : World) :
  DoorDashClient.createDriveDelivery env payload w
  = (match http env (List.length (http_log w)) (HttpPost "/deliveries" payload) with
     | HttpOk data => Done (created_response payload data)
     | HttpStatus code data => Raise (DoorDashApiError code data)
     | HttpNoResponse msg => Raise (DoorDashFailure msg)
     end,
     set_http_log (http_log w ++ [HttpPost "/deliveries" payload])%list w).
Proof.
  unfold DoorDashClient.createDriveDelivery, try_catch, bind. rewrite axios_run.
  destruct (http env _ _); reflexivity.
Qed.

Section ExactRuns.

Variable env : Env.
Hypothesis calm : no_db_faults env.
Variable dbType : DbType.
Variable configured : bool.

(** What a dispatch does, exactly, when the store works. *)
Lemma dispatch_run_exact (p oid : JValue) (w : World) :
  pool_available w ->
  exists w',
    dispatch env configured (database := createDatabase env dbType) p oid w = (Done tt, w')
    /\ pool_in_use w' = pool_in_use w
    /\ match configured && passes_type_gate p, drive_payload env p w with
       | true, inr payload =>
           http_log w' = (http_log w ++ [HttpPost "/deliveries" payload])%list
           /\ match http env (List.length (http_log w)) (HttpPost "/deliveries" payload) with
              | HttpOk data =>
                  exists stamp,
                    orders w'
                    = update_where_id (to_string oid)
                        (backend_mark dbType
                           (DoorDashClient.id (created_response payload data)) stamp)
                        (orders w)
              | _ => orders w' = orders w
              end
       | _, _ => http_log w' = http_log w /\ orders w' = orders w
       end.
Proof.
  intros Hpool.
  destruct (configured && passes_type_gate p) eqn:Hg.
  2:{ exists w. rewrite dispatch_skips by exact Hg. repeat split. }
  apply andb_true_iff in Hg as [Hc Hgate]. subst configured.
  unfold passes_type_gate in Hgate.
  unfold dispatch, sendOrderToDoorDash, drive_payload. simpl negb. cbv iota.
  destruct (gate_type p) as [| | | |orderType| |]; try discriminate.
  rewrite Hgate. simpl negb. cbv iota.
  unfold note_attempt, lift_sum.
  destruct (DoorDashClient.convertGloriaFoodToDrive
              (randomUUID env (S (dispatch_attempts w))) p) as [e|payload] eqn:Hconv.
  - unfold try_catch, bind, throw, ret. cbn. rewrite Hconv. cbn.
    eexists. split; [reflexivity|]. repeat split.
  - unfold try_catch at 1. unfold bind at 1. unfold try_catch at 1.
    unfold bind at 1. cbv beta iota.
    unfold bind at 1. cbn [dispatch_attempts set_dispatch_attempts]. rewrite Hconv.
    unfold ret at 1. cbv beta iota.
    unfold bind at 1. rewrite createDriveDelivery_run.
    cbn [http_log set_dispatch_attempts].
    destruct (http env (List.length (http_log w)) (HttpPost "/deliveries" payload))
      as [data|code data|msg] eqn:Hhttp; cbv beta iota.
    + unfold ret at 1. cbv beta iota.
      match goal with
      | |- context [try_catch (markOrderSentToDoorDash ?k ?i) _ ?w0] =>
          destruct (db_mark_exact env calm dbType k i w0) as (stamp & w' & Hm & Ht & Hq);
            [exact Hpool|]
      end.
      unfold try_catch at 1. rewrite Hm.
      destruct Hq as (Q1 & Q2 & Q3). cbn in *.
      exists w'. split; [reflexivity|]. split; [exact Q1|]. split; [exact Q2|].
      exists stamp. exact Ht.
    + unfold ret. eexists. split; [reflexivity|]. repeat split.
    + unfold ret. eexists. split; [reflexivity|]. repeat split.
Qed.

End ExactRuns.

Section ExactHandler.

Variable env : Env.
Hypothesis calm : no_db_faults env.
Variable dbType : DbType.
Variable configured : bool.

(** One webhook delivery with a store that works and a display that goes
    through, with the order that was built and the world in which the
    dispatch phase started. *)
Lemma handle_run_exact (req : WebhookRequest) (w : World) :
  pool_available w ->
  let p := orderData_of (body req) (query req) in
  truthy p = true ->
  display_passes p (existing_before p w) = true ->
  exists order w1 w2,
    gloriafood_order_id order = external_order_id p
    /\ raw_data order = json_text p
    /\ status order = normalized_status p
    /\ orders w1
       = insert_or_update (upsert_merge dbType) (upsert_row dbType order) (orders w)
    /\ quiet w w1
    /\ pool_available w1
    /\ handleWebhook env configured (database := createDatabase env dbType) req w
       = (Done (OrderProcessed (orderId_of p)), w2)
    /\ (if isDeliveryOrder p && wasNotSent (existing_before p w)
        then dispatch env configured (database := createDatabase env dbType)
               p (orderId_of p) w1 = (Done tt, w2)
        else w2 = w1).
Proof.
  intros Hpool p Hp Hshow.
  destruct (handle_store_run env calm dbType req w Hpool Hp)
    as (order & saved & wg & wu & Hid & Hraw & Hstatus & Hss & Hget & Hup & Htu & Hqu & Hpu).
  fold p in Hid, Hraw, Hstatus, Hss, Hget, Hup.
  (* the world in which the dispatch phase starts *)
  assert (Hdisp : exists w1,
            orders w1 = orders wu /\ quiet wu w1
            /\ (match existing_before p w with
                | None => displayOrder saved (database := createDatabase env dbType) wu
                          = (Done tt, w1)
                | Some _ => w1 = wu
                end)).
  { destruct (existing_before p w).
    - exists wu. repeat split.
    - destruct (db_count_run env calm dbType wu Hpu) as (n & wc & Hc & Htc & Hqc).
      destruct (db_recent_run env calm dbType 60 wc (quiet_pool _ _ Hqc Hpu))
        as (rows & wr & Hr & Htr & Hqr).
      exists wr. split; [congruence|]. split; [eapply quiet_trans; eassumption|].
      unfold displayOrder. rewrite Hss.
      erewrite bind_done by (apply formatStatus_passes; exact Hshow).
      erewrite bind_done by exact Hc.
      erewrite bind_done by exact Hr. reflexivity. }
  destruct Hdisp as (w1 & Ht1 & Hq1 & Hdisplay).
  assert (Hp1 : pool_available w1) by (eapply quiet_pool; eassumption).
  assert (Hphase : exists w2,
            when (isDeliveryOrder p && wasNotSent (existing_before p w))
              (dispatch env configured (database := createDatabase env dbType)
                 p (orderId_of p)) w1 = (Done tt, w2)
            /\ (if isDeliveryOrder p && wasNotSent (existing_before p w)
                then dispatch env configured (database := createDatabase env dbType)
                       p (orderId_of p) w1 = (Done tt, w2)
                else w2 = w1)).
  { unfold when.
    destruct (isDeliveryOrder p && wasNotSent (existing_before p w)).
    - destruct (dispatch_done env calm dbType configured p (orderId_of p) w1 Hp1)
        as (w2 & Hd & _).
      exists w2. split; exact Hd.
    - exists w1. split; reflexivity. }
  destruct Hphase as (w2 & Hphase & Hw2).
  exists order, w1, w2.
  split; [exact Hid|]. split; [exact Hraw|]. split; [exact Hstatus|].
  split; [congruence|].
  split; [eapply quiet_trans; eassumption|].
  split; [exact Hp1|].
  split; [|exact Hw2].
  unfold handleWebhook. fold p. rewrite Hp. simpl negb. cbv iota.
  apply try_done.
  erewrite bind_done by exact Hget.
  erewrite bind_done by exact Hup.
  unfold when in Hphase.
  destruct (existing_before p w) as [existing|] eqn:Hex.
  - subst w1. simpl wasNotSent in *.
    erewrite bind_done; [reflexivity|].
    unfold when. exact Hphase.
  - simpl wasNotSent in Hphase. rewrite andb_true_r in Hphase.
    erewrite bind_done; [reflexivity|].
    erewrite bind_done by exact Hdisplay.
    unfold when. exact Hphase.
Qed.

End ExactHandler.

Lemma upsert_row_unsent (dbType : DbType) (order : Order) :
  doordash_order_id (upsert_row dbType order) = JNull
  /\ raw_data (upsert_row dbType order) = raw_data order
  /\ status (upsert_row dbType order) = status order.
Proof. destruct dbType; repeat split. Qed.



(** The record an upsert leaves under its id, with the payload's JSON and
    status. *)
Lemma record_after_upsert (dbType : DbType) (order : Order) (k : string)
    (t : list Order) :
  unique_ids t ->
  gloriafood_order_id order = k ->
  exists r,
    select_by_id k (insert_or_update (upsert_merge dbType) (upsert_row dbType order) t)
    = [r]
    /\ raw_data r = raw_data order
    /\ status r = status order.
Proof.
  intros Hu Hk.
  pose proof (backend_clauses dbType) as C.
  pose proof (stored_under_after_upsert _ (merge_id _ _ C)
                (upsert_row dbType order) t Hu) as Hone.
  pose proof (select_after_upsert _ (merge_id _ _ C)
                (upsert_row dbType order) t) as Hsel.
  rewrite (row_id _ _ C), Hk in Hone, Hsel. unfold stored_under in Hone.
  destruct (upsert_payload_columns dbType order) as (Hm & R1 & R2 & _).
  destruct (select_by_id k (insert_or_update _ _ t)) as [|r1 [|r1' rest]];
    try discriminate.
  exists r1. split; [reflexivity|].
  destruct (existsb (has_id k) t).
  - destruct (select_by_id k t) as [|old rest]; [discriminate|].
    simpl in Hsel. injection Hsel as -> _.
    destruct (Hm old) as (M1 & M2 & _). rewrite M1, M2. now split.
  - injection Hsel as ->. rewrite R1, R2. now split.
Qed.




(* ================================================================== *)
(** * Status lookups and orders without an id *)
(* ================================================================== *)

Lemma try_each_requests (env : Env) (idOrExternalId : string) (paths : list string) :
  forall (lastError : option JSError) (w : World),
  exists n r w',
    DoorDashClient.try_each env idOrExternalId paths lastError w = (Done r, w')
    /\ n <= List.length paths
    /\ (paths <> [] -> 1 <= n)
    /\ http_log w' = (http_log w ++ map HttpGet (firstn n paths))%list
    /\ orders w' = orders w.
Proof.
  induction paths as [|path rest IH]; intros lastError w.
  - exists 0, (inr lastError), w. simpl. rewrite app_nil_r.
    split; [reflexivity|]. split; [lia|]. split; [congruence|]. split; reflexivity.
  - simpl DoorDashClient.try_each.
    unfold bind at 1. unfold try_catch at 1. unfold bind at 1. rewrite axios_run.
    destruct (http env (List.length (http_log w)) (HttpGet path)) as [d|c d|m];
      cbv beta iota delta [ret].
    + exists 1. do 2 eexists. split; [reflexivity|]. simpl.
      split; [lia|]. split; [lia|]. split; reflexivity.
    + destruct (IH (Some (AxiosError (Some (c, d)) "Request failed"))
                  (set_http_log (http_log w ++ [HttpGet path])%list w))
        as (n & r & w' & Hrun & Hn & _ & Hl & Ho).
      exists (S n), r, w'.
      split; [exact Hrun|].
      rewrite Hl, Ho. simpl. rewrite <- app_assoc.
      split; [lia|]. split; [lia|]. split; reflexivity.
    + destruct (IH (Some (AxiosError None m))
                  (set_http_log (http_log w ++ [HttpGet path])%list w))
        as (n & r & w' & Hrun & Hn & _ & Hl & Ho).
      exists (S n), r, w'.
      split; [exact Hrun|].
      rewrite Hl, Ho. simpl. rewrite <- app_assoc.
      split; [lia|]. split; [lia|]. split; reflexivity.
Qed.

Lemma filter_createDelivery_gets (paths : list string) :
  filter is_createDelivery (map HttpGet paths) = [].
Proof. induction paths; simpl; [reflexivity | assumption]. Qed.

(** The requests of [getOrderStatus]. *)
Lemma getOrderStatus_requests (env : Env) (idOrExternalId : string) (w : World) :
  let w' := snd (DoorDashClient.getOrderStatus env idOrExternalId w) in
  exists n,
    n <= 3
    /\ (if is_empty (trim idOrExternalId) then n = 0 else 1 <= n)
    /\ http_log w'
       = (http_log w
          ++ map HttpGet (firstn n (DoorDashClient.tryEndpoints (trim idOrExternalId))))%list
    /\ createDelivery_calls w' = createDelivery_calls w
    /\ orders w' = orders w.
Proof.
  cbv zeta. unfold DoorDashClient.getOrderStatus.
  destruct (is_empty (trim idOrExternalId)) eqn:Hk.
  - exists 0. simpl. rewrite app_nil_r.
    split; [lia|]. split; [reflexivity|]. split; [reflexivity|]. split; reflexivity.
  - destruct (try_each_requests env idOrExternalId
                (DoorDashClient.tryEndpoints (trim idOrExternalId)) None w)
      as (n & r & w1 & Hrun & Hn & Hpos & Hl & Ho).
    exists n. unfold bind. rewrite Hrun.
    assert (Hsnd : forall X (m : M X), snd (m w1) = w1 -> http_log (snd (m w1)) = http_log w1
                                       /\ orders (snd (m w1)) = orders w1)
      by (intros X m ->; split; reflexivity).
    destruct r as [resp|[e|]]; cbv beta iota.
    + simpl. split; [exact Hn|]. split; [apply Hpos; discriminate|].
      split; [exact Hl|]. split; [|exact Ho].
      unfold createDelivery_calls. rewrite Hl, filter_app, filter_createDelivery_gets.
      now rewrite app_nil_r.
    + assert (Hw : snd (match e with
                        | AxiosError (Some (code, data)) _ =>
                            if (code =? 404)%Z
                            then throw (DoorDashNotFound (trim idOrExternalId) data)
                            else throw (DoorDashApiError code data)
                        | _ => throw (DoorDashFailure
                                        (as_string (JStr (error_message e)
                                                    <||> JStr "Unknown error")))
                        end w1 : Outcome DoorDashClient.DoorDashResponse * World) = w1).
      { destruct e as [| |[[c d]|] m| | | |]; try reflexivity.
        destruct (c =? 404)%Z; reflexivity. }
      rewrite Hw.
      split; [exact Hn|]. split; [apply Hpos; discriminate|].
      split; [exact Hl|]. split; [|exact Ho].
      unfold createDelivery_calls. rewrite Hl, filter_app, filter_createDelivery_gets.
      now rewrite app_nil_r.
    + simpl. split; [exact Hn|]. split; [apply Hpos; discriminate|].
      split; [exact Hl|]. split; [|exact Ho].
      unfold createDelivery_calls. rewrite Hl, filter_app, filter_createDelivery_gets.
      now rewrite app_nil_r.
Qed.

(** X16.  [getOrderStatus] only reads: whatever the partner answers, it issues
    at most three requests, all of them GETs on the lookup routes of the
    trimmed identifier, in their order; none at all for a blank
    identifier.  It never posts a delivery and never touches the table. *)
Theorem status_lookup_only_reads (env : Env) (idOrExternalId : string) (w : World) :
  let w' := snd (DoorDashClient.getOrderStatus env idOrExternalId w) in
  exists n,
    n <= 3
    /\ (if is_empty (trim idOrExternalId) then n = 0 else 1 <= n)
    /\ http_log w'
       = (http_log w
          ++ map HttpGet (firstn n (DoorDashClient.tryEndpoints (trim idOrExternalId))))%list
    /\ createDelivery_calls w' = createDelivery_calls w
    /\ orders w' = orders w.
Proof. exact (getOrderStatus_requests env idOrExternalId w). Qed.

Lemma getOrderStatus_first_request (env : Env) (d : string) (w : World) :
  is_empty (trim d) = false ->
  exists rest,
    http_log (snd (DoorDashClient.getOrderStatus env d w))
    = (http_log w
       ++ HttpGet ("/deliveries/" ++ DoorDashClient.encodeURIComponent (trim d)) :: rest)%list.
Proof.
  intros Hd.
  destruct (getOrderStatus_requests env d w) as (n & _ & Hn & Hl & _).
  rewrite Hd in Hn. rewrite Hl.
  destruct n as [|n]; [lia|]. simpl. eexists. reflexivity.
Qed.

Lemma trim_empty_string : trim "" = "".
Proof. reflexivity. Qed.

Lemma idless_keys (p : JValue) :
  get p "id" = JUndefined -> get p "order_id" = JUndefined ->
  external_order_id p = "" /\ orderId_of p = JStr "unknown" /\ handler_key p = "unknown".
Proof.
  intros H1 H2. unfold external_order_id, handler_key, orderId_of.
  rewrite H1, H2. repeat split.
Qed.

Section Idless.

Variable env : Env.
Hypothesis calm : no_db_faults env.
Variable dbType : DbType.

Lemma idless_delivery_is_sent (req : WebhookRequest) (w : World) :
  pool_available w ->
  stored_under "unknown" (orders w) = 0 ->
  Forall unsent (select_by_id "" (orders w)) ->
  idless_delivery req ->
  exists w',
    handleWebhook env true (database := createDatabase env dbType) req w
      = (Done (OrderProcessed (JStr "unknown")), w')
    /\ createDelivery_calls w' = S (createDelivery_calls w)
    /\ pool_available w'
    /\ stored_under "unknown" (orders w') = 0
    /\ stored_under "" (orders w') = Nat.max 1 (stored_under "" (orders w))
    /\ Forall unsent (select_by_id "" (orders w')).
Proof.
  intros Hpool Hunk Huns (Hp & Hi & Ho & Hgate & Hshow & Hconv).
  pose proof (backend_clauses dbType) as C.
  destruct (idless_keys _ Hi Ho) as (Kext & Koid & Kh).
  assert (Hpass : display_passes (orderData_of (body req) (query req))
                    (existing_before (orderData_of (body req) (query req)) w) = true).
  { apply new_order_is_displayed; [rewrite Kh; exact Hunk | exact Hshow]. }
  destruct (handle_run_exact env calm dbType true req w Hpool Hp Hpass)
    as (order & w1 & w2 & Hoid & _ & _ & Ht1 & (Q1 & Q2 & Q3) & Hp1 & Hrun & Hphase).
  rewrite Kext in Hoid. rewrite Koid in Hrun, Hphase.
  unfold existing_before in Hphase. rewrite Kh in Hphase.
  rewrite (stored_under_zero_select _ _ Hunk) in Hphase.
  rewrite (passes_type_gate_delivery _ Hgate) in Hphase. simpl in Hphase.
  (* the table when the dispatch starts *)
  assert (Hunk1 : existsb (has_id "unknown") (orders w1) = false).
  { apply stored_under_zero. unfold stored_under. rewrite Ht1.
    rewrite (select_after_upsert_other _ (merge_id _ _ C)).
    - exact Hunk.
    - rewrite (row_id _ _ C), Hoid. discriminate. }
  destruct (dispatch_run_exact env calm dbType true
              (orderData_of (body req) (query req)) (JStr "unknown") w1 Hp1)
    as (w' & Hd & Hpool' & Hmatch).
  rewrite Hd in Hphase. injection Hphase as <-.
  rewrite Hgate in Hmatch. simpl andb in Hmatch.
  destruct (Hconv (randomUUID env (S (dispatch_attempts w1)))) as (payload & Hpay).
  unfold drive_payload in Hmatch. rewrite Hpay in Hmatch.
  destruct Hmatch as (Hlog & Htab).
  assert (Htab' : orders w' = orders w1).
  { destruct (http env _ _); try exact Htab.
    destruct Htab as (stamp & ->). now apply update_where_id_absent. }
  exists w'. split; [exact Hrun|].
  split; [eapply createDelivery_calls_post; rewrite Hlog, Q2; reflexivity|].
  split; [unfold pool_available in *; now rewrite Hpool'|].
  rewrite Htab'.
  split; [unfold stored_under; apply select_absent in Hunk1; now rewrite Hunk1|].
  pose proof (select_after_upsert _ (merge_id _ _ C)
                (upsert_row dbType order) (orders w)) as Hsel.
  rewrite (row_id _ _ C), Hoid, <- Ht1 in Hsel.
  unfold stored_under. rewrite Hsel.
  destruct (existsb (has_id "") (orders w)) eqn:He.
  - split.
    + rewrite length_map. apply select_present in He.
      destruct (select_by_id "" (orders w)); [congruence | simpl; lia].
    + apply Forall_map. eapply Forall_impl; [|exact Huns].
      intros r Hr. unfold unsent in *.
      pose proof (merge_dispatch _ _ C r (upsert_row dbType order)) as Hds.
      unfold dispatch_state in Hds. injection Hds as -> _ _. exact Hr.
  - apply select_absent in He. rewrite He. split; [reflexivity|].
    constructor; [apply (row_unsent _ _ C) | constructor].
Qed.

End Idless.




(* ================================================================== *)
(** * The Drive payload *)
(* ================================================================== *)

Lemma phone_char_test (c : ascii) : is_digit c || Ascii.eqb c "+" = phone_char c.
Proof. destruct c as [[] [] [] [] [] [] [] []]; reflexivity. Qed.

Lemma keep_phone_chars_filter (s : string) :
  list_ascii_of_string (DoorDashClient.keep_phone_chars s)
  = filter phone_char (list_ascii_of_string s).
Proof.
  induction s as [|c r IH]; simpl; [reflexivity|].
  rewrite phone_char_test. destruct (phone_char c); simpl; now rewrite IH.
Qed.

Lemma keep_phone_chars_all (s : string) :
  all_chars phone_char (DoorDashClient.keep_phone_chars s) = true.
Proof.
  induction s as [|c r IH]; simpl; [reflexivity|].
  rewrite phone_char_test.
  destruct (phone_char c) eqn:Hc; [|exact IH].
  simpl. now rewrite Hc.
Qed.

Lemma keep_phone_chars_fixed (s : string) :
  all_chars phone_char s = true -> DoorDashClient.keep_phone_chars s = s.
Proof.
  induction s as [|c r IH]; simpl; [reflexivity|].
  intros H. apply andb_true_iff in H as [Hc Hr].
  rewrite phone_char_test, Hc. now rewrite IH.
Qed.

(** X18.  [normalizePhone] on a string returns exactly its digits and [+]
    signs, all of them and in their order, and nothing else; normalizing
    its result again changes nothing. *)
Theorem normalizePhone_keeps_digits_and_plus (s : string) :
  exists t,
    DoorDashClient.normalizePhone (JStr s) = inr t
    /\ list_ascii_of_string t = filter phone_char (list_ascii_of_string s)
    /\ all_chars phone_char t = true
    /\ DoorDashClient.normalizePhone (JStr t) = inr t
    /\ (all_chars phone_char s = true -> t = s).
Proof.
  assert (Hn : forall x, DoorDashClient.normalizePhone (JStr x)
                         = inr (DoorDashClient.keep_phone_chars x)).
  { intros x. unfold DoorDashClient.normalizePhone, jor.
    destruct x; reflexivity. }
  exists (DoorDashClient.keep_phone_chars s).
  split; [apply Hn|]. split; [apply keep_phone_chars_filter|].
  split; [apply keep_phone_chars_all|].
  split; [rewrite Hn; f_equal; apply keep_phone_chars_fixed, keep_phone_chars_all|].
  apply keep_phone_chars_fixed.
Qed.

Lemma normalizePhone_not_string (v : JValue) :
  truthy v = true -> is_string v = false ->
  DoorDashClient.normalizePhone v = inl (TypeError "replace is not a function").
Proof.
  intros Ht Hs. unfold DoorDashClient.normalizePhone, jor. rewrite Ht.
  destruct v; simpl in *; try discriminate; reflexivity.
Qed.

Lemma normalizePhone_cases (v : JValue) :
  (exists t, DoorDashClient.normalizePhone v = inr t)
  \/ DoorDashClient.normalizePhone v = inl (TypeError "replace is not a function").
Proof.
  unfold DoorDashClient.normalizePhone.
  destruct (v <||> JStr ""); try (right; reflexivity). left. eexists. reflexivity.
Qed.

(** X19.  A customer phone number that arrives as anything but a string (a
    JSON number, say) makes the conversion throw, so the order is never
    sent: [sendOrderToDoorDash] answers [null] after one attempt that
    issues no request, whatever the environment. *)
Theorem non_string_phone_is_never_dispatched
    (env : Env) (orderData : JValue) (w : World) :
  passes_type_gate orderData = true ->
  truthy (dropoff_phone orderData) = true ->
  is_string (dropoff_phone orderData) = false ->
  (forall uuid,
     DoorDashClient.convertGloriaFoodToDrive uuid orderData
     = inl (TypeError "replace is not a function"))
  /\ sendOrderToDoorDash env true orderData w
     = (Done None, set_dispatch_attempts (S (dispatch_attempts w)) w).
Proof.
  intros Hgate Ht Hs.
  assert (Hconv : forall uuid,
             DoorDashClient.convertGloriaFoodToDrive uuid orderData
             = inl (TypeError "replace is not a function")).
  { intros uuid. unfold DoorDashClient.convertGloriaFoodToDrive.
    fold (dropoff_phone orderData).
    rewrite (normalizePhone_not_string _ Ht Hs).
    destruct (truthy (get orderData "restaurant_phone")); [|reflexivity].
    destruct (normalizePhone_cases (get orderData "restaurant_phone")) as [[t ->] | ->];
      reflexivity. }
  split; [exact Hconv|].
  unfold passes_type_gate in Hgate.
  unfold sendOrderToDoorDash. simpl negb. cbv iota.
  destruct (gate_type orderData); try discriminate.
  rewrite Hgate. simpl negb. cbv iota.
  unfold try_catch, bind, note_attempt, lift_sum. cbn.
  rewrite Hconv. reflexivity.
Qed.

Lemma non_string_phone_witness :
  sendOrderToDoorDash (Samples.calm_env Samples.partner_accepts) true
    (JObj [("id", JStr "9"); ("type", JStr "delivery");
           ("client_phone", JNum (Dec false 9171234567 0))])
    Samples.empty_world
  = (Done None, set_dispatch_attempts 1 Samples.empty_world).
Proof.
  apply (non_string_phone_is_never_dispatched
           (Samples.calm_env Samples.partner_accepts)
           (JObj [("id", JStr "9"); ("type", JStr "delivery");
                  ("client_phone", JNum (Dec false 9171234567 0))])
           Samples.empty_world); reflexivity.
Defined.

Lemma toString_opt_cases (v : JValue) :
  toString_opt v = JUndefined \/ exists s, toString_opt v = JStr s.
Proof. unfold toString_opt. destruct (nullish v); [now left | right; eauto]. Qed.

Lemma external_id_or (a b : JValue) (uuid : string) :
  (a = JUndefined \/ exists s, a = JStr s) ->
  (b = JUndefined \/ exists s, b = JStr s) ->
  (a <||> b <||> JStr uuid)
  = JStr (if is_empty (as_string (a <||> b <||> JStr ""))
          then uuid else as_string (a <||> b <||> JStr "")).
Proof.
  intros [-> | [[|c s] ->]] [-> | [[|c' s'] ->]]; reflexivity.
Qed.

(** X20.  The external delivery id of a Drive payload is the external order
    id under which the order is stored, whenever the payload names one; a
    generated id stands in otherwise, so that the field is never empty. *)
Theorem drive_payload_carries_the_order_id
    (uuid : string) (orderData payload : JValue) :
  DoorDashClient.convertGloriaFoodToDrive uuid orderData = inr payload ->
  get payload "external_delivery_id"
  = JStr (if is_empty (external_order_id orderData) then uuid
          else external_order_id orderData)
  /\ (is_empty uuid = false -> truthy (get payload "external_delivery_id") = true).
Proof.
  unfold DoorDashClient.convertGloriaFoodToDrive.
  destruct (if truthy (get orderData "restaurant_phone") then _ else _) as [e|pickup];
    [discriminate|].
  destruct (DoorDashClient.normalizePhone _) as [e|dropoff]; [discriminate|].
  intros H. injection H as <-. cbn [get lookup String.eqb Ascii.eqb Bool.eqb].
  rewrite (external_id_or _ _ uuid (toString_opt_cases _) (toString_opt_cases _)).
  fold (external_order_id orderData).
  split; [reflexivity|].
  intros Hu. simpl.
  destruct (external_order_id orderData) as [|c s]; simpl.
  - destruct uuid; [discriminate | reflexivity].
  - reflexivity.
Qed.

Lemma drive_payload_order_id_witness :
  exists payload,
    DoorDashClient.convertGloriaFoodToDrive "6f1c" (Samples.order_555 "delivery" "pending")
    = inr payload
    /\ get payload "external_delivery_id" = JStr "555".
Proof.
  eexists. split; [reflexivity|].
  apply (drive_payload_carries_the_order_id "6f1c" (Samples.order_555 "delivery" "pending")).
  reflexivity.
Defined.


Lemma toCents_falsy (v : JValue) :
  truthy v = false -> DoorDashClient.toCents v = JNum (Dec false 0 0).
Proof. intros H. unfold DoorDashClient.toCents, jor. rewrite H. reflexivity. Qed.

(** X22.  The order value sent to the partner is read from [total_price]
    alone: for a payload that carries its amount under [total], the store
    keeps that amount while the Drive payload says zero cents. *)
Theorem order_value_ignores_total (uuid : string) (orderData payload : JValue) :
  truthy (get orderData "total_price") = false ->
  DoorDashClient.convertGloriaFoodToDrive uuid orderData = inr payload ->
  get payload "order_value" = JNum (Dec false 0 0)
  /\ normalized_total_price orderData
     = parseFloat (get orderData "total" <||> JStr "0").
Proof.
  intros Hp. unfold DoorDashClient.convertGloriaFoodToDrive.
  destruct (if truthy (get orderData "restaurant_phone") then _ else _) as [e|pickup];
    [discriminate|].
  destruct (DoorDashClient.normalizePhone _) as [e|dropoff]; [discriminate|].
  intros H. injection H as <-. cbn [get lookup String.eqb Ascii.eqb Bool.eqb].
  split; [now apply toCents_falsy|].
  unfold normalized_total_price. unfold jor at 2. now rewrite Hp.
Qed.

Lemma order_value_ignores_total_witness :
  exists payload,
    DoorDashClient.convertGloriaFoodToDrive "6f1c"
      (JObj [("id", JStr "8"); ("total", JStr "12.50")]) = inr payload
    /\ get payload "order_value" = JNum (Dec false 0 0)
    /\ normalized_total_price (JObj [("id", JStr "8"); ("total", JStr "12.50")])
       = Dec false 1250 (-2).
Proof.
  eexists. split; [reflexivity|].
  destruct (order_value_ignores_total "6f1c"
              (JObj [("id", JStr "8"); ("total", JStr "12.50")]) _ eq_refl eq_refl)
    as [H1 _].
  split; [exact H1 | reflexivity].
Defined.

Lemma upper_hex_unreserved (k : nat) :
  k < 16 -> DoorDashClient.is_unreserved (DoorDashClient.upper_hex k) = true.
Proof.
  intros H. do 16 (destruct k as [|k]; [reflexivity|]). lia.
Qed.

Lemma nat_of_ascii_lt (c : ascii) : nat_of_ascii c < 256.
Proof. apply nat_ascii_bounded. Qed.

(** [encodeURIComponent] leaves only unreserved characters and percent
    signs: the identifier handed to [getOrderStatus] cannot add a path
    segment, a query or a fragment to the lookup routes. *)
Lemma encoded_identifier_stays_in_its_segment (s : string) :
  all_chars uri_char (DoorDashClient.encodeURIComponent s) = true
  /\ uri_char "/" = false /\ uri_char "?" = false /\ uri_char "#" = false
  /\ uri_char "&" = false /\ uri_char " " = false.
Proof.
  split; [|repeat split].
  induction s as [|c r IH]; cbn [DoorDashClient.encodeURIComponent]; [reflexivity|].
  destruct (DoorDashClient.is_unreserved c) eqn:Hc.
  - cbn [all_chars]. unfold uri_char at 1. now rewrite Hc, IH.
  - pose proof (nat_of_ascii_lt c) as Hlt.
    cbn [all_chars]. rewrite IH.
    unfold uri_char at 2 3.
    rewrite !upper_hex_unreserved.
    + reflexivity.
    + apply Nat.mod_upper_bound. discriminate.
    + apply Nat.Div0.div_lt_upper_bound. lia.
Qed.

Lemma hex_value_upper_hex (k : nat) :
  k < 16 -> hex_value (DoorDashClient.upper_hex k) = k.
Proof.
  intros H. do 16 (destruct k as [|k]; [reflexivity|]). lia.
Qed.

Lemma percent_reserved : DoorDashClient.is_unreserved "%" = false.
Proof. reflexivity. Qed.

(** [encodeURIComponent] is one-to-one: two different identifiers are
    never looked up on the same routes. *)
Lemma encodeURIComponent_is_one_to_one (s1 s2 : string) :
  DoorDashClient.encodeURIComponent s1 = DoorDashClient.encodeURIComponent s2 ->
  s1 = s2.
Proof.
  revert s2. induction s1 as [|c1 r1 IH]; intros [|c2 r2];
    cbn [DoorDashClient.encodeURIComponent].
  - reflexivity.
  - destruct (DoorDashClient.is_unreserved c2); discriminate.
  - destruct (DoorDashClient.is_unreserved c1); discriminate.
  - destruct (DoorDashClient.is_unreserved c1) eqn:H1;
      destruct (DoorDashClient.is_unreserved c2) eqn:H2; intros H.
    + injection H as -> Hr. f_equal. now apply IH.
    + injection H as -> _. rewrite percent_reserved in H1. discriminate.
    + injection H as <- _. rewrite percent_reserved in H2. discriminate.
    + injection H as Hhi Hlo Hr.
      pose proof (nat_of_ascii_lt c1) as L1. pose proof (nat_of_ascii_lt c2) as L2.
      assert (Hq : nat_of_ascii c1 / 16 = nat_of_ascii c2 / 16).
      { rewrite <- (hex_value_upper_hex (nat_of_ascii c1 / 16)),
                <- (hex_value_upper_hex (nat_of_ascii c2 / 16))
          by (apply Nat.Div0.div_lt_upper_bound; lia).
        f_equal. exact Hhi. }
      assert (Hm : nat_of_ascii c1 mod 16 = nat_of_ascii c2 mod 16).
      { rewrite <- (hex_value_upper_hex (nat_of_ascii c1 mod 16)),
                <- (hex_value_upper_hex (nat_of_ascii c2 mod 16))
          by (apply Nat.mod_upper_bound; discriminate).
        f_equal. exact Hlo. }
      assert (Hn : nat_of_ascii c1 = nat_of_ascii c2).
      { rewrite (Nat.div_mod_eq (nat_of_ascii c1) 16),
                (Nat.div_mod_eq (nat_of_ascii c2) 16). now rewrite Hq, Hm. }
      f_equal; [|now apply IH].
      rewrite <- (ascii_nat_embedding c1), <- (ascii_nat_embedding c2). now rewrite Hn.
Qed.

(* ================================================================== *)
(** * The status route, the lookup routes and the cancel route *)
(* ================================================================== *)

Lemma webhooks_keep_ids_unique_witness :
  unique_ids
    (orders (snd (handleAll (Samples.fault_at 3) true
                    (database := createDatabase (Samples.fault_at 3) MySQL)
                    [Samples.webhook (Samples.order_555 "delivery" "pending");
                     Samples.webhook (Samples.order_555 "delivery" "accepted")]
                    Samples.empty_world))).
Proof.
  apply webhooks_keep_ids_unique. constructor.
Defined.


Lemma marking_delivery_id_witness :
  exists r' w',
    OrderDatabaseMySQL.markOrderSentToDoorDash (Samples.calm_env Samples.partner_accepts)
      "555" JUndefined (set_orders [Samples.sent_555] Samples.empty_world) = (Done tt, w')
    /\ select_by_id "555" (orders w') = [r']
    /\ doordash_order_id r' = JStr "D-1".
Proof.
  destruct (marking_records_the_delivery_id (Samples.calm_env Samples.partner_accepts) MySQL
              "555" JUndefined Samples.sent_555
              (set_orders [Samples.sent_555] Samples.empty_world))
    as (r' & w' & Hrun & Hsel & _ & Hdd & _).
  - intros i. reflexivity.
  - apply Nat.ltb_lt. reflexivity.
  - reflexivity.
  - exists r', w'. split; [exact Hrun|]. split; [exact Hsel | exact Hdd].
Defined.

(** X23.  [GET /doordash/status/:orderId], with a store that works: the partner
    is asked about the delivery id stored with the order, and about the
    order id itself only when the order is unknown or has none.  The first
    request goes to the delivery route of that identifier, trimmed and
    encoded, and the route answers what [getOrderStatus] gives for it (the
    500 with its message when it throws). *)
Theorem status_route_asks_under_the_stored_delivery_id
    (env : Env) (dbType : DbType) (orderId d : string) (w : World) :
  no_db_faults env ->
  pool_available w ->
  delivery_key orderId (orders w) = JStr d ->
  is_empty (trim d) = false ->
  exists w1 rest,
    orders w1 = orders w
    /\ http_log w1 = http_log w
    /\ getDoorDashStatus env true (database := createDatabase env dbType) orderId w
       = status_answer orderId (DoorDashClient.getOrderStatus env d w1)
    /\ http_log (snd (getDoorDashStatus env true
                        (database := createDatabase env dbType) orderId w))
       = (http_log w
          ++ HttpGet ("/deliveries/" ++ DoorDashClient.encodeURIComponent (trim d))
             :: rest)%list.
Proof.
  intros calm Hpool Hkey Hblank.
  destruct (db_get_run env calm dbType orderId w Hpool) as (w1 & Hget & Ho & (_ & Hl & _)).
  assert (Hne : truthy (JStr d) = true).
  { destruct d; [rewrite trim_empty_string in Hblank; discriminate | reflexivity]. }
  assert (Hrun : getDoorDashStatus env true (database := createDatabase env dbType) orderId w
                 = status_answer orderId (DoorDashClient.getOrderStatus env d w1)).
  { unfold getDoorDashStatus. simpl negb. cbv iota.
    unfold try_catch at 1. unfold bind at 1. unfold try_catch at 1.
    erewrite bind_done by exact Hget. cbv beta iota.
    assert (Hk : (match hd_error (select_by_id orderId (orders w)) with
                  | Some o => if truthy (doordash_order_id o)
                              then ret (doordash_order_id o) else ret (JStr orderId)
                  | None => ret (JStr orderId)
                  end) w1 = (Done (JStr d), w1)).
    { unfold delivery_key in Hkey.
      destruct (hd_error (select_by_id orderId (orders w))) as [o|].
      - destruct (truthy (doordash_order_id o)); now rewrite Hkey.
      - now rewrite Hkey. }
    rewrite Hk. cbv beta iota. rewrite Hne.
    rewrite <- is_empty_eqb, Hblank. cbn [negb]. cbv beta iota.
    unfold bind, status_answer, ret.
    destruct (DoorDashClient.getOrderStatus env d w1) as [[resp|e|] w2]; reflexivity. }
  destruct (getOrderStatus_first_request env d w1 Hblank) as (rest & Hfirst).
  exists w1, rest. split; [exact Ho|]. split; [exact Hl|]. split; [exact Hrun|].
  rewrite Hrun, <- Hl.
  unfold status_answer.
  destruct (DoorDashClient.getOrderStatus env d w1) as [[resp|e|] w2]; exact Hfirst.
Qed.

Lemma status_route_witness :
  exists w' rest,
    getDoorDashStatus (Samples.calm_env Samples.partner_accepts) true
      (database := createDatabase (Samples.calm_env Samples.partner_accepts) MySQL)
      "555" (set_orders [Samples.sent_555] Samples.empty_world)
    = status_answer "555"
        (DoorDashClient.getOrderStatus (Samples.calm_env Samples.partner_accepts) "D-1" w')
    /\ http_log (snd (getDoorDashStatus (Samples.calm_env Samples.partner_accepts) true
                        (database := createDatabase
                                       (Samples.calm_env Samples.partner_accepts) MySQL)
                        "555" (set_orders [Samples.sent_555] Samples.empty_world)))
       = HttpGet "/deliveries/D-1" :: rest.
Proof.
  destruct (status_route_asks_under_the_stored_delivery_id
              (Samples.calm_env Samples.partner_accepts) MySQL "555" "D-1"
              (set_orders [Samples.sent_555] Samples.empty_world))
    as (w1 & rest & _ & _ & Hrun & Hlog).
  - intros i. reflexivity.
  - apply Nat.ltb_lt. reflexivity.
  - reflexivity.
  - reflexivity.
  - exists w1, rest. split; [exact Hrun | exact Hlog].
Defined.

(** X24.  The three lookup routes of [getOrderStatus] hold the identifier in one
    path segment: what follows each fixed prefix consists of unreserved
    characters and percent signs only, so no slash, question mark or hash
    of the identifier reaches the path; and two different identifiers never
    give the same routes. *)
Theorem lookup_routes_keep_the_identifier_in_one_segment (key : string) :
  (exists segment,
     DoorDashClient.tryEndpoints key
     = [ "/deliveries/" ++ segment;
         "/deliveries/external_delivery_id/" ++ segment;
         "/deliveries/by_external_id/" ++ segment ]
     /\ all_chars uri_char segment = true)
  /\ uri_char "/" = false /\ uri_char "?" = false /\ uri_char "#" = false
  /\ forall key', DoorDashClient.tryEndpoints key = DoorDashClient.tryEndpoints key' ->
                  key = key'.
Proof.
  split.
  { exists (DoorDashClient.encodeURIComponent key).
    split; [reflexivity | apply encoded_identifier_stays_in_its_segment]. }
  repeat split.
  intros key' H. unfold DoorDashClient.tryEndpoints in H.
  injection H as H _ _.
  apply encodeURIComponent_is_one_to_one.
  exact H.
Qed.

(** X25.  [cancelOrder] issues exactly one request, a POST to the cancel route
    of the delivery with the given reason or the default one; it creates
    no delivery and leaves the table alone; and the status it reports on
    success is never empty: [cancelled] stands in when the answer has
    none. *)
Theorem cancelOrder_posts_once
    (env : Env) (merchantOrderId : string) (reason : JValue) (w : World) :
  let result := DoorDashClient.cancelOrder env merchantOrderId reason w in
  http_log (snd result)
  = (http_log w
     ++ [HttpPost ("/deliveries/" ++ merchantOrderId ++ "/cancel")
           (JObj [("cancellation_reason",
                   if truthy reason then reason else JStr "Restaurant cancellation")])])%list
  /\ createDelivery_calls (snd result) = createDelivery_calls w
  /\ orders (snd result) = orders w
  /\ match fst result with
     | Done r =>
         exists data,
           http env (List.length (http_log w))
             (HttpPost ("/deliveries/" ++ merchantOrderId ++ "/cancel")
                (JObj [("cancellation_reason", reason <||> JStr "Restaurant cancellation")]))
           = HttpOk data
           /\ DoorDashClient.id r = get data "id"
           /\ truthy (DoorDashClient.status r) = true
     | Raise e => exists m, e = DoorDashFailure m \/ exists c d, e = DoorDashApiError c d
     | Blocked => False
     end.
Proof.
  cbv zeta.
  set (req := HttpPost ("/deliveries/" ++ merchantOrderId ++ "/cancel")
                (JObj [("cancellation_reason",
                        reason <||> JStr "Restaurant cancellation")])).
  assert (Hw : snd (DoorDashClient.cancelOrder env merchantOrderId reason w)
               = set_http_log (http_log w ++ [req])%list w).
  { unfold DoorDashClient.cancelOrder, try_catch, bind. fold req. rewrite axios_run.
    destruct (http env (List.length (http_log w)) req) as [data|c d|m];
      [destruct (nullish data)| |]; reflexivity. }
  rewrite Hw. cbn [http_log orders set_http_log].
  split; [reflexivity|]. split.
  { unfold createDelivery_calls. cbn [http_log set_http_log].
    rewrite filter_app. cbn. now rewrite app_nil_r. }
  split; [reflexivity|].
  unfold DoorDashClient.cancelOrder, try_catch, bind. fold req. rewrite axios_run.
  destruct (http env (List.length (http_log w)) req) as [data|c d|m] eqn:Hhttp.
  - destruct (nullish data) eqn:Hn; cbn.
    + eexists. left. reflexivity.
    + exists data. split; [reflexivity|]. split; [reflexivity|].
      unfold jor.
      destruct (truthy (get data "status")) eqn:Hs; [exact Hs | reflexivity].
  - cbn. exists "". right. eauto.
  - cbn. eexists. left. reflexivity.
Qed.


(* ================================================================== *)
(** * Contact fields *)
(* ================================================================== *)

(** X26.  The SQLite backend never reads the flat GloriaFood fields
    [client_phone], [client_email] and [client_address]: for a payload that
    carries the contact data in these fields only, it stores an empty
    phone number, e-mail address and delivery address, while the pooled
    backend stores the three values, trimmed. *)
Theorem sqlite_ignores_flat_contact_fields
    (fields : list (string * JValue)) (phone email address : string) :
  (forall k, In k nested_contact_fields -> lookup k fields = JUndefined) ->
  OrderDatabaseMySQL.trimmed (lookup "client_phone" fields) = Some phone ->
  OrderDatabaseMySQL.trimmed (lookup "client_email" fields) = Some email ->
  OrderDatabaseMySQL.trimmed (lookup "client_address" fields) = Some address ->
  OrderDatabaseMySQL.extractCustomerPhone (JObj fields) = phone
  /\ OrderDatabaseMySQL.extractCustomerEmail (JObj fields) = email
  /\ OrderDatabaseMySQL.extractDeliveryAddress (JObj fields) = address
  /\ OrderDatabase.extractCustomerPhone (JObj fields) = JStr ""
  /\ OrderDatabase.extractCustomerEmail (JObj fields) = JStr ""
  /\ OrderDatabase.extractDeliveryAddress (JObj fields) = JStr "".
Proof.
  intros H Hp He Ha.
  unfold OrderDatabaseMySQL.extractCustomerPhone, OrderDatabaseMySQL.extractCustomerEmail,
    OrderDatabaseMySQL.extractDeliveryAddress, OrderDatabase.extractCustomerPhone,
    OrderDatabase.extractCustomerEmail, OrderDatabase.extractDeliveryAddress.
  cbn [get map OrderDatabaseMySQL.first_some].
  rewrite Hp, He, Ha.
  rewrite !H by (simpl; tauto).
  repeat split.
Qed.

Lemma sqlite_flat_contact_witness :
  OrderDatabaseMySQL.extractCustomerPhone
    (JObj [("id", JStr "9"); ("client_phone", JStr " 0917 123 4567 ");
           ("client_email", JStr "ana@example.com");
           ("client_address", JStr "12 Rizal St, Manila")]) = "0917 123 4567"
  /\ OrderDatabase.extractCustomerPhone
       (JObj [("id", JStr "9"); ("client_phone", JStr " 0917 123 4567 ");
              ("client_email", JStr "ana@example.com");
              ("client_address", JStr "12 Rizal St, Manila")]) = JStr "".
Proof.
  destruct (sqlite_ignores_flat_contact_fields
              [("id", JStr "9"); ("client_phone", JStr " 0917 123 4567 ");
               ("client_email", JStr "ana@example.com");
               ("client_address", JStr "12 Rizal St, Manila")]
              "0917 123 4567" "ana@example.com" "12 Rizal St, Manila")
    as (H1 & _ & _ & H4 & _).
  - intros k Hk. simpl in Hk.
    repeat (destruct Hk as [<-|Hk]; [reflexivity|]). contradiction.
  - reflexivity.
  - reflexivity.
  - reflexivity.
  - split; [exact H1 | exact H4].
Defined.

(* ================================================================== *)
(** * Polling mode *)
(* ================================================================== *)

Lemma hd_select_present (k : string) (t : list Order) :
  existsb (has_id k) t = true -> exists r, hd_error (select_by_id k t) = Some r.
Proof.
  intros H. apply select_present in H.
  destruct (select_by_id k t) as [|r rest]; [congruence|]. now exists r.
Qed.

Lemma own_id_not_nullish (o : JValue) : has_own_id o = true -> nullish o = false.
Proof.
  unfold has_own_id. destruct o; simpl; try discriminate; reflexivity.
Qed.

Lemma own_id_keys_agree (o : JValue) :
  has_own_id o = true ->
  GloriaFoodOrderFetcher.lookup_key o = external_order_id o.
Proof.
  unfold has_own_id, GloriaFoodOrderFetcher.lookup_key, external_order_id, toString_opt.
  intros H. apply andb_true_iff in H as [Hn He].
  apply negb_true_iff in Hn. apply negb_true_iff in He.
  rewrite Hn. unfold jor at 1 3. simpl truthy.
  rewrite <- is_empty_eqb, He. simpl negb. cbv iota.
  unfold jor. simpl truthy. rewrite <- is_empty_eqb, He. reflexivity.
Qed.

Lemma order_id_only_keys (o : JValue) :
  known_by_order_id_only o = true ->
  nullish o = false
  /\ GloriaFoodOrderFetcher.lookup_key o = ""
  /\ external_order_id o = to_string (get o "order_id")
  /\ external_order_id o <> "".
Proof.
  unfold known_by_order_id_only, GloriaFoodOrderFetcher.lookup_key, external_order_id,
    toString_opt.
  intros H. apply andb_true_iff in H as [H He].
  apply andb_true_iff in H as [H Ho]. apply andb_true_iff in H as [Hn Hi].
  apply negb_true_iff in Hn. apply negb_true_iff in Ho. apply negb_true_iff in He.
  rewrite Hi, Ho.
  destruct (to_string (get o "order_id")) as [|c s] eqn:E; [discriminate|].
  split; [exact Hn|]. split; [reflexivity|].
  split; [reflexivity | discriminate].
Qed.

Section Polling.

Variable env : Env.
Hypothesis calm : no_db_faults env.

(** One turn of the loop when the driver does not raise and the display
    of a new order goes through. *)
Lemma storeOrders_step (o : JValue) (rest : list JValue) (a b : nat) (w : World) :
  nullish o = false ->
  displayable o = true ->
  exists order w',
    gloriafood_order_id order = external_order_id o
    /\ orders w'
       = insert_or_update OrderDatabase.on_conflict
           (OrderDatabase.inserted_row order) (orders w)
    /\ GloriaFoodOrderFetcher.storeOrders env (o :: rest) a b w
       = if existsb (has_id (GloriaFoodOrderFetcher.lookup_key o)) (orders w)
         then GloriaFoodOrderFetcher.storeOrders env rest a (S b) w'
         else GloriaFoodOrderFetcher.storeOrders env rest (S a) b w'.
Proof.
  intros Hn Hshow.
  destruct (sqlite_get_run env calm (GloriaFoodOrderFetcher.lookup_key o) w)
    as (wg & Hget & Htg & _).
  destruct (sqlite_upsert_run env calm o wg Hn) as (order & wu & Hb & Hup & Htu & _).
  destruct (order_built_fields _ _ _ _ _ _ _ _ Hb) as (Hid & _).
  destruct (order_built_payload _ _ _ _ _ _ _ _ Hb) as (_ & Hso).
  destruct (upsert_returns_row OrderDatabase.on_conflict
              (OrderDatabase.inserted_row order) (orders wg)
              (merge_id _ _ sqlite_clauses)) as (saved & Hsaved).
  rewrite (row_id _ _ sqlite_clauses) in Hsaved.
  pose proof (saved_status SQLite order saved (orders wg) Hsaved) as Hss.
  rewrite Hso in Hss. rewrite Hsaved in Hup.
  exists order, wu. split; [exact Hid|]. split; [now rewrite Htu, Htg|].
  cbn [GloriaFoodOrderFetcher.storeOrders]. rewrite Hn.
  erewrite bind_done by exact Hget.
  erewrite bind_done by exact Hup.
  destruct (existsb (has_id (GloriaFoodOrderFetcher.lookup_key o)) (orders w)) eqn:He.
  - destruct (hd_select_present _ _ He) as (r & Hr). now rewrite Hr.
  - rewrite (select_absent _ _ He). cbn [hd_error].
    unfold GloriaFoodOrderFetcher.displayOrder. rewrite Hss.
    erewrite bind_done by (apply formatStatus_passes; exact Hshow).
    reflexivity.
Qed.

(** The whole loop over orders that carry an [id] and can be displayed. *)
Lemma storeOrders_run (batch : list JValue) :
  forall (a b : nat) (w : World),
  unique_ids (orders w) ->
  Forall (fun o => has_own_id o = true) batch ->
  Forall (fun o => displayable o = true) batch ->
  exists n u w',
    GloriaFoodOrderFetcher.storeOrders env batch a b w = (Done (a + n, b + u), w')
    /\ n + u = List.length batch
    /\ List.length (orders w') = List.length (orders w) + n
    /\ unique_ids (orders w')
    /\ (forall k, existsb (has_id k) (orders w) = true ->
                  existsb (has_id k) (orders w') = true)
    /\ Forall (fun o => existsb (has_id (external_order_id o)) (orders w') = true) batch
    /\ (Forall (fun o => existsb (has_id (external_order_id o)) (orders w) = true) batch ->
        n = 0).
Proof.
  induction batch as [|o rest IH]; intros a b w Hu Hall Hshown.
  - exists 0, 0, w. cbn [GloriaFoodOrderFetcher.storeOrders]. unfold ret.
    rewrite !Nat.add_0_r. repeat split; auto.
  - inversion Hall as [|? ? Ho Hrest]; subst.
    inversion Hshown as [|? ? Hso Hsrest]; subst.
    destruct (storeOrders_step o rest a b w (own_id_not_nullish o Ho) Hso)
      as (order & w1 & Hid & Ht & Hstep).
    rewrite (own_id_keys_agree o Ho) in Hstep.
    pose proof (merge_id _ _ sqlite_clauses) as Hm.
    assert (Hu1 : unique_ids (orders w1)).
    { rewrite Ht. now apply insert_or_update_unique. }
    assert (Hex : forall k, existsb (has_id k) (orders w1)
                            = existsb (has_id k) (orders w)
                              || String.eqb (external_order_id o) k).
    { intros k. rewrite Ht, (existsb_after_upsert _ k _ _ Hm).
      now rewrite (row_id _ _ sqlite_clauses), Hid. }
    assert (Hlen : List.length (orders w1)
                   = if existsb (has_id (external_order_id o)) (orders w)
                     then List.length (orders w) else S (List.length (orders w))).
    { rewrite Ht, length_after_upsert.
      now rewrite (row_id _ _ sqlite_clauses), Hid. }
    destruct (existsb (has_id (external_order_id o)) (orders w)) eqn:He.
    + destruct (IH a (S b) w1 Hu1 Hrest Hsrest) as (n & u & w' & Hrun & Hsum & Hl & Hu' & Hmono & Hin & Hzero).
      exists n, (S u), w'. rewrite Hstep, Hrun.
      split; [do 3 f_equal; lia|].
      split; [simpl; lia|].
      split; [lia|].
      split; [exact Hu'|].
      split; [intros k Hk; apply Hmono; rewrite Hex, Hk; reflexivity|].
      split.
      * constructor; [|exact Hin]. apply Hmono. rewrite Hex, String.eqb_refl.
        apply orb_true_r.
      * intros Hpre. inversion Hpre as [|? ? _ Hpre']; subst.
        apply Hzero. eapply Forall_impl; [|exact Hpre'].
        intros o' Ho'. simpl in Ho'. rewrite Hex, Ho'. reflexivity.
    + destruct (IH (S a) b w1 Hu1 Hrest Hsrest) as (n & u & w' & Hrun & Hsum & Hl & Hu' & Hmono & Hin & Hzero).
      exists (S n), u, w'. rewrite Hstep, Hrun.
      split; [do 3 f_equal; lia|].
      split; [simpl; lia|].
      split; [lia|].
      split; [exact Hu'|].
      split; [intros k Hk; apply Hmono; rewrite Hex, Hk; reflexivity|].
      split.
      * constructor; [|exact Hin]. apply Hmono. rewrite Hex, String.eqb_refl.
        apply orb_true_r.
      * intros Hpre. inversion Hpre as [|? ? Hhere _]; subst. congruence.
Qed.

End Polling.





(* ================================================================== *)
(** * Which rows a webhook touches *)
(* ================================================================== *)

Lemma select_after_update_other (k k' : string) (f : Order -> Order) (t : list Order) :
  (forall r, gloriafood_order_id (f r) = gloriafood_order_id r) ->
  k <> k' ->
  select_by_id k (update_where_id k' f t) = select_by_id k t.
Proof.
  intros Hf Hk. rewrite (select_after_update_where k k' f t Hf).
  rewrite <- (map_id (select_by_id k t)) at 2. apply map_ext_in.
  intros r Hr. apply select_in_id in Hr.
  destruct (has_id k' r) eqn:E; [|reflexivity].
  apply has_id_true in E. congruence.
Qed.

Lemma existsb_after_update (k k' : string) (f : Order -> Order) (t : list Order) :
  (forall r, gloriafood_order_id (f r) = gloriafood_order_id r) ->
  existsb (has_id k) (update_where_id k' f t) = existsb (has_id k) t.
Proof.
  intros Hf. apply eq_true_iff_eq. rewrite !existsb_has_id.
  unfold update_where_id. rewrite map_map.
  replace (map (fun x => gloriafood_order_id (if has_id k' x then f x else x)) t)
    with (map gloriafood_order_id t); [tauto|].
  apply map_ext. intros r. destruct (has_id k' r); [now rewrite Hf | reflexivity].
Qed.

Section OwnRows.

Variable env : Env.
Hypothesis calm : no_db_faults env.
Variable dbType : DbType.
Variable configured : bool.

(** A webhook touches the rows under the id it stores and the id it marks,
    and no other. *)
Lemma webhook_touches_its_own_rows (req : WebhookRequest) (w : World) (k : string) :
  pool_available w ->
  let p := orderData_of (body req) (query req) in
  truthy p = true ->
  k <> external_order_id p ->
  k <> handler_key p ->
  exists resp w',
    handleWebhook env configured (database := createDatabase env dbType) req w
      = (Done resp, w')
    /\ resp = (if display_passes p (existing_before p w)
               then OrderProcessed (orderId_of p)
               else WebhookError "colorizer is not a function")
    /\ existsb (has_id (external_order_id p)) (orders w') = true
    /\ select_by_id k (orders w') = select_by_id k (orders w).
Proof.
  intros Hpool p Hp Hk1 Hk2.
  pose proof (backend_clauses dbType) as C.
  assert (Hupsert : forall order w1,
            gloriafood_order_id order = external_order_id p ->
            orders w1
            = insert_or_update (upsert_merge dbType) (upsert_row dbType order) (orders w) ->
            existsb (has_id (external_order_id p)) (orders w1) = true
            /\ select_by_id k (orders w1) = select_by_id k (orders w)).
  { intros order w1 Hoid Ht1. rewrite Ht1. split.
    - rewrite (existsb_after_upsert _ _ _ _ (merge_id _ _ C)).
      rewrite (row_id _ _ C), Hoid, String.eqb_refl. apply orb_true_r.
    - apply (select_after_upsert_other _ (merge_id _ _ C)).
      rewrite (row_id _ _ C), Hoid. congruence. }
  destruct (display_passes p (existing_before p w)) eqn:Hshow.
  2:{ destruct (handle_run_undisplayed env calm dbType configured req w Hpool Hp Hshow)
        as (order & w1 & Hoid & _ & _ & Ht1 & _ & _ & Hrun).
      destruct (Hupsert order w1 Hoid Ht1) as (Hex1 & Hsel1).
      eexists. exists w1. split; [exact Hrun|]. split; [reflexivity|].
      split; [exact Hex1 | exact Hsel1]. }
  destruct (handle_run_exact env calm dbType configured req w Hpool Hp Hshow)
    as (order & w1 & w2 & Hoid & _ & _ & Ht1 & _ & Hp1 & Hrun & Hphase).
  fold p in Hoid, Hrun, Hphase.
  destruct (Hupsert order w1 Hoid Ht1) as (Hex1 & Hsel1).
  eexists. exists w2. split; [exact Hrun|]. split; [reflexivity|].
  destruct (isDeliveryOrder p && wasNotSent (existing_before p w)).
  2:{ subst w2. split; [exact Hex1 | exact Hsel1]. }
  destruct (dispatch_run_exact env calm dbType configured p (orderId_of p) w1 Hp1)
    as (w' & Hd & _ & Hcases).
  rewrite Hphase in Hd. injection Hd as <-.
  assert (Hmark : forall ddId stamp r,
            gloriafood_order_id (backend_mark dbType ddId stamp r) = gloriafood_order_id r).
  { intros ddId stamp r. apply backend_mark_fields. }
  destruct (configured && passes_type_gate p);
    [destruct (drive_payload env p w1) as [e|payload]|].
  - destruct Hcases as [_ Ho]. rewrite Ho. split; [exact Hex1 | exact Hsel1].
  - destruct Hcases as [_ Ho].
    destruct (http env (List.length (http_log w1)) (HttpPost "/deliveries" payload)).
    + destruct Ho as (stamp & Ho). rewrite Ho.
      split.
      * rewrite existsb_after_update by apply Hmark. exact Hex1.
      * rewrite select_after_update_other; [exact Hsel1 | apply Hmark | exact Hk2].
    + rewrite Ho. split; [exact Hex1 | exact Hsel1].
    + rewrite Ho. split; [exact Hex1 | exact Hsel1].
  - destruct Hcases as [_ Ho]. rewrite Ho. split; [exact Hex1 | exact Hsel1].
Qed.

End OwnRows.



(* ================================================================== *)
(** * The choice of the backend *)
(* ================================================================== *)

(** X30.  MySQL is selected only through [DB_TYPE]: when [DB_TYPE] is [mysql] in
    any case, or when it is set to something else than [sqlite] and one of
    [DB_HOST], [DB_USER], [DB_NAME] is set.  With [DB_TYPE] unset or empty
    the default [sqlite] is applied first, so the MySQL settings alone
    never select MySQL. *)
Theorem mysql_is_selected_only_through_DB_TYPE
    (DB_TYPE DB_HOST DB_USER DB_NAME : EnvVar) :
  (selectedDatabase DB_TYPE DB_HOST DB_USER DB_NAME = MySQL <->
   exists s, DB_TYPE = Some s
     /\ (toLowerCase s = "mysql"
         \/ (toLowerCase s <> "" /\ toLowerCase s <> "sqlite"
             /\ (is_set DB_HOST || is_set DB_USER || is_set DB_NAME) = true)))
  /\ selectedDatabase None DB_HOST DB_USER DB_NAME = SQLite
  /\ selectedDatabase (Some "") DB_HOST DB_USER DB_NAME = SQLite.
Proof.
  split; [|split; unfold selectedDatabase; simpl; now rewrite andb_false_r].
  unfold selectedDatabase.
  destruct DB_TYPE as [s|].
  2:{ simpl. rewrite andb_false_r. split; [discriminate|].
      intros (s & Hs & _). discriminate. }
  rewrite is_empty_eqb.
  destruct (String.eqb (toLowerCase s) "") eqn:He.
  - apply String.eqb_eq in He. simpl. rewrite andb_false_r.
    split; [discriminate|].
    intros (s' & Hs & [Hm | (Hn & _)]); injection Hs as <-.
    + rewrite He in Hm. discriminate.
    + contradiction.
  - apply String.eqb_neq in He.
    destruct (String.eqb (toLowerCase s) "mysql") eqn:Hm.
    + apply String.eqb_eq in Hm. simpl. split; [|reflexivity].
      intros _. exists s. split; [reflexivity | now left].
    + apply String.eqb_neq in Hm. simpl.
      destruct (String.eqb (toLowerCase s) "sqlite") eqn:Hs.
      * apply String.eqb_eq in Hs. rewrite andb_false_r.
        split; [discriminate|].
        intros (s' & Hs' & [Hm' | (_ & Hn & _)]); injection Hs' as <-; contradiction.
      * apply String.eqb_neq in Hs. rewrite andb_true_r.
        destruct (is_set DB_HOST || is_set DB_USER || is_set DB_NAME) eqn:Hc.
        -- split; [|reflexivity]. intros _. exists s.
           split; [reflexivity|]. right. repeat split; assumption.
        -- split; [discriminate|].
           intros (s' & Hs' & [Hm' | (_ & _ & Hc')]); injection Hs' as <-;
             [contradiction | discriminate].
Qed.

(* ================================================================== *)
(** * A status the display cannot render *)
(* ================================================================== *)

(** X21.  A new order whose status lowercases to [__proto__] is stored, but
    its display throws: the webhook is answered with the 200 and
    [success: false], and this delivery makes no dispatch attempt and sends
    the partner nothing, whatever the type of the order.  When the handler
    and the store key the order alike, the same webhook delivered again is
    an update, which is not displayed: it is answered with success, and a
    delivery order is then dispatched. *)
Theorem new_order_with_proto_status_is_not_dispatched
    (env : Env) (dbType : DbType) (configured : bool)
    (req : WebhookRequest) (w : World) :
  no_db_faults env ->
  pool_available w ->
  let p := orderData_of (body req) (query req) in
  truthy p = true ->
  stored_under (handler_key p) (orders w) = 0 ->
  displayable p = false ->
  exists w1,
    handleWebhook env configured (database := createDatabase env dbType) req w
      = (Done (WebhookError "colorizer is not a function"), w1)
    /\ statusCode (WebhookError "colorizer is not a function") = 200%Z
    /\ success (WebhookError "colorizer is not a function") = JBool false
    /\ existsb (has_id (external_order_id p)) (orders w1) = true
    /\ http_log w1 = http_log w
    /\ dispatch_attempts w1 = dispatch_attempts w
    /\ (keyed_alike p ->
        exists w2,
          handleWebhook env configured (database := createDatabase env dbType) req w1
            = (Done (OrderProcessed (orderId_of p)), w2)
          /\ dispatch_attempts w2
             = dispatch_attempts w + (if configured && passes_type_gate p then 1 else 0)).
Proof.
  intros calm Hpool p Hp Hnew Hshow.
  pose proof (backend_clauses dbType) as C.
  assert (Hpass : display_passes p (existing_before p w) = false).
  { unfold existing_before. now rewrite (stored_under_zero_select _ _ Hnew). }
  destruct (handle_run_undisplayed env calm dbType configured req w Hpool Hp Hpass)
    as (order & w1 & Hoid & _ & _ & Ht1 & (Q1 & Q2 & Q3) & Hp1 & Hrun).
  fold p in Hoid, Hrun.
  exists w1. split; [exact Hrun|]. split; [reflexivity|]. split; [reflexivity|].
  split.
  { rewrite Ht1, (existsb_after_upsert _ _ _ _ (merge_id _ _ C)).
    rewrite (row_id _ _ C), Hoid, String.eqb_refl. apply orb_true_r. }
  split; [exact Q2|]. split; [exact Q3|].
  intros Hkey. unfold keyed_alike in Hkey. rewrite Hkey in Hoid.
  (* the record the second delivery finds *)
  assert (Hsel : select_by_id (handler_key p) (orders w1) = [upsert_row dbType order]).
  { rewrite Ht1, <- Hoid. apply (first_upsert_table _ _ C).
    rewrite Hoid. now apply stored_under_zero. }
  assert (Hex : existing_before p w1 = Some (upsert_row dbType order)).
  { unfold existing_before. now rewrite Hsel. }
  assert (Hpass1 : display_passes p (existing_before p w1) = true) by now rewrite Hex.
  destruct (handle_run env calm dbType configured req w1 Hp1 Hp Hpass1)
    as (order2 & wa & w2 & _ & _ & (R1 & R2 & R3) & Hphase & _ & Hrun2).
  fold p in Hphase, Hrun2.
  exists w2. split; [exact Hrun2|].
  unfold dispatch_phase, when in Hphase. rewrite Hex in Hphase.
  unfold wasNotSent in Hphase. rewrite (row_unsent _ _ C), Z.eqb_refl, andb_true_r in Hphase.
  destruct (passes_type_gate p) eqn:Hgate.
  - rewrite (passes_type_gate_delivery p Hgate) in Hphase. rewrite andb_true_r.
    destruct configured eqn:Hc.
    + destruct (dispatch_attempts_run env calm dbType true p (orderId_of p) wa
                  eq_refl Hgate) as (w' & Hd & Ha & _).
      { unfold pool_available in *. now rewrite R1. }
      rewrite Hd in Hphase. injection Hphase as <-. lia.
    + rewrite dispatch_skips in Hphase by reflexivity.
      injection Hphase as <-. lia.
  - rewrite andb_false_r.
    assert (Hsame : w2 = wa).
    { destruct (isDeliveryOrder p).
      - rewrite dispatch_skips in Hphase by (rewrite Hgate; apply andb_false_r).
        now injection Hphase.
      - now injection Hphase. }
    subst w2. lia.
Qed.

Lemma proto_status_witness :
  exists w1 w2,
    handleWebhook (Samples.calm_env Samples.partner_accepts) true
      (database := createDatabase (Samples.calm_env Samples.partner_accepts) SQLite)
      (Samples.webhook (Samples.order_555 "delivery" "__PROTO__")) Samples.empty_world
      = (Done (WebhookError "colorizer is not a function"), w1)
    /\ dispatch_attempts w1 = 0
    /\ handleWebhook (Samples.calm_env Samples.partner_accepts) true
         (database := createDatabase (Samples.calm_env Samples.partner_accepts) SQLite)
         (Samples.webhook (Samples.order_555 "delivery" "__PROTO__")) w1
       = (Done (OrderProcessed (JStr "555")), w2)
    /\ dispatch_attempts w2 = 1.
Proof.
  destruct (new_order_with_proto_status_is_not_dispatched
              (Samples.calm_env Samples.partner_accepts) SQLite true
              (Samples.webhook (Samples.order_555 "delivery" "__PROTO__"))
              Samples.empty_world)
    as (w1 & H1 & _ & _ & _ & _ & Ha1 & Hnext).
  - intros i. reflexivity.
  - apply Nat.ltb_lt. reflexivity.
  - reflexivity.
  - reflexivity.
  - reflexivity.
  - destruct (Hnext eq_refl) as (w2 & H2 & Ha2).
    exists w1, w2. split; [exact H1|]. split; [exact Ha1|].
    split; [exact H2 | exact Ha2].
Defined.
